(** * Spatiotemporal resolution and period selection

    A shallow embedding of the resolution core of the astrology backend:

    - [backend/app/utils/geo.py]: [format_offset], [geocode_location],
      [offset_from_tzid], [timezone_for_coords] and the two process-wide
      caches;
    - [backend/app/routers/analyze.py]: [_current_period];
    - [backend/app/routers/compute.py]: the [compute] endpoint.

    Python values that travel through these functions (decoded JSON bodies,
    period records) are modelled by [pyval]; Python [float] is the binary64
    type of the kernel; exceptions are explicit ([outcome]); the module-level
    dictionaries and the outbound HTTP calls are threaded through a state. *)

From Stdlib Require Import ZArith Lia Bool List Ascii String.
From Stdlib Require Import DecimalString Floats.
From stdpp Require Import base option list strings gmap.

Import ListNotations.
Set Warnings "-register-all,-inexact-float".
Local Open Scope string_scope.
Local Open Scope Z_scope.

(** ** Decimal rendering of non-negative integers *)

(** [str(n)] for a non-negative Python [int]. *)
Definition decimal (n : Z) : string :=
  NilEmpty.string_of_uint (N.to_uint (Z.to_N n)).

(** The format spec [0{w}d] on a non-negative integer: the decimal digits,
    padded on the left with zeros up to a MINIMUM width [w]. *)
Definition zero_pad (w : nat) (n : Z) : string :=
  let d := decimal n in
  String.concat "" (repeat "0" (w - String.length d)%nat) ++ d.

(** ** [format_offset] (geo.py, lines 15-20) *)

Definition format_offset (seconds : Z) : string :=
  let sign := if 0 <=? seconds then "+" else "-" in
  let sec := Z.abs seconds in
  let hh := sec / 3600 in
  let mm := (sec mod 3600) / 60 in
  sign ++ zero_pad 2 hh ++ ":" ++ zero_pad 2 mm.

(** ** A small regular-expression matcher

    Used to state the [±HH:MM] shape the way the specification writes it.
    Matching is by Brzozowski derivatives. *)

Module Regex.

Inductive t : Type :=
| Void
| Eps
| Class (p : ascii -> bool)
| Seq (r1 r2 : t)
| Alt (r1 r2 : t)
| Star (r : t).

Fixpoint nullable (r : t) : bool :=
  match r with
  | Void => false
  | Eps => true
  | Class _ => false
  | Seq r1 r2 => nullable r1 && nullable r2
  | Alt r1 r2 => nullable r1 || nullable r2
  | Star _ => true
  end.

Fixpoint deriv (a : ascii) (r : t) : t :=
  match r with
  | Void => Void
  | Eps => Void
  | Class p => if p a then Eps else Void
  | Seq r1 r2 =>
      if nullable r1
      then Alt (Seq (deriv a r1) r2) (deriv a r2)
      else Seq (deriv a r1) r2
  | Alt r1 r2 => Alt (deriv a r1) (deriv a r2)
  | Star r1 => Seq (deriv a r1) (Star r1)
  end.

(** Whole-string match. *)
Fixpoint fullmatch (r : t) (s : string) : bool :=
  match s with
  | EmptyString => nullable r
  | String a s' => fullmatch (deriv a r) s'
  end.

Definition char (c : ascii) : t := Class (Ascii.eqb c).
Definition opt (r : t) : t := Alt Eps r.

Definition is_digit (a : ascii) : bool :=
  let n := nat_of_ascii a in ((48 <=? n) && (n <=? 57))%nat.

Definition digit : t := Class is_digit.

End Regex.

(** The pattern [^[+-]\d{2}:\d{2}$].  Python's [$] matches at the end of the
    string and also just before a final newline, hence the optional
    newline. *)
Definition offset_pattern : Regex.t :=
  Regex.Seq (Regex.Alt (Regex.char "+") (Regex.char "-"))
   (Regex.Seq Regex.digit
     (Regex.Seq Regex.digit
       (Regex.Seq (Regex.char ":")
         (Regex.Seq Regex.digit
           (Regex.Seq Regex.digit
             (Regex.opt (Regex.char "010"))))))).

Definition matches_offset_pattern (s : string) : bool :=
  Regex.fullmatch offset_pattern s.

(** ** Python values and exceptions *)

(** Values as they come out of [json.loads] and travel through the code:
    period records, response bodies, the fields read from them. *)
Inductive pyval : Type :=
| PNone
| PBool (b : bool)
| PInt (n : Z)
| PFloat (x : float)
| PStr (s : string)
| PList (items : list pyval)
| PDict (fields : list (string * pyval)).

(** [bool(v)]: [None], [False], zero, and empty containers are falsy. *)
Definition truthy (v : pyval) : bool :=
  match v with
  | PNone => false
  | PBool b => b
  | PInt n => negb (n =? 0)
  | PFloat x => negb (PrimFloat.eqb x 0%float)
  | PStr s => negb (String.eqb s "")
  | PList items => match items with [] => false | _ => true end
  | PDict fields => match fields with [] => false | _ => true end
  end.

(** [a or b]. *)
Definition py_or (a b : pyval) : pyval := if truthy a then a else b.

(** Lookup in a dict, held as an association list (first binding wins). *)
Fixpoint assoc (k : string) (fields : list (string * pyval)) : option pyval :=
  match fields with
  | [] => None
  | (k', v) :: rest => if String.eqb k k' then Some v else assoc k rest
  end.

(** The exceptions these functions can meet.  [json.JSONDecodeError] is a
    subclass of [ValueError] and is folded into it; [HTTPError] stands for
    [httpx.HTTPError] and all its subclasses (transport errors and
    [HTTPStatusError]); [ValidationError] is pydantic's, raised by the
    constructor of a model whose fields do not validate. *)
Inductive http_detail : Type :=
| CouldNotGeocode
| TimezoneUnresolved
| LocationResolutionFailed.

Inductive exn : Type :=
| HTTPError
| KeyError
| IndexError
| ValueError
| TypeError
| AttributeError
| OverflowError
| ValidationError
| HTTPException (status : Z) (detail : http_detail).

Inductive outcome (A : Type) : Type :=
| Return (a : A)
| Raise (e : exn).
Arguments Return {A} a.
Arguments Raise {A} e.

Definition bind {A B : Type} (m : outcome A) (k : A -> outcome B) : outcome B :=
  match m with
  | Return a => k a
  | Raise e => Raise e
  end.

Notation "'do' x <- m ; k" := (bind m (fun x => k))
  (at level 10, x name, m at level 100, k at level 200,
   format "'[v' 'do'  x  <-  m ; '/' k ']'").

(** [try: m  except Exception: h]. *)
Definition catch_all {A : Type} (m : outcome A) (h : A) : A :=
  match m with
  | Return a => a
  | Raise _ => h
  end.

(** [v.get(k)]: only a dict has the method. *)
Definition py_get (v : pyval) (k : string) : outcome pyval :=
  match v with
  | PDict fields => Return (default PNone (assoc k fields))
  | _ => Raise AttributeError
  end.

(** [v[k]] with a string key. *)
Definition py_item (v : pyval) (k : string) : outcome pyval :=
  match v with
  | PDict fields =>
      match assoc k fields with
      | Some x => Return x
      | None => Raise KeyError
      end
  | _ => Raise TypeError
  end.

(** [v[0]]. *)
Definition py_first (v : pyval) : outcome pyval :=
  match v with
  | PList (x :: _) => Return x
  | PList [] => Raise IndexError
  | PStr (String a _) => Return (PStr (String a EmptyString))
  | PStr EmptyString => Raise IndexError
  | PDict _ => Raise KeyError
  | _ => Raise TypeError
  end.

(** ** [datetime] *)

(** A [datetime]: the wall-clock reading in microseconds since
    0001-01-01T00:00:00, and the UTC offset of its [tzinfo] in microseconds
    ([None] for a naive value). *)
Record datetime : Type := mk_datetime {
  wall : Z;
  tzinfo : option Z
}.

Definition usec_per_day : Z := 86400 * 1000000.

(** [datetime.max] is 9999-12-31T23:59:59.999999, day 3652059 of the
    proleptic Gregorian calendar. *)
Definition wall_in_range (w : Z) : bool :=
  (0 <=? w) && (w <? 3652059 * usec_per_day).

(** The normalisation of lines 47-54 and 58-61 of analyze.py:
    [d.replace(tzinfo=utc)] for a naive value, [d.astimezone(utc)] for an
    aware one.  The latter raises [OverflowError] when the UTC reading
    leaves the representable range. *)
Definition normalize_utc (d : datetime) : outcome datetime :=
  match tzinfo d with
  | None => Return (mk_datetime (wall d) (Some 0))
  | Some off =>
      if wall_in_range (wall d - off)
      then Return (mk_datetime (wall d - off) (Some 0))
      else Raise OverflowError
  end.

(** [a <= b] on datetimes: by instant when both are aware, by wall clock
    when both are naive, [TypeError] when they are mixed. *)
Definition dt_le (a b : datetime) : outcome bool :=
  match tzinfo a, tzinfo b with
  | Some oa, Some ob => Return (wall a - oa <=? wall b - ob)
  | None, None => Return (wall a <=? wall b)
  | _, _ => Raise TypeError
  end.

(** ** The period selector: [_current_period] (analyze.py, lines 35-72) *)

(** A normalised candidate: the tuple [(s, e, p)] appended to [filtered]. *)
Definition candidate : Type := (datetime * datetime * pyval)%type.

Definition cand_start (c : candidate) : datetime := fst (fst c).
Definition cand_end (c : candidate) : datetime := snd (fst c).
Definition cand_period (c : candidate) : pyval := snd c.

(** The instant of an aware datetime, in microseconds. *)
Definition instant (d : datetime) : Z := wall d - default 0 (tzinfo d).

(** [filtered.sort(key=lambda x: x[0])]: the sort is stable, so the result
    is the one stable insertion sort gives.  All keys are aware, hence the
    comparison is by instant and cannot raise. *)
Fixpoint insert_by_start (c : candidate) (l : list candidate) : list candidate :=
  match l with
  | [] => [c]
  | c' :: l' =>
      if instant (cand_start c') <? instant (cand_start c)
      then c' :: insert_by_start c l'
      else c :: c' :: l'
  end.

Fixpoint sort_by_start (l : list candidate) : list candidate :=
  match l with
  | [] => []
  | c :: l' => insert_by_start c (sort_by_start l')
  end.

Section PeriodSelector.

(** [datetime.fromisoformat] on a [str]; [None] stands for [ValueError]. *)
Variable fromisoformat : string -> option datetime.

(** The reading of [datetime.now(timezone.utc)], in microseconds. *)
Variable utcnow : Z.

(** [datetime.fromisoformat(v)] on any value: a non-[str] argument raises
    [TypeError]. *)
Definition py_fromisoformat (v : pyval) : outcome datetime :=
  match v with
  | PStr s =>
      match fromisoformat s with
      | Some d => Return d
      | None => Raise ValueError
      end
  | _ => Raise TypeError
  end.

(** The body of the [try] of lines 43-64 for one entry [p]: the candidate
    to append, or [None] when [bd_ok] is false. *)
Definition normalize_entry (birth_dt : option datetime) (p : pyval)
  : outcome (option candidate) :=
  do s_raw <- py_get p "start";
  do s0 <- py_fromisoformat s_raw;
  do e_raw <- py_get p "end";
  do e0 <- py_fromisoformat e_raw;
  do s <- normalize_utc s0;
  do e <- normalize_utc e0;
  do bd_ok <-
    match birth_dt with
    | None => Return true
    | Some bd0 =>
        do bd <- normalize_utc bd0;
        dt_le bd e
    end;
  Return (if bd_ok then Some (s, e, p) else None).

(** One iteration of the first loop: an entry whose [try] body raises is
    skipped ([except Exception: continue]). *)
Definition try_entry (birth_dt : option datetime) (p : pyval) : option candidate :=
  catch_all (normalize_entry birth_dt p) None.

(** The first loop (lines 42-66). *)
Fixpoint build_filtered (birth_dt : option datetime) (periods : list pyval)
  : list candidate :=
  match periods with
  | [] => []
  | p :: rest =>
      match try_entry birth_dt p with
      | Some c => c :: build_filtered birth_dt rest
      | None => build_filtered birth_dt rest
      end
  end.

(** The second loop (lines 67-69): [s <= now <= e] is [s <= now and
    now <= e], evaluated left to right; a comparison that raises is not
    caught. *)
Fixpoint first_containing (now : datetime) (filtered : list candidate)
  : outcome (option pyval) :=
  match filtered with
  | [] => Return None
  | (s, e, p) :: rest =>
      do after_start <- dt_le s now;
      if after_start
      then do before_end <- dt_le now e;
           if before_end then Return (Some p) else first_containing now rest
      else first_containing now rest
  end.

Definition _current_period (periods : pyval) (birth_dt now : option datetime)
  : outcome (option pyval) :=
  let now := default (mk_datetime utcnow (Some 0)) now in
  match periods with
  | PList periods =>
      let filtered := build_filtered birth_dt periods in
      do hit <- first_containing now filtered;
      match hit with
      | Some p => Return (Some p)
      | None =>
          match sort_by_start filtered with
          | c :: _ => Return (Some (cand_period c))
          | [] => Return (head periods)
          end
      end
  | _ => Return None
  end.

End PeriodSelector.

(** *** Vocabulary for the selector's properties *)

(** The interval test of line 68 on instants. *)
Definition contains_instant (now : datetime) (c : candidate) : Prop :=
  instant (cand_start c) <= instant now <= instant (cand_end c).

(** A candidate as the first loop builds it: both ends aware and in UTC. *)
Definition utc_candidate (c : candidate) : Prop :=
  tzinfo (cand_start c) = Some 0 /\ tzinfo (cand_end c) = Some 0.

(** An entry whose [start] or [end] cannot be read as a datetime. *)
Definition unparseable (fromisoformat : string -> option datetime) (p : pyval) : Prop :=
  (exists e, (do v <- py_get p "start"; py_fromisoformat fromisoformat v) = Raise e)
  \/ (exists e, (do v <- py_get p "end"; py_fromisoformat fromisoformat v) = Raise e).

(** The reference instant the selector works with: the argument, or the
    clock. *)
Definition reference_instant (utcnow : Z) (now : option datetime) : datetime :=
  default (mk_datetime utcnow (Some 0)) now.

(** An entry that did end before the birth instant, both normalised. *)
Definition ended_before_birth (fromisoformat : string -> option datetime)
  (birth : datetime) (p : pyval) : Prop :=
  exists e_raw e0 e b,
    py_get p "end" = Return e_raw
    /\ py_fromisoformat fromisoformat e_raw = Return e0
    /\ normalize_utc e0 = Return e
    /\ normalize_utc birth = Return b
    /\ instant e < instant b.

(** ** A concrete [fromisoformat]

    The grammar [datetime.isoformat()] emits, which every version of
    [datetime.fromisoformat] accepts:
    [YYYY-MM-DD[*HH[:MM[:SS[.fff[fff]]]][(+|-)HH:MM[:SS[.ffffff]]]]].
    The further forms Python accepts from 3.11 on (a [Z] suffix, the
    basic format without separators, week dates) are refused here.  It
    instantiates the parser of the selector in the worked examples, on
    strings of the common grammar only; the general statements range over
    any parser. *)

Module Iso.

Definition digit_val (a : ascii) : option Z :=
  if Regex.is_digit a then Some (Z.of_nat (nat_of_ascii a) - 48) else None.

(** Exactly [n] decimal digits at the front of [s]. *)
Fixpoint digits (n : nat) (acc : Z) (s : string) : option (Z * string) :=
  match n with
  | O => Some (acc, s)
  | S n' =>
      match s with
      | String a s' =>
          match digit_val a with
          | Some v => digits n' (10 * acc + v) s'
          | None => None
          end
      | EmptyString => None
      end
  end.

Definition expect (c : ascii) (s : string) : option string :=
  match s with
  | String a s' => if Ascii.eqb a c then Some s' else None
  | EmptyString => None
  end.

Definition is_leap (y : Z) : bool :=
  (y mod 4 =? 0) && (negb (y mod 100 =? 0) || (y mod 400 =? 0)).

Definition days_in_month (y m : Z) : Z :=
  if m =? 2 then (if is_leap y then 29 else 28)
  else if (m =? 4) || (m =? 6) || (m =? 9) || (m =? 11) then 30
  else 31.

Definition days_before_year (y : Z) : Z :=
  let p := y - 1 in p * 365 + p / 4 - p / 100 + p / 400.

Fixpoint days_before_month (y : Z) (m : nat) : Z :=
  match m with
  | O => 0
  | S m' => days_before_month y m' + days_in_month y (Z.of_nat (S m'))
  end.

(** [date.toordinal() - 1]. *)
Definition day_number (y m d : Z) : Z :=
  days_before_year y + days_before_month y (Z.to_nat (m - 1)) + (d - 1).

Definition parse_date (s : string) : option (Z * string) :=
  '(y, s) ← digits 4 0 s;
  s ← expect "-" s;
  '(m, s) ← digits 2 0 s;
  s ← expect "-" s;
  '(d, s) ← digits 2 0 s;
  if (1 <=? y) && (1 <=? m) && (m <=? 12) && (1 <=? d) && (d <=? days_in_month y m)
  then Some (day_number y m d, s)
  else None.

(** [.fff] or [.ffffff], in microseconds; nothing may follow but what
    the caller expects. *)
Definition parse_fraction (s : string) : option (Z * string) :=
  match digits 6 0 s with
  | Some r => Some r
  | None => '(ms, s) ← digits 3 0 s; Some (ms * 1000, s)
  end.

(** [HH[:MM[:SS[.fff[fff]]]]] as (hours, minutes, seconds, microseconds). *)
Definition parse_hms (s : string) : option (Z * Z * Z * Z * string) :=
  '(h, s) ← digits 2 0 s;
  match expect ":" s with
  | None => Some (h, 0, 0, 0, s)
  | Some s =>
      '(m, s) ← digits 2 0 s;
      match expect ":" s with
      | None => Some (h, m, 0, 0, s)
      | Some s =>
          '(sec, s) ← digits 2 0 s;
          match expect "." s with
          | None => Some (h, m, sec, 0, s)
          | Some s => '(us, s) ← parse_fraction s; Some (h, m, sec, us, s)
          end
      end
  end.

Definition usec_of (h m s us : Z) : Z :=
  ((h * 60 + m) * 60 + s) * 1000000 + us.

(** The offset suffix: minutes are mandatory, and [timezone] insists on
    an offset strictly inside one day. *)
Definition parse_offset (s : string) : option (option Z) :=
  match s with
  | EmptyString => Some None
  | String c s' =>
      sign ← (if Ascii.eqb c "+" then Some 1
              else if Ascii.eqb c "-" then Some (-1) else None);
      '(h, s1) ← digits 2 0 s';
      _ ← expect ":" s1;
      '(h, m, sec, us, rest) ← parse_hms s';
      if String.eqb rest "" && (h <? 24) && (m <? 60) && (sec <? 60)
      then Some (Some (sign * usec_of h m sec us))
      else None
  end.

Definition fromisoformat (s : string) : option datetime :=
  '(day, s) ← parse_date s;
  match s with
  | EmptyString => Some (mk_datetime (day * usec_per_day) None)
  | String _ s =>
      '(h, m, sec, us, s) ← parse_hms s;
      tz ← parse_offset s;
      if (h <? 24) && (m <? 60) && (sec <? 60)
      then Some (mk_datetime (day * usec_per_day + usec_of h m sec us) tz)
      else None
  end.

End Iso.

(** *** The periods of the worked examples *)

Definition period_A : pyval :=
  PDict [("name", PStr "A"); ("start", PStr "2020-01-01"); ("end", PStr "2020-06-01")].

Definition period_B : pyval :=
  PDict [("name", PStr "B"); ("start", PStr "2020-06-01"); ("end", PStr "2021-01-01")].

(** An entry whose timestamps are not ISO dates. *)
Definition period_malformed : pyval :=
  PDict [("name", PStr "X"); ("start", PStr "soon"); ("end", PStr "later")].

(** Midnight UTC of an ISO date, as an aware datetime. *)
Definition utc_midnight (date : string) : datetime :=
  mk_datetime (wall (default (mk_datetime 0 None) (Iso.fromisoformat date))) (Some 0).

(** The same date as a naive datetime. *)
Definition naive_midnight (date : string) : datetime :=
  default (mk_datetime 0 None) (Iso.fromisoformat date).

(** ** Python [float] conversions *)

Definition round_half_even (n d : Z) : Z :=
  let q := n / d in
  let r := n mod d in
  if 2 * r <? d then q
  else if d <? 2 * r then q + 1
  else if Z.even q then q else q + 1.

(** The format spec [.6f]: the exact value rounded (half to even) to six
    decimals. *)
Definition format_6f (x : float) : string :=
  match Prim2SF x with
  | S754_nan => "nan"
  | S754_infinity s => if s then "-inf" else "inf"
  | S754_zero s => (if s then "-" else "") ++ "0.000000"
  | S754_finite s m e =>
      let n := Z.pos m * 1000000 in
      let q := if 0 <=? e then n * 2 ^ e else round_half_even n (2 ^ (- e)) in
      (if s then "-" else "")
        ++ decimal (q / 1000000) ++ "." ++ zero_pad 6 (q mod 1000000)
  end.

(** [float(n)] on an [int]: nearest binary64, [OverflowError] beyond the
    finite range. *)
Definition float_of_int (n : Z) : outcome float :=
  match binary_normalize prec emax n 0 false with
  | S754_infinity _ => Raise OverflowError
  | sf => Return (SF2Prim sf)
  end.

(** [int(x)] on a [float]: truncation toward zero. *)
Definition int_of_float (x : float) : outcome Z :=
  match Prim2SF x with
  | S754_nan => Raise ValueError
  | S754_infinity _ => Raise OverflowError
  | S754_zero _ => Return 0
  | S754_finite s m e =>
      let a := if 0 <=? e then Z.pos m * 2 ^ e else Z.pos m / 2 ^ (- e) in
      Return (if s then - a else a)
  end.

(** ** The process state: caches and outbound calls *)

(** One value per endpoint the code calls. *)
Inductive request : Type :=
| LocationIQSearch (key q : string)
| NominatimSearch (q : string)
| OpenMeteoSearch (name : string)
| LocationIQTimezone (key : string) (lat lon : float)
| TimeApiCoordinate (lat lon : float)
| OpenMeteoTimezone (lat lon : float)
| OpenMeteoReverse (lat lon : float).

(** What a GET can do: fail in transport ([httpx.get] raises a subclass of
    [httpx.HTTPError]) or deliver a status and a body; [None] is a body
    that [r.json()] cannot decode. *)
Inductive reply : Type :=
| TransportFailure
| Response (status : Z) (body : option pyval).

(** The outside world: the reply to a request may depend on how many
    calls the process has made so far. *)
Definition network : Type := nat -> request -> reply.

(** The dict returned by [geocode_location]. *)
Record geo_result : Type := mk_geo {
  latitude : float;
  longitude : float;
  display_name : pyval;
  timezone : option pyval
}.

(** The dict returned by [timezone_for_coords]. *)
Record tz_result : Type := mk_tz {
  timeZone : pyval;
  offset : pyval
}.

(** [_GEO_CACHE], [_TZ_CACHE], and the log of GETs issued. *)
Record state : Type := mk_state {
  GEO_CACHE : gmap string (float * float * pyval);
  TZ_CACHE : gmap string (pyval * pyval);
  calls : list request
}.

Definition io (A : Type) : Type := state -> outcome A * state.

Definition io_ret {A : Type} (a : A) : io A := fun st => (Return a, st).
Definition io_raise {A : Type} (e : exn) : io A := fun st => (Raise e, st).
Definition io_lift {A : Type} (m : outcome A) : io A := fun st => (m, st).

Definition io_bind {A B : Type} (m : io A) (k : A -> io B) : io B :=
  fun st =>
    match m st with
    | (Return a, st') => k a st'
    | (Raise e, st') => (Raise e, st')
    end.

Notation "'run' x <- m ; k" := (io_bind m (fun x => k))
  (at level 10, x name, m at level 100, k at level 200,
   format "'[v' 'run'  x  <-  m ; '/' k ']'").

(** [try: m  except httpx.HTTPError: pass], where [m] either returns from
    the enclosing function ([Some]) or falls out of the [try] ([None]). *)
Definition except_http {A : Type} (m : io (option A)) : io (option A) :=
  fun st =>
    match m st with
    | (Raise HTTPError, st') => (Return None, st')
    | r => r
    end.

(** Sequencing of the fallback chain: the first step that returns from
    the function ends it. *)
Definition or_else {A : Type} (m1 m2 : io (option A)) : io (option A) :=
  run r <- m1;
  match r with
  | Some a => io_ret (Some a)
  | None => m2
  end.

Definition put_geo (k : string) (v : float * float * pyval) : io unit :=
  fun st => (Return tt, mk_state (<[k := v]> (GEO_CACHE st)) (TZ_CACHE st) (calls st)).

Definition put_tz (k : string) (v : pyval * pyval) : io unit :=
  fun st => (Return tt, mk_state (GEO_CACHE st) (<[k := v]> (TZ_CACHE st)) (calls st)).

(** [r.raise_for_status()]: anything but a 2xx status raises
    [HTTPStatusError]. *)
Definition status_ok (status : Z) : bool := (200 <=? status) && (status <? 300).

(** The state after one more GET. *)
Definition log_call (st : state) (rq : request) : state :=
  mk_state (GEO_CACHE st) (TZ_CACHE st) (calls st ++ [rq]).

(** A GET that fails as HTTP: in transport, or with a status that
    [raise_for_status] rejects. *)
Definition http_failure (r : reply) : Prop :=
  match r with
  | TransportFailure => True
  | Response status _ => status_ok status = false
  end.

(** Every provider fails, at every call. *)
Definition providers_down (net : network) : Prop :=
  forall n rq, http_failure (net n rq).

(** A step that fell through leaving both caches as they were. *)
Definition falls_through {A : Type} (m : io (option A)) (st : state) : Prop :=
  exists st', m st = (Return None, st')
              /\ GEO_CACHE st' = GEO_CACHE st /\ TZ_CACHE st' = TZ_CACHE st.

(** [r.json()]. *)
Definition json_body (body : option pyval) : outcome pyval :=
  match body with
  | Some v => Return v
  | None => Raise ValueError
  end.

(** ** The resolvers of geo.py *)

Section Geo.

(** [float(s)] and [int(s)] on a [str]; [None] stands for [ValueError]. *)
Variable float_of_str : string -> option float.
Variable int_of_str : string -> option Z.

(** [datetime.now(ZoneInfo(tz)).utcoffset().total_seconds()] truncated to
    an [int]; [None] stands for any exception on the way (unknown zone,
    a [tz] that is not a string, no time-zone database). *)
Variable zone_offset_now : pyval -> option Z.

(** [settings.locationiq_key]. *)
Variable locationiq_key : option string.

Variable net : network.

(** [if settings.locationiq_key:] hands over the key when it is truthy. *)
Definition configured_key : option string :=
  match locationiq_key with
  | Some k => if String.eqb k "" then None else Some k
  | None => None
  end.

(** [float(v)]. *)
Definition py_float (v : pyval) : outcome float :=
  match v with
  | PFloat x => Return x
  | PInt n => float_of_int n
  | PBool b => Return (if b then 1%float else 0%float)
  | PStr s =>
      match float_of_str s with
      | Some x => Return x
      | None => Raise ValueError
      end
  | _ => Raise TypeError
  end.

(** [int(v)]. *)
Definition py_int (v : pyval) : outcome Z :=
  match v with
  | PInt n => Return n
  | PBool b => Return (if b then 1 else 0)
  | PFloat x => int_of_float x
  | PStr s =>
      match int_of_str s with
      | Some n => Return n
      | None => Raise ValueError
      end
  | _ => Raise TypeError
  end.

(** [httpx.get(...)] (or [client.get(...)]): the call is logged, a
    transport failure raises. *)
Definition http_get (rq : request) : io (Z * option pyval) :=
  fun st =>
    match net (length (calls st)) rq with
    | TransportFailure => (Raise HTTPError, log_call st rq)
    | Response status body => (Return (status, body), log_call st rq)
    end.

(** [r = get(...); r.raise_for_status(); r.json()]. *)
Definition get_json (rq : request) : io pyval :=
  run r <- http_get rq;
  if status_ok (fst r) then io_lift (json_body (snd r)) else io_raise HTTPError.

(** The dict literal built from a search hit: the three values are
    evaluated left to right. *)
Definition geo_of_item (item : pyval) (lat_k lon_k name_k : string)
  : outcome geo_result :=
  do lat_raw <- py_item item lat_k;
  do lat <- py_float lat_raw;
  do lon_raw <- py_item item lon_k;
  do lon <- py_float lon_raw;
  do name <- py_get item name_k;
  Return (mk_geo lat lon name None).

(** [_GEO_CACHE[location] = (lat, lon, display_name or location)]. *)
Definition remember_geo (location : string) (out : geo_result) : io unit :=
  put_geo location
    (latitude out, longitude out, py_or (display_name out) (PStr location)).

(** The body shared by the LocationIQ and Nominatim steps (lines 37-47
    and 66-76). *)
Definition search_array (rq : request) (location : string)
  : io (option geo_result) :=
  run arr <- get_json rq;
  if truthy arr then
    run item <- io_lift (py_first arr);
    run out <- io_lift (geo_of_item item "lat" "lon" "display_name");
    run _ <- remember_geo location out;
    io_ret (Some out)
  else io_ret None.

(** Lines 82-99. *)
Definition search_open_meteo (location : string) : io (option geo_result) :=
  run data <- get_json (OpenMeteoSearch location);
  if truthy data then
    run results <- io_lift (py_get data "results");
    if truthy results then
      run item <- io_lift (py_first results);
      run out <- io_lift (geo_of_item item "latitude" "longitude" "name");
      run tz <- io_lift (py_get item "timezone");
      let out := if truthy tz
                 then mk_geo (latitude out) (longitude out) (display_name out) (Some tz)
                 else out in
      run _ <- remember_geo location out;
      io_ret (Some out)
    else io_ret None
  else io_ret None.

(** Lines 50-52. *)
Definition geo_cache_lookup (location : string) : io (option geo_result) :=
  fun st =>
    match GEO_CACHE st !! location with
    | Some (lat, lon, name) => (Return (Some (mk_geo lat lon name None)), st)
    | None => (Return None, st)
    end.

(** Lines 50-102: everything after the keyed provider. *)
Definition geocode_unkeyed (location : string) : io (option geo_result) :=
  or_else (geo_cache_lookup location)
    (or_else (except_http (search_array (NominatimSearch location) location))
       (except_http (search_open_meteo location))).

Definition geocode_location (location : string) : io (option geo_result) :=
  or_else
    (match configured_key with
     | Some k => except_http (search_array (LocationIQSearch k location) location)
     | None => io_ret None
     end)
    (geocode_unkeyed location).

(** *** [timezone_for_coords] (lines 121-233) *)

(** [f"{lat:.6f},{lon:.6f}"]. *)
Definition coord_key (lat lon : float) : string :=
  format_6f lat ++ "," ++ format_6f lon.

(** [_TZ_CACHE[key] = (tz, off); return {"timeZone": tz, "offset": off}]. *)
Definition remember_tz (key : string) (tz off : pyval) : io (option tz_result) :=
  run _ <- put_tz key (tz, off);
  io_ret (Some (mk_tz tz off)).

(** Lines 123-125. *)
Definition tz_cache_lookup (key : string) : io (option tz_result) :=
  fun st =>
    match TZ_CACHE st !! key with
    | Some (tzid, off) => (Return (Some (mk_tz tzid off)), st)
    | None => (Return None, st)
    end.

Definition is_dict (v : pyval) : bool :=
  match v with PDict _ => true | _ => false end.

Definition is_none (v : pyval) : bool :=
  match v with PNone => true | _ => false end.

(** [isinstance(v, (int, float))]; [bool] is a subclass of [int]. *)
Definition is_number (v : pyval) : bool :=
  match v with PInt _ | PFloat _ | PBool _ => true | _ => false end.

(** [format_offset(int(v))], as a value. *)
Definition offset_of (v : pyval) : outcome pyval :=
  do n <- py_int v;
  Return (PStr (format_offset n)).

(** Lines 129-155: the response shapes LocationIQ may use. *)
Definition tz_locationiq (k : string) (key : string) (lat lon : float)
  : io (option tz_result) :=
  run data <- get_json (LocationIQTimezone k lat lon);
  run a <- io_lift (py_get data "timezone");
  run b <- io_lift (py_get data "zone_name");
  run c <- io_lift (py_get data "timeZone");
  let tz := py_or (py_or a b) c in
  run tz <- io_lift
    (if is_dict tz
     then do n <- py_get tz "name";
          do z <- py_get tz "zone_name";
          Return (py_or n z)
     else Return tz);
  run u <- io_lift (py_get data "utc_offset");
  run o <- io_lift (py_get data "offset");
  let off := py_or u o in
  run off <- io_lift
    (if is_none off
     then do g <- py_get data "gmt_offset";
          do r <- py_get data "raw_offset";
          let sec := py_or g r in
          if is_number sec then offset_of sec else Return off
     else Return off);
  if truthy tz && truthy off then remember_tz key tz off else io_ret None.

(** [data.get(outer, {}).get("seconds")]. *)
Definition nested_seconds (data : pyval) (outer : string) : outcome pyval :=
  match data with
  | PDict fields =>
      match assoc outer fields with
      | Some inner => py_get inner "seconds"
      | None => Return PNone
      end
  | _ => Raise AttributeError
  end.

(** Lines 160-177: timeapi.io, standard offset first, current offset
    second. *)
Definition tz_timeapi (key : string) (lat lon : float) : io (option tz_result) :=
  run data <- get_json (TimeApiCoordinate lat lon);
  run tz <- io_lift (py_get data "timeZone");
  run std <- io_lift (nested_seconds data "standardUtcOffset");
  if truthy tz && negb (is_none std) then
    run off <- io_lift (offset_of std);
    remember_tz key tz off
  else
    run cur <- io_lift (nested_seconds data "currentUtcOffset");
    if truthy tz && negb (is_none cur) then
      run off <- io_lift (offset_of cur);
      remember_tz key tz off
    else io_ret None.

(** Lines 182-194. *)
Definition tz_open_meteo (key : string) (lat lon : float) : io (option tz_result) :=
  run data <- get_json (OpenMeteoTimezone lat lon);
  run tz <- io_lift (py_get data "timezone");
  run sec <- io_lift (py_get data "utc_offset_seconds");
  if truthy tz && negb (is_none sec) then
    run off <- io_lift (offset_of sec);
    remember_tz key tz off
  else io_ret None.

(** [tz == "Asia/Kolkata"]. *)
Definition is_kolkata (tz : pyval) : bool :=
  match tz with PStr s => String.eqb s "Asia/Kolkata" | _ => false end.

(** Lines 199-222: no [raise_for_status] here, the status is compared
    with 200. *)
Definition tz_reverse (key : string) (lat lon : float) : io (option tz_result) :=
  run r <- http_get (OpenMeteoReverse lat lon);
  if fst r =? 200 then
    run data <- io_lift (json_body (snd r));
    if truthy data then
      run results <- io_lift (py_get data "results");
      if truthy results then
        run item <- io_lift (py_first results);
        run tz <- io_lift (py_get item "timezone");
        if truthy tz then
          let off :=
            if is_kolkata tz then "+05:30"
            else match zone_offset_now tz with
                 | Some sec => format_offset sec
                 | None => "+00:00"
                 end in
          remember_tz key tz (PStr off)
        else io_ret None
      else io_ret None
    else io_ret None
  else io_ret None.

(** Lines 226-232: the India footprint. *)
Definition in_india_box (lat lon : float) : bool :=
  PrimFloat.leb 6.0%float lat && PrimFloat.leb lat 37.5%float
  && PrimFloat.leb 68.0%float lon && PrimFloat.leb lon 98.0%float.

Definition tz_india_box (key : string) (lat lon : float) : io (option tz_result) :=
  if in_india_box lat lon
  then remember_tz key (PStr "Asia/Kolkata") (PStr "+05:30")
  else io_ret None.

Definition timezone_for_coords (lat lon : float) : io (option tz_result) :=
  let key := coord_key lat lon in
  or_else (tz_cache_lookup key)
    (or_else
       (match configured_key with
        | Some k => except_http (tz_locationiq k key lat lon)
        | None => io_ret None
        end)
       (or_else (except_http (tz_timeapi key lat lon))
          (or_else (except_http (tz_open_meteo key lat lon))
             (or_else (except_http (tz_reverse key lat lon))
                (tz_india_box key lat lon))))).

End Geo.

(** ** [offset_from_tzid] (geo.py, lines 105-118) *)

(** [len(s.split(":"))]. *)
Fixpoint split_colon_length (s : string) : nat :=
  match s with
  | EmptyString => 1
  | String a s' =>
      if Ascii.eqb a ":" then S (split_colon_length s') else split_colon_length s'
  end.

(** [t if len(t.split(":")) == 3 else f"{t}:00"]. *)
Definition with_seconds (time_str : string) : string :=
  if Nat.eqb (split_colon_length time_str) 3 then time_str else time_str ++ ":00".

Section OffsetFromTzid.

(** Whether [zoneinfo] could be imported. *)
Variable zoneinfo_available : bool.

Variable fromisoformat : string -> option datetime.

(** [int(dt.replace(tzinfo=ZoneInfo(tzid)).utcoffset().total_seconds())]
    for the wall-clock reading [dt]; [None] stands for an exception on
    the way, or for a [utcoffset()] that is [None]. *)
Variable zone_offset_at : pyval -> Z -> option Z.

Definition offset_from_tzid (date_str time_str : string) (tzid : pyval)
  : option string :=
  if zoneinfo_available then
    let t := with_seconds time_str in
    match fromisoformat (date_str ++ "T" ++ t) with
    | Some dt =>
        match zone_offset_at tzid (wall dt) with
        | Some sec => Some (format_offset sec)
        | None => None
        end
    | None => None
    end
  else None.

End OffsetFromTzid.

(** ** The [compute] endpoint (compute.py) *)

(** [BirthInput] of schemas.py.  [timezone] is declared [str | None], but
    the endpoint assigns whatever the resolver returned to it, so it holds
    a value. *)
Record BirthInput : Type := mk_birth {
  b_date : string;
  b_time : string;
  b_timezone : pyval;
  b_latitude : option float;
  b_longitude : option float;
  b_location : option string;
  b_ayanamsa : Z;
  b_la : string
}.

Record ComputeRequest : Type := mk_request {
  birth : BirthInput;
  include_divisional : list string;
  include_transits : bool;
  transit_datetime : option string
}.

(** The arguments [b.coordinates()] and [b.iso_datetime()] format: the
    coordinates, and date, time (with seconds) and offset. *)
Definition chart_args : Type := (float * float * (string * string * pyval))%type.

(** The calls made on the astrology provider. *)
Inductive chart_call : Type :=
| KundliAdvanced (a : chart_args)
| KundliBasic (a : chart_args)
| Divisional (a : chart_args) (chart_type : string)
| TransitPlanetPosition (lat lon : float) (dt_iso : option string).

Definition call_offset (c : chart_call) : option pyval :=
  match c with
  | KundliAdvanced a | KundliBasic a | Divisional a _ => Some (snd (snd a))
  | TransitPlanetPosition _ _ _ => None
  end.

(** A Python dict with string keys, in insertion order: assigning to a
    key that is present replaces its value where it stands. *)
Fixpoint dict_set {V : Type} (d : list (string * V)) (k : string) (v : V)
  : list (string * V) :=
  match d with
  | [] => [(k, v)]
  | (k', v') :: rest =>
      if String.eqb k' k then (k', v) :: rest else (k', v') :: dict_set rest k v
  end.


(** [ComputeResponse]: [divisional] is the dict of lines 61-67, keyed by
    chart type; a failed divisional chart or transit lookup is reported
    in place ([{"error": str(e)}]), here as the exception itself.
    [r_transits] is [None] when no transit was asked for. *)
Record ComputeResponse : Type := mk_response {
  r_kundli : pyval;
  r_divisional : list (string * outcome pyval);
  r_transits : option (outcome pyval);
  r_advanced : bool;
  r_birth : BirthInput
}.

(** [b.coordinates()]. *)
Definition coordinates (b : BirthInput) : outcome (float * float) :=
  match b_latitude b, b_longitude b with
  | Some lat, Some lon => Return (lat, lon)
  | _, _ => Raise ValueError
  end.

(** [b.iso_datetime()]. *)
Definition iso_datetime (b : BirthInput) : outcome (string * string * pyval) :=
  if truthy (b_timezone b)
  then Return (b_date b, with_seconds (b_time b), b_timezone b)
  else Raise ValueError.

Definition set_coords (b : BirthInput) (lat lon : float) : BirthInput :=
  mk_birth (b_date b) (b_time b) (b_timezone b) (Some lat) (Some lon)
    (b_location b) (b_ayanamsa b) (b_la b).

Definition set_timezone (b : BirthInput) (tz : pyval) : BirthInput :=
  mk_birth (b_date b) (b_time b) tz (b_latitude b) (b_longitude b)
    (b_location b) (b_ayanamsa b) (b_la b).

Section Compute.

Variable float_of_str : string -> option float.
Variable int_of_str : string -> option Z.
Variable zone_offset_now : pyval -> option Z.
Variable zoneinfo_available : bool.
Variable fromisoformat : string -> option datetime.
Variable zone_offset_at : pyval -> Z -> option Z.
Variable locationiq_key : option string.
Variable net : network.

(** The astrology provider (providers/prokerala.py): its constructor and
    its replies. *)
Variable provider_init : outcome unit.
Variable provider : chart_call -> outcome pyval.

Let geocode := geocode_location float_of_str locationiq_key net.
Let tz_for_coords :=
  timezone_for_coords int_of_str zone_offset_now locationiq_key net.
Let tzid_offset := offset_from_tzid zoneinfo_available fromisoformat zone_offset_at.

(** [(b.latitude is None or b.longitude is None) and b.location]. *)
Definition needs_geocoding (b : BirthInput) : option string :=
  match b_latitude b, b_longitude b with
  | Some _, Some _ => None
  | _, _ =>
      match b_location b with
      | Some l => if String.eqb l "" then None else Some l
      | None => None
      end
  end.

(** Lines 20-32. *)
Definition autocomplete_coords (b : BirthInput) : io BirthInput :=
  match needs_geocoding b with
  | None => io_ret b
  | Some location =>
      run geo <- geocode location;
      match geo with
      | None => io_raise (HTTPException 400 CouldNotGeocode)
      | Some geo =>
          let b := set_coords b (latitude geo) (longitude geo) in
          let tzid := default PNone (timezone geo) in
          if negb (truthy (b_timezone b)) && truthy tzid then
            match tzid_offset (b_date b) (b_time b) tzid with
            | Some off =>
                io_ret (if String.eqb off "" then b else set_timezone b (PStr off))
            | None => io_ret b
            end
          else io_ret b
      end
  end.

(** Lines 34-37. *)
Definition derive_timezone (b : BirthInput) : io BirthInput :=
  match b_latitude b, b_longitude b with
  | Some lat, Some lon =>
      if negb (truthy (b_timezone b)) then
        run tz <- tz_for_coords lat lon;
        match tz with
        | Some tz =>
            io_ret (if truthy (offset tz) then set_timezone b (offset tz) else b)
        | None => io_ret b
        end
      else io_ret b
  | _, _ => io_ret b
  end.

(** Geocoding followed by timezone resolution (lines 20-37). *)
Definition resolution_steps (b : BirthInput) : io BirthInput :=
  run b <- autocomplete_coords b;
  derive_timezone b.

(** Lines 39-40. *)
Definition require_timezone (b : BirthInput) : io BirthInput :=
  if truthy (b_timezone b) then io_ret b
  else io_raise (HTTPException 400 TimezoneUnresolved).

(** Lines 41-44: an [HTTPException] passes, anything else becomes a 400
    "Location resolution failed". *)
Definition as_bad_request {A : Type} (m : io A) : io A :=
  fun st =>
    match m st with
    | (Raise (HTTPException s d), st') => (Raise (HTTPException s d), st')
    | (Raise _, st') => (Raise (HTTPException 400 LocationResolutionFailed), st')
    | r => r
    end.

(** The whole [try] statement of lines 19-44. *)
Definition resolve_birth (b : BirthInput) : io BirthInput :=
  as_bad_request (run b <- resolution_steps b; require_timezone b).

(** Calls on the provider are recorded beside the result. *)
Definition charting (A : Type) : Type := list chart_call -> outcome A * list chart_call.

(** A provider method applied to [b.coordinates(), b.iso_datetime()]:
    the arguments are evaluated first, and the call happens only if both
    succeed. *)
Definition call_with_args (mk : chart_args -> chart_call) (b : BirthInput)
  : charting pyval :=
  fun log =>
    match (do c <- coordinates b; do t <- iso_datetime b; Return (fst c, snd c, t)) with
    | Return a => (provider (mk a), (log ++ [mk a])%list)
    | Raise e => (Raise e, log)
    end.

(** Lines 48-59: the advanced chart, else the basic one. *)
Definition kundli_phase (b : BirthInput) : charting (pyval * bool) :=
  fun log =>
    match call_with_args KundliAdvanced b log with
    | (Return k, log) => (Return (k, true), log)
    | (Raise _, log) =>
        match call_with_args KundliBasic b log with
        | (Return k, log) => (Return (k, false), log)
        | (Raise e, log) => (Raise e, log)
        end
    end.

(** Lines 61-67: the loop assigns [divisional[chart_type]] once per
    requested type; a failure of one divisional chart is recorded and the
    loop goes on. *)
Fixpoint divisional_phase (b : BirthInput) (types : list string)
  (divisional : list (string * outcome pyval)) (log : list chart_call)
  : list (string * outcome pyval) * list chart_call :=
  match types with
  | [] => (divisional, log)
  | t :: rest =>
      let '(r, log) := call_with_args (fun a => Divisional a t) b log in
      divisional_phase b rest (dict_set divisional t r) log
  end.

(** Lines 69-74; [dt_iso] is the transit instant asked for, [None] for
    the clock reading of line 45. *)
Definition transit_phase (b : BirthInput) (wanted : bool) (dt_iso : option string)
  (log : list chart_call) : option (outcome pyval) * list chart_call :=
  if wanted then
    match coordinates b with
    | Return (lat, lon) =>
        let c := TransitPlanetPosition lat lon dt_iso in
        (Some (provider c), (log ++ [c])%list)
    | Raise e => (Some (Raise e), log)
    end
  else (None, log).

(** The fields of [ComputeResponse] that pydantic checks against a type
    other than [Any] (schemas.py, lines 38-42): [kundli: Dict[str, Any]]
    and [transits: Optional[Dict[str, Any]]].  [divisional] and [meta] are
    dicts with string keys by construction. *)
Definition valid_kundli (kundli : pyval) : bool :=
  match kundli with PDict _ => true | _ => false end.

Definition valid_transits (transits : option (outcome pyval)) : bool :=
  match transits with
  | None => true
  | Some (Raise _) => true
  | Some (Return (PDict _)) => true
  | Some (Return PNone) => true
  | Some (Return _) => false
  end.

(** Lines 76-95: the constructor of the response validates its fields. *)
Definition build_response (kundli : pyval) (divisional : list (string * outcome pyval))
  (transits : option (outcome pyval)) (advanced : bool) (b : BirthInput)
  : outcome ComputeResponse :=
  if valid_kundli kundli && valid_transits transits
  then Return (mk_response kundli divisional transits advanced b)
  else Raise ValidationError.

(** The endpoint.  The result is the response or the exception, the
    final state, and the provider calls made. *)
Definition compute (payload : ComputeRequest) (st : state)
  : outcome ComputeResponse * state * list chart_call :=
  match provider_init with
  | Raise e => (Raise e, st, [])
  | Return _ =>
      match resolve_birth (birth payload) st with
      | (Raise e, st) => (Raise e, st, [])
      | (Return b, st) =>
          match kundli_phase b [] with
          | (Raise e, log) => (Raise e, st, log)
          | (Return (kundli, advanced), log) =>
              let '(divs, log) :=
                divisional_phase b (include_divisional payload) [] log in
              let dt_iso :=
                match transit_datetime payload with
                | Some s => if String.eqb s "" then None else Some s
                | None => None
                end in
              let '(tr, log) := transit_phase b (include_transits payload) dt_iso log in
              (build_response kundli divs tr advanced b, st, log)
          end
      end
  end.

End Compute.

(** Every chart call that carries an offset carries a resolved one. *)
Definition offsets_resolved (log : list chart_call) : Prop :=
  List.Forall (fun c => forall off, call_offset c = Some off -> truthy off = true) log.

(** ** A concrete runtime for worked examples

    [float(s)] and [int(s)] on decimal strings, a time-zone database of a
    few zones without daylight saving, and networks that are down. *)

Module PyNum.

(** [str.isspace] on ASCII. *)
Definition is_space (a : ascii) : bool :=
  let n := nat_of_ascii a in
  (n =? 32)%nat || ((9 <=? n) && (n <=? 13))%nat || ((28 <=? n) && (n <=? 31))%nat.

(** The whitespace [float()] and [int()] skip around a numeral: space
    and the five characters from tab to carriage return.  The separators
    [0x1c]-[0x1f] are whitespace for [str.isspace] but are not skipped. *)
Definition is_blank (a : ascii) : bool :=
  let n := nat_of_ascii a in
  (n =? 32)%nat || ((9 <=? n) && (n <=? 13))%nat.

Fixpoint lstrip (s : string) : string :=
  match s with
  | String a s' => if is_blank a then lstrip s' else s
  | EmptyString => s
  end.

Fixpoint rev_onto (s acc : string) : string :=
  match s with
  | String a s' => rev_onto s' (String a acc)
  | EmptyString => acc
  end.

Definition strip (s : string) : string :=
  rev_onto (lstrip (rev_onto (lstrip s) "")) "".

Definition starts_with_digit (s : string) : bool :=
  match s with
  | String a _ => Regex.is_digit a
  | EmptyString => false
  end.

(** A run of digits in which single underscores may sit between digits:
    the value read onto [acc], the number of digits, and the rest. *)
Fixpoint digit_run (after_digit : bool) (acc : Z) (count : Z) (s : string)
  : Z * Z * string :=
  match s with
  | String a s' =>
      match Iso.digit_val a with
      | Some v => digit_run true (10 * acc + v) (count + 1) s'
      | None =>
          if after_digit && Ascii.eqb a "_" && starts_with_digit s'
          then digit_run false acc count s'
          else (acc, count, s)
      end
  | EmptyString => (acc, count, s)
  end.

Definition take_sign (s : string) : bool * string :=
  match s with
  | String a s' =>
      if Ascii.eqb a "-" then (true, s')
      else if Ascii.eqb a "+" then (false, s')
      else (false, s)
  | EmptyString => (false, s)
  end.

(** [int(s)] in base ten. *)
Definition int_of_string (s : string) : option Z :=
  let '(neg, s) := take_sign (strip s) in
  let '(n, count, rest) := digit_run false 0 0 s in
  if (0 <? count) && String.eqb rest ""
  then Some (if neg then - n else n)
  else None.

Definition lower (a : ascii) : ascii :=
  let n := nat_of_ascii a in
  if ((65 <=? n) && (n <=? 90))%nat then ascii_of_nat (n + 32) else a.

Fixpoint lowercase (s : string) : string :=
  match s with
  | String a s' => String (lower a) (lowercase s')
  | EmptyString => s
  end.

(** The binary64 nearest to [m * 10 ^ e10] for [m > 0]: below one the
    quotient is taken with more than sixty bits and rounded to odd before
    the final rounding to nearest even. *)
Definition nearest_decimal (m e10 : Z) : spec_float :=
  if 0 <=? e10 then binary_normalize prec emax (m * 10 ^ e10) 0 false
  else
    let d := 10 ^ (- e10) in
    let s := Z.max 0 (64 + Z.log2_up d - Z.log2 m) in
    let q := (m * 2 ^ s) / d in
    let r := (m * 2 ^ s) mod d in
    binary_normalize prec emax (if r =? 0 then q else Z.lor q 1) (- s) false.

Definition signed (neg : bool) (x : float) : float :=
  if neg then (- x)%float else x.

(** The exponent part, [e] or [E], an optional sign, digits. *)
Definition take_exponent (s : string) : option (Z * string) :=
  match s with
  | String a s' =>
      if Ascii.eqb (lower a) "e" then
        let '(neg, s1) := take_sign s' in
        let '(n, count, rest) := digit_run false 0 0 s1 in
        if 0 <? count then Some (if neg then - n else n, rest) else None
      else Some (0, s)
  | EmptyString => Some (0, s)
  end.

(** [float(s)]: blanks stripped, a sign, then [inf], [infinity], [nan] or
    a decimal numeral with optional fraction and exponent. *)
Definition float_of_string (s : string) : option float :=
  let '(neg, s) := take_sign (strip s) in
  let name := lowercase s in
  if String.eqb name "inf" || String.eqb name "infinity" then Some (signed neg infinity)
  else if String.eqb name "nan" then Some nan
  else
    let '(ip, icount, s1) := digit_run false 0 0 s in
    let '(m, fcount, s2) :=
      match s1 with
      | String "." s1' =>
          let '(m, total, s2) := digit_run false ip icount s1' in
          (m, total - icount, s2)
      | _ => (ip, 0, s1)
      end in
    if 0 <? icount + fcount then
      match take_exponent s2 with
      | Some (e, rest) =>
          if String.eqb rest "" then
            Some (signed neg
                    (if m =? 0 then 0%float
                     else SF2Prim (nearest_decimal m (e - fcount))))
          else None
      | None => None
      end
    else None.

End PyNum.

(** A time-zone database holding three zones that keep one offset all
    year. *)
Definition fixed_zone_offset (tz : pyval) : option Z :=
  match tz with
  | PStr name =>
      if String.eqb name "Asia/Kolkata" then Some 19800
      else if String.eqb name "Asia/Karachi" then Some 18000
      else if String.eqb name "UTC" then Some 0
      else None
  | _ => None
  end.

(** No provider can be reached. *)
Definition network_down : network := fun _ _ => TransportFailure.

(** Every provider answers 503. *)
Definition network_unavailable : network := fun _ _ => Response 503 None.

(** A process that has resolved nothing yet. *)
Definition fresh_state : state := mk_state ∅ ∅ [].

(** The scenarios of the worked examples. *)

(** A process that resolved Chennai earlier. *)
Definition chennai_cached : state :=
  mk_state {[ "Chennai, India" := (13.0827%float, 80.2707%float, PStr "Chennai, Tamil Nadu, India") ]}
    ∅ [].

(** A process whose timezone cache holds what a provider once said of a
    point in Pakistani Punjab, inside the India footprint. *)
Definition punjab_cached : state :=
  mk_state ∅ {[ "30.000000,70.000000" := (PStr "Asia/Karachi", PStr "+05:00") ]} [].

(** The keyed provider answers 200 with a hit that lacks [lat]. *)
Definition network_hit_without_lat : network :=
  fun _ rq =>
    match rq with
    | LocationIQSearch _ _ =>
        Response 200
          (Some (PList [PDict [("lon", PStr "77.2090"); ("display_name", PStr "New Delhi")]]))
    | _ => TransportFailure
    end.

(** The keyed provider answers 200 with a hit whose [lat] is no number. *)
Definition network_hit_with_text_lat : network :=
  fun _ rq =>
    match rq with
    | LocationIQSearch _ _ =>
        Response 200
          (Some (PList [PDict [("lat", PStr "north"); ("lon", PStr "77.2090")]]))
    | _ => TransportFailure
    end.

(** Only Open-Meteo's search answers, with a place in mid-Atlantic and no
    timezone hint. *)
Definition network_atlantis : network :=
  fun _ rq =>
    match rq with
    | OpenMeteoSearch _ =>
        Response 200
          (Some (PDict [("results",
             PList [PDict [("latitude", PFloat 0%float); ("longitude", PFloat (-30)%float);
                           ("name", PStr "Atlantis")]])]))
    | _ => TransportFailure
    end.

(** A birth record that names only a place, and the request for its
    chart. *)
Definition atlantis_birth : BirthInput :=
  mk_birth "1990-05-17" "06:45" PNone None None (Some "Atlantis") 1 "en".

Definition atlantis_request : ComputeRequest :=
  mk_request atlantis_birth ["lagna"; "navamsa"] true None.

(** The state once that place has been geocoded and every timezone
    provider tried. *)
Definition atlantis_resolved : state :=
  mk_state {[ "Atlantis" := (0%float, (-30)%float, PStr "Atlantis") ]} ∅
    [NominatimSearch "Atlantis"; OpenMeteoSearch "Atlantis";
     TimeApiCoordinate 0%float (-30)%float; OpenMeteoTimezone 0%float (-30)%float;
     OpenMeteoReverse 0%float (-30)%float].

(** A provider that answers every call with an empty document. *)
Definition empty_provider : chart_call -> outcome pyval := fun _ => Return (PDict []).

(** ** The [/geo/resolve] route (routers/geo.py, lines 11-30) *)

(** What a route handler does: respond, refuse with an [HTTPException] of
    its own, or let an exception through. *)
Inductive route_outcome (A : Type) : Type :=
| Responds (a : A)
| Refuses (status : Z) (detail : string)
| Fails (e : exn).
Arguments Responds {A} a.
Arguments Refuses {A} status detail.
Arguments Fails {A} e.

(** The dict the route returns. *)
Record resolved_location : Type := mk_resolved {
  rl_display_name : pyval;
  rl_latitude : float;
  rl_longitude : float;
  rl_offset : pyval;
  rl_timeZone : pyval
}.

Section GeoRoute.

Variable float_of_str : string -> option float.
Variable int_of_str : string -> option Z.
Variable zone_offset_now : pyval -> option Z.
Variable locationiq_key : option string.
Variable net : network.

Definition resolve_location (q : string) (st : state)
  : route_outcome resolved_location * state :=
  match geocode_location float_of_str locationiq_key net q st with
  | (Raise e, st) => (Fails e, st)
  | (Return None, st) => (Refuses 404 "no_match", st)
  | (Return (Some geo), st) =>
      let lat := latitude geo in
      let lon := longitude geo in
      match timezone_for_coords int_of_str zone_offset_now locationiq_key net lat lon st with
      | (Raise e, st) => (Fails e, st)
      | (Return None, st) => (Refuses 400 "timezone_unresolved", st)
      | (Return (Some tz), st) =>
          if truthy (offset tz)
          then (Responds (mk_resolved (py_or (display_name geo) (PStr q)) lat lon
                            (offset tz) (timeZone tz)), st)
          else (Refuses 400 "timezone_unresolved", st)
      end
  end.

End GeoRoute.

(** ** [_safe_get] (analyze.py, lines 26-32) *)

Fixpoint _safe_get (d : pyval) (keys : list string) (default : pyval) : pyval :=
  match keys with
  | [] => d
  | k :: rest =>
      match d with
      | PDict fields =>
          match assoc k fields with
          | Some v => _safe_get v rest default
          | None => default
          end
      | _ => default
      end
  end.

(** ** The period facts of [_extract_facts] (analyze.py, lines 110-113) *)

Section DashaFacts.

Variable fromisoformat : string -> option datetime.
Variable utcnow : Z.

(** [_current_period(v.get(key), birth_dt=birth_dt) if isinstance(v, dict)
    else None]. *)
Definition period_of (v : pyval) (key : string) (birth_dt : option datetime)
  : outcome (option pyval) :=
  match v with
  | PDict _ =>
      do periods <- py_get v key;
      _current_period fromisoformat utcnow periods birth_dt None
  | _ => Return None
  end.

(** Lines 110-113: the major period among [dasha_periods], then the
    sub-period among the major period's [antardasha]. *)
Definition select_dasha (kundli : pyval) (birth_dt : option datetime)
  : outcome (option pyval * option pyval) :=
  do v <- py_get kundli "vimshottari_dasha";
  let dasha := py_or v kundli in
  do maha <- period_of dasha "dasha_periods" birth_dt;
  do antar <- match maha with
              | Some m => period_of m "antardasha" birth_dt
              | None => Return None
              end;
  Return (maha, antar).

End DashaFacts.

(** ** The Shadbala routes (routers/shadbala.py) *)

(** *** [_parse_shadbala_text] (lines 40-60)

    Strings are byte strings here, so the model follows Python on ASCII
    text: line boundaries, blanks and letter case are the ASCII ones. *)

Module Shadbala.

(** The ASCII line boundaries of [str.splitlines]: LF, VT, FF, CR, FS, GS,
    RS. *)
Definition is_linebreak (a : ascii) : bool :=
  let n := nat_of_ascii a in
  ((10 <=? n) && (n <=? 13))%nat || ((28 <=? n) && (n <=? 30))%nat.

Definition is_cr (a : ascii) : bool := (nat_of_ascii a =? 13)%nat.
Definition is_lf (a : ascii) : bool := (nat_of_ascii a =? 10)%nat.

Definition is_empty (s : string) : bool :=
  match s with EmptyString => true | _ => false end.

(** [s.splitlines()], with the line read so far in [cur]; [after_cr] says
    that the last character was a CR, whose LF is then part of the same
    boundary. *)
Fixpoint lines_from (after_cr : bool) (cur : string) (s : string) : list string :=
  match s with
  | EmptyString => if is_empty cur then [] else [cur]
  | String c s' =>
      if after_cr && is_lf c then lines_from false cur s'
      else if is_linebreak c then cur :: lines_from (is_cr c) EmptyString s'
      else lines_from false (cur ++ String c EmptyString) s'
  end.

Definition splitlines (s : string) : list string := lines_from false EmptyString s.

(** [s.split()], hence also [s.strip().split()]: the maximal runs of
    non-blank characters. *)
Fixpoint words_from (cur : string) (s : string) : list string :=
  match s with
  | EmptyString => if is_empty cur then [] else [cur]
  | String c s' =>
      if PyNum.is_space c
      then (if is_empty cur then words_from EmptyString s'
            else cur :: words_from EmptyString s')
      else words_from (cur ++ String c EmptyString) s'
  end.

Definition split (s : string) : list string := words_from EmptyString s.

Definition upper (a : ascii) : ascii :=
  let n := nat_of_ascii a in
  if ((97 <=? n) && (n <=? 122))%nat then ascii_of_nat (n - 32) else a.

(** [s.capitalize()]. *)
Definition capitalize (s : string) : string :=
  match s with
  | EmptyString => EmptyString
  | String c s' => String (upper c) (PyNum.lowercase s')
  end.

Definition planets : list string :=
  ["Sun"; "Moon"; "Mars"; "Mercury"; "Jupiter"; "Venus"; "Saturn"].

(** [name in planets]. *)
Definition is_planet (name : string) : bool :=
  existsb (String.eqb name) planets.

Section Parse.

(** [float(token)] on a [str]; [None] stands for [ValueError]. *)
Variable float_of_str : string -> option float.

(** Lines 51-57: the first token that reads as a number. *)
Fixpoint first_score (tokens : list string) : option float :=
  match tokens with
  | [] => None
  | t :: rest =>
      match float_of_str t with
      | Some x => Some x
      | None => first_score rest
      end
  end.

(** The body of the loop for one line: the entry appended, if any. *)
Definition parse_line (line : string) : list (string * float) :=
  match split line with
  | [] => []
  | first :: rest =>
      let name := capitalize first in
      if is_planet name then
        match first_score rest with
        | Some score => [(name, score)]
        | None => []
        end
      else []
  end.

Definition _parse_shadbala_text (txt : string) : list (string * float) :=
  flat_map parse_line (splitlines txt).

End Parse.

End Shadbala.

(** *** The [/shadbala/pdf] endpoint (lines 21-37) *)

(** [ShadbalaRequest]: a [BirthInput] with three more fields. *)
Record ShadbalaRequest : Type := mk_shadbala {
  sh_birth : BirthInput;
  sh_name : string;
  sh_gender : string;
  sh_place : option string
}.

(** The keyword arguments of [provider.shadbala_pdf]: name, gender, the
    two coordinates as they are (the f-string renders a missing one as
    [None]), the datetime, the place, the language. *)
Record shadbala_call : Type := mk_shadbala_call {
  sc_first_name : string;
  sc_gender : string;
  sc_coordinates : option float * option float;
  sc_dt_iso : string * string * pyval;
  sc_place : string;
  sc_la : string
}.

(** [a or b] on optional strings. *)
Definition str_or (a : option string) (b : string) : string :=
  match a with
  | Some s => if String.eqb s "" then b else s
  | None => b
  end.

Section ShadbalaRoutes.

(** The provider's constructor and its PDF method (providers/prokerala.py),
    and [str(e)]. *)
Variable provider_init : outcome unit.
Variable shadbala_provider : shadbala_call -> outcome string.
Variable exn_text : exn -> string.

(** [not payload.location and (payload.latitude is None or
    payload.longitude is None)]. *)
Definition lacks_place (b : BirthInput) : bool :=
  String.eqb (str_or (b_location b) "") ""
  && match b_latitude b, b_longitude b with
     | Some _, Some _ => false
     | _, _ => true
     end.

(** The call of lines 27-34: the arguments are evaluated in order, and the
    provider is called only if none of them raises. *)
Definition request_pdf (payload : ShadbalaRequest)
  : outcome string * list shadbala_call :=
  let b := sh_birth payload in
  match iso_datetime b with
  | Raise e => (Raise e, [])
  | Return dt =>
      let c := mk_shadbala_call (sh_name payload) (sh_gender payload)
                 (b_latitude b, b_longitude b) dt
                 (str_or (sh_place payload) (str_or (b_location b) ""))
                 (b_la b) in
      (shadbala_provider c, [c])
  end.

Definition shadbala_pdf (payload : ShadbalaRequest)
  : route_outcome string * list shadbala_call :=
  if lacks_place (sh_birth payload)
  then (Refuses 400 "location or coordinates required", [])
  else
    match provider_init with
    | Raise e => (Fails e, [])
    | Return _ =>
        match request_pdf payload with
        | (Return pdf, log) => (Responds pdf, log)
        | (Raise e, log) => (Refuses 502 (exn_text e), log)
        end
    end.

End ShadbalaRoutes.

(** ** Vocabulary for the resolvers' invariants *)

(** An exception of the Python runtime: neither an [httpx.HTTPError] nor a
    FastAPI [HTTPException]. *)
Definition pure_error (e : exn) : Prop :=
  match e with
  | HTTPError | HTTPException _ _ => False
  | _ => True
  end.

Definition not_http_exception (e : exn) : Prop :=
  match e with
  | HTTPException _ _ => False
  | _ => True
  end.

(** What a run may do to the process state when it may write the
    geocoding cache at the keys [G] and the timezone cache at the keys
    [T]: entries at other keys are untouched, no entry disappears, and the
    call log only grows at its end. *)
Definition frame (G T : string -> Prop) (st st' : state) : Prop :=
  (forall k, ~ G k -> GEO_CACHE st' !! k = GEO_CACHE st !! k)
  /\ (forall k, ~ T k -> TZ_CACHE st' !! k = TZ_CACHE st !! k)
  /\ (forall k, is_Some (GEO_CACHE st !! k) -> is_Some (GEO_CACHE st' !! k))
  /\ (forall k, is_Some (TZ_CACHE st !! k) -> is_Some (TZ_CACHE st' !! k))
  /\ (exists l, calls st' = (calls st ++ l)%list).

(** A computation that keeps within [frame G T] and raises only
    exceptions of [E]. *)
Definition io_spec {A : Type} (G T : string -> Prop) (E : exn -> Prop) (m : io A) : Prop :=
  forall st, frame G T st (snd (m st)) /\ (forall e, fst (m st) = Raise e -> E e).

Definition raises_only {A : Type} (E : exn -> Prop) (m : outcome A) : Prop :=
  forall e, m = Raise e -> E e.

Definition no_key : string -> Prop := fun _ => False.
Definition any_key : string -> Prop := fun _ => True.

(** A computation whose every normal return satisfies [Q] of the value
    returned and the state left. *)
Definition returns {A : Type} (Q : A -> state -> Prop) (m : io A) : Prop :=
  forall st a st', m st = (Return a, st') -> Q a st'.

(** A geocoding result that the cache holds under [location]: with the
    display name as returned, or with the query standing in for a missing
    one. *)
Definition geo_cached (location : string) (r : option geo_result) (st : state) : Prop :=
  match r with
  | Some out =>
      exists n,
        GEO_CACHE st !! location = Some (latitude out, longitude out, n)
        /\ (n = display_name out \/ n = py_or (display_name out) (PStr location))
  | None => True
  end.

(** A timezone result that the cache holds under [key]. *)
Definition tz_cached (key : string) (r : option tz_result) (st : state) : Prop :=
  match r with
  | Some r => TZ_CACHE st !! key = Some (timeZone r, offset r)
  | None => True
  end.

(** The state after "Atlantis" has been geocoded through Open-Meteo in a
    fresh process. *)
Definition atlantis_geocoded : state :=
  mk_state {[ "Atlantis" := (0%float, (-30)%float, PStr "Atlantis") ]} ∅
    [NominatimSearch "Atlantis"; OpenMeteoSearch "Atlantis"].

(** The state after New Delhi has been resolved by the bounding box in a
    fresh process with the network down. *)
Definition delhi_resolved : state :=
  mk_state ∅ {[ "28.613900,77.209000" := (PStr "Asia/Kolkata", PStr "+05:30") ]}
    [TimeApiCoordinate 28.6139%float 77.2090%float;
     OpenMeteoTimezone 28.6139%float 77.2090%float;
     OpenMeteoReverse 28.6139%float 77.2090%float].

(** The only exceptions the resolution of a birth record lets out. *)
Definition bad_request (e : exn) : Prop := exists d, e = HTTPException 400 d.

(** A birth record that needs no lookup, and one that names neither
    place nor coordinates. *)
Definition delhi_birth : BirthInput :=
  mk_birth "1990-05-17" "06:45" (PStr "+05:30") (Some 28.6139%float)
    (Some 77.2090%float) None 1 "en".

Definition placeless_birth : BirthInput :=
  mk_birth "1990-05-17" "06:45" (PStr "+05:30") None None None 1 "en".

(** A chart document with a birth block, and a kundli with one major
    period that has sub-periods. *)
Definition sample_comp : pyval :=
  PDict [("meta", PDict [("birth", PDict [("date", PStr "1990-05-17");
                                          ("time", PStr "06:45:00");
                                          ("timezone", PStr "+05:30")])])].

Definition sample_kundli : pyval :=
  PDict [("vimshottari_dasha",
          PDict [("dasha_periods",
                  PList [PDict [("name", PStr "Venus");
                                ("start", PStr "2010-01-01"); ("end", PStr "2030-01-01");
                                ("antardasha", PList [period_A; period_B])]])])].

(** A computation whose outbound calls are, in order, some of [allowed],
    each made at most once. *)
Definition calls_within {A : Type} (allowed : list request) (m : io A) : Prop :=
  forall st, exists l,
    calls (snd (m st)) = (calls st ++ l)%list /\ sublist l allowed.

(** The requests [geocode_location] may make, in priority order. *)
Definition geocode_requests (locationiq_key : option string) (location : string)
  : list request :=
  (match configured_key locationiq_key with
   | Some k => [LocationIQSearch k location]
   | None => []
   end ++ [NominatimSearch location; OpenMeteoSearch location])%list.

(** The requests [timezone_for_coords] may make, in priority order. *)
Definition timezone_requests (locationiq_key : option string) (lat lon : float)
  : list request :=
  (match configured_key locationiq_key with
   | Some k => [LocationIQTimezone k lat lon]
   | None => []
   end ++ [TimeApiCoordinate lat lon; OpenMeteoTimezone lat lon;
           OpenMeteoReverse lat lon])%list.




(** A Shadbala request that names a place but gives no coordinates, and a
    birth record that names only Chennai. *)
Definition chennai_shadbala : ShadbalaRequest :=
  mk_shadbala
    (mk_birth "1990-05-17" "06:45" (PStr "+05:30") None None (Some "Chennai, India") 1 "en")
    "Asha" "female" None.

Definition chennai_birth : BirthInput :=
  mk_birth "1990-05-17" "06:45" PNone None None (Some "Chennai, India") 1 "en".

(** * Properties *)

(** ** The offset formatter *)

Example format_offset_ist : format_offset 19800 = "+05:30".
Proof. reflexivity. Qed.

Example format_offset_est : format_offset (-18000) = "-05:00".
Proof. reflexivity. Qed.

Example format_offset_utc : format_offset 0 = "+00:00".
Proof. reflexivity. Qed.

(** Every pair of an hour below 100 and a minute below 60, under either
    sign, renders in the six-character shape. *)
Lemma offset_shape_table :
  forallb (fun h => forallb (fun m =>
      matches_offset_pattern
        ("+" ++ zero_pad 2 (Z.of_nat h) ++ ":" ++ zero_pad 2 (Z.of_nat m))
      && matches_offset_pattern
        ("-" ++ zero_pad 2 (Z.of_nat h) ++ ":" ++ zero_pad 2 (Z.of_nat m)))
    (seq 0 60)) (seq 0 100) = true.
Proof. vm_compute. reflexivity. Qed.

(** C1 (as amended): for every integer number of seconds [s] of magnitude
    below one hundred hours, [format_offset s] matches
    [^[+-]\d{2}:\d{2}$]. *)
Theorem format_offset_matches_pattern (s : Z) :
  Z.abs s < 360000 -> matches_offset_pattern (format_offset s) = true.
Proof.
  intros Hs.
  pose proof (Z.abs_nonneg s) as Hnn.
  set (hh := Z.abs s / 3600).
  set (mm := (Z.abs s mod 3600) / 60).
  assert (Hh : 0 <= hh < 100).
  { unfold hh. split.
    - apply Z.div_pos; lia.
    - apply Z.div_lt_upper_bound; lia. }
  assert (Hm : 0 <= mm < 60).
  { unfold mm. pose proof (Z.mod_pos_bound (Z.abs s) 3600 ltac:(lia)).
    split.
    - apply Z.div_pos; lia.
    - apply Z.div_lt_upper_bound; lia. }
  pose proof offset_shape_table as T.
  rewrite forallb_forall in T.
  specialize (T (Z.to_nat hh)).
  rewrite forallb_forall in T.
  assert (Hin : In (Z.to_nat hh) (seq 0 100)) by (apply in_seq; lia).
  specialize (T Hin (Z.to_nat mm)).
  assert (Hin' : In (Z.to_nat mm) (seq 0 60)) by (apply in_seq; lia).
  specialize (T Hin').
  rewrite !Z2Nat.id in T by lia.
  apply andb_prop in T as [Tp Tm].
  unfold format_offset. fold hh. fold mm.
  destruct (0 <=? s); assumption.
Qed.

Lemma format_offset_matches_pattern_witness :
  Z.abs 19800 < 360000 /\ matches_offset_pattern (format_offset 19800) = true.
Proof.
  split; [lia | apply (format_offset_matches_pattern 19800); lia].
Defined.

(** C1 (as stated) fails: one hundred hours render with three hour digits. *)
Lemma format_offset_hundred_hours :
  format_offset 360000 = "+100:00"
  /\ matches_offset_pattern (format_offset 360000) = false.
Proof. split; reflexivity. Qed.

(** ** The period selector *)

Lemma normalize_utc_aware (d d' : datetime) :
  normalize_utc d = Return d' -> tzinfo d' = Some 0.
Proof.
  unfold normalize_utc.
  destruct (tzinfo d) as [off|].
  - destruct (wall_in_range (wall d - off)); [|discriminate].
    intros [= <-]. reflexivity.
  - intros [= <-]. reflexivity.
Qed.

Section SelectorFacts.

Variable fromisoformat : string -> option datetime.
Variable utcnow : Z.


(** What it takes for an entry to become a candidate. *)
Lemma try_entry_Some (bd : option datetime) (p : pyval) (c : candidate) :
  try_entry fromisoformat bd p = Some c ->
  cand_period c = p
  /\ utc_candidate c
  /\ (exists e_raw e0,
        py_get p "end" = Return e_raw
        /\ py_fromisoformat fromisoformat e_raw = Return e0
        /\ normalize_utc e0 = Return (cand_end c))
  /\ (forall b, bd = Some b ->
        exists b', normalize_utc b = Return b'
                   /\ instant b' <= instant (cand_end c)).
Proof.
  unfold try_entry, catch_all, normalize_entry.
  intros H.
  destruct (py_get p "start") as [s_raw|] eqn:E1; simpl in H; [|discriminate].
  destruct (py_fromisoformat fromisoformat s_raw) as [s0|] eqn:E2;
    simpl in H; [|discriminate].
  destruct (py_get p "end") as [e_raw|] eqn:E3; simpl in H; [|discriminate].
  destruct (py_fromisoformat fromisoformat e_raw) as [e0|] eqn:E4;
    simpl in H; [|discriminate].
  destruct (normalize_utc s0) as [s|] eqn:E5; simpl in H; [|discriminate].
  destruct (normalize_utc e0) as [e|] eqn:E6; simpl in H; [|discriminate].
  pose proof (normalize_utc_aware _ _ E5) as As.
  pose proof (normalize_utc_aware _ _ E6) as Ae.
  destruct bd as [b|]; simpl in H.
  - destruct (normalize_utc b) as [b'|] eqn:E7; simpl in H; [|discriminate].
    pose proof (normalize_utc_aware _ _ E7) as Ab.
    unfold dt_le in H. rewrite Ab, Ae in H. simpl in H.
    destruct (wall b' - 0 <=? wall e - 0) eqn:E8; [|discriminate].
    injection H as <-.
    repeat split; simpl; try assumption.
    + exists e_raw, e0. auto.
    + intros b0 [= <-]. exists b'. split; [assumption|].
      unfold instant, cand_end. simpl. rewrite Ab, Ae. simpl.
      apply Z.leb_le in E8. lia.
  - injection H as <-.
    repeat split; simpl; try assumption.
    + exists e_raw, e0. auto.
    + intros b0 [=].
Qed.

(** The candidates are exactly the surviving entries, in input order. *)
Lemma build_filtered_In (bd : option datetime) (items : list pyval) (c : candidate) :
  In c (build_filtered fromisoformat bd items) <->
  exists p, In p items /\ try_entry fromisoformat bd p = Some c.
Proof.
  induction items as [|q items IH]; simpl.
  - split; [intros [] | intros (p & [] & _)].
  - destruct (try_entry fromisoformat bd q) as [c'|] eqn:E; simpl; rewrite ?IH.
    + split.
      * intros [<- | (p & Hp & Hc)]; [exists q; auto | exists p; auto].
      * intros (p & [<- | Hp] & Hc).
        -- left. congruence.
        -- right. exists p. auto.
    + split.
      * intros (p & Hp & Hc). exists p. auto.
      * intros (p & [<- | Hp] & Hc); [congruence | exists p; auto].
Qed.

Lemma build_filtered_utc (bd : option datetime) (items : list pyval) :
  Forall utc_candidate (build_filtered fromisoformat bd items).
Proof.
  apply List.Forall_forall. intros c Hc.
  apply build_filtered_In in Hc as (p & _ & Hp).
  apply try_entry_Some in Hp. tauto.
Qed.

Lemma unparseable_skipped (bd : option datetime) (p : pyval) :
  unparseable fromisoformat p -> try_entry fromisoformat bd p = None.
Proof.
  unfold unparseable, try_entry, catch_all, normalize_entry.
  intros [[e H] | [e H]].
  - destruct (py_get p "start") as [s_raw|]; simpl in *; [|reflexivity].
    rewrite H. reflexivity.
  - destruct (py_get p "start") as [s_raw|]; simpl; [|reflexivity].
    destruct (py_fromisoformat fromisoformat s_raw); simpl; [|reflexivity].
    destruct (py_get p "end") as [e_raw|]; simpl in *; [|reflexivity].
    rewrite H. reflexivity.
Qed.

Lemma build_filtered_all_skipped (bd : option datetime) (items : list pyval) :
  List.Forall (fun p => try_entry fromisoformat bd p = None) items -> build_filtered fromisoformat bd items = [].
Proof.
  induction 1 as [|p items Hp _ IH]; simpl; [reflexivity|].
  rewrite Hp. exact IH.
Qed.

(** Comparison of two aware datetimes is comparison of instants. *)
Lemma dt_le_aware (a b : datetime) (oa ob : Z) :
  tzinfo a = Some oa -> tzinfo b = Some ob ->
  dt_le a b = Return (instant a <=? instant b).
Proof.
  intros Ha Hb. unfold dt_le, instant. rewrite Ha, Hb. reflexivity.
Qed.

(** One step of the second loop, for an aware reference instant. *)
Lemma first_containing_cons (now : datetime) (off : Z) (c : candidate)
  (l : list candidate) :
  tzinfo now = Some off -> utc_candidate c ->
  first_containing now (c :: l) =
    if (instant (cand_start c) <=? instant now)
       && (instant now <=? instant (cand_end c))
    then Return (Some (cand_period c))
    else first_containing now l.
Proof.
  intros Hn [Hs He]. destruct c as [[s e] p].
  unfold cand_start, cand_end, cand_period in *. simpl in *.
  rewrite (dt_le_aware s now 0 off Hs Hn). simpl.
  destruct (instant s <=? instant now); simpl; [|reflexivity].
  rewrite (dt_le_aware now e off 0 Hn He). simpl.
  destruct (instant now <=? instant e); reflexivity.
Qed.

Lemma contains_instant_test (now : datetime) (c : candidate) :
  (instant (cand_start c) <=? instant now)
  && (instant now <=? instant (cand_end c)) = true
  <-> contains_instant now c.
Proof.
  unfold contains_instant.
  rewrite andb_true_iff, !Z.leb_le. tauto.
Qed.

(** With no candidate around the reference instant the loop falls
    through. *)
Lemma first_containing_none (now : datetime) (off : Z) (l : list candidate) :
  tzinfo now = Some off ->
  List.Forall utc_candidate l ->
  List.Forall (fun c => ~ contains_instant now c) l ->
  first_containing now l = Return None.
Proof.
  intros Hn Hu Hc.
  induction l as [|c l IH]; [reflexivity|].
  inversion Hu as [|? ? Hu1 Hu2]; subst.
  inversion Hc as [|? ? Hc1 Hc2]; subst.
  rewrite (first_containing_cons now off c l Hn Hu1).
  destruct (_ && _) eqn:E.
  - apply contains_instant_test in E. contradiction.
  - auto.
Qed.

(** Whatever the loop returns is the period of one of the candidates. *)
Lemma first_containing_Some (now : datetime) (l : list candidate) (p : pyval) :
  first_containing now l = Return (Some p) ->
  exists c, In c l /\ cand_period c = p.
Proof.
  induction l as [|[[s e] q] l IH]; simpl; [discriminate|].
  destruct (dt_le s now) as [[|]|]; simpl; try discriminate.
  - destruct (dt_le now e) as [[|]|]; simpl; try discriminate.
    + intros [= <-]. exists (s, e, q). auto.
    + intros H. destruct (IH H) as (c & Hc & Hp). eauto.
  - intros H. destruct (IH H) as (c & Hc & Hp). eauto.
Qed.

(** The loop raises only on a naive reference instant. *)
Lemma first_containing_Raise (now : datetime) (l : list candidate) (e : exn) :
  List.Forall utc_candidate l ->
  first_containing now l = Raise e ->
  e = TypeError /\ tzinfo now = None.
Proof.
  intros Hu H.
  destruct (tzinfo now) as [off|] eqn:Hn.
  - exfalso. induction l as [|c l IH]; [discriminate|].
    inversion Hu as [|? ? Hu1 Hu2]; subst.
    rewrite (first_containing_cons now off c l Hn Hu1) in H.
    destruct (_ && _); [discriminate | auto].
  - destruct l as [|[[s e'] q] l]; [discriminate|].
    inversion Hu as [|? ? [Hs _] _]; subst.
    unfold cand_start in Hs. simpl in *.
    unfold dt_le in H. rewrite Hs, Hn in H. simpl in H.
    injection H as <-. auto.
Qed.

End SelectorFacts.

(** *** The stable sort by start *)

Lemma sort_by_start_nil (l : list candidate) :
  sort_by_start l = [] -> l = [].
Proof.
  destruct l as [|c l]; [reflexivity|]. simpl.
  destruct (sort_by_start l) as [|c' l']; simpl; [discriminate|].
  destruct (_ <? _); discriminate.
Qed.

(** The head of the sorted list is the first candidate of least start:
    everything before it in the unsorted list starts strictly later, and
    nothing after it starts earlier. *)
Lemma sort_by_start_head (l : list candidate) (c : candidate) (rest : list candidate) :
  sort_by_start l = c :: rest ->
  exists l1 l2,
    l = (l1 ++ c :: l2)%list
    /\ List.Forall (fun c' => instant (cand_start c) < instant (cand_start c')) l1
    /\ List.Forall (fun c' => instant (cand_start c) <= instant (cand_start c')) l2.
Proof.
  revert c rest.
  induction l as [|x l IH]; intros c rest H; [discriminate|].
  simpl in H.
  destruct (sort_by_start l) as [|c0 rest0] eqn:E.
  - apply sort_by_start_nil in E. subst l. simpl in H.
    injection H as <- <-. exists [], []. simpl. auto.
  - destruct (IH c0 rest0 eq_refl) as (l1 & l2 & -> & H1 & H2).
    simpl in H.
    destruct (instant (cand_start c0) <? instant (cand_start x)) eqn:Lt.
    + injection H as <- <-.
      apply Z.ltb_lt in Lt.
      exists (x :: l1), l2. simpl. auto.
    + injection H as <- <-.
      apply Z.ltb_ge in Lt.
      exists [], (l1 ++ c0 :: l2)%list. simpl.
      repeat split; [constructor|].
      apply List.Forall_app. split.
      * eapply List.Forall_impl; [|exact H1]. simpl. intros. lia.
      * constructor; [lia|].
        eapply List.Forall_impl; [|exact H2]. simpl. intros. lia.
Qed.

(** *** What the selector returns *)

Section SelectorTheorems.

Variable fromisoformat : string -> option datetime.
Variable utcnow : Z.



(** The second loop stops at the first surviving entry, in input order,
    whose interval holds the reference instant. *)
Lemma first_containing_first_hit (bd : option datetime) (now : datetime) (off : Z)
  (items : list pyval) (i : nat) (p : pyval) (c : candidate) :
  tzinfo now = Some off ->
  items !! i = Some p ->
  try_entry fromisoformat bd p = Some c ->
  contains_instant now c ->
  (forall j q c', (j < i)%nat -> items !! j = Some q -> try_entry fromisoformat bd q = Some c' ->
                  ~ contains_instant now c') ->
  first_containing now (build_filtered fromisoformat bd items) = Return (Some p).
Proof.
  intros Hn. revert i.
  induction items as [|q items IH]; intros i Hi Hp Hc Hbefore; [discriminate|].
  simpl.
  destruct i as [|i]; simpl in Hi.
  - injection Hi as ->. rewrite Hp.
    pose proof (try_entry_Some fromisoformat bd p c Hp) as (Hper & Hu & _).
    rewrite (first_containing_cons now off c _ Hn Hu).
    apply contains_instant_test in Hc. rewrite Hc, Hper. reflexivity.
  - assert (Hrest : first_containing now (build_filtered fromisoformat bd items) = Return (Some p)).
    { apply (IH i); auto.
      intros j q' c' Hj Hq Hc'. apply (Hbefore (S j) q' c'); [lia | exact Hq | exact Hc']. }
    destruct (try_entry fromisoformat bd q) as [c0|] eqn:E; [|exact Hrest].
    pose proof (try_entry_Some fromisoformat bd q c0 E) as (_ & Hu & _).
    rewrite (first_containing_cons now off c0 _ Hn Hu).
    destruct (_ && _) eqn:T; [|exact Hrest].
    apply contains_instant_test in T.
    exfalso. apply (Hbefore 0%nat q c0); [lia | reflexivity | exact E | exact T].
Qed.

Lemma current_period_first_hit (bd now : option datetime) (off : Z)
  (items : list pyval) (i : nat) (p : pyval) (c : candidate) :
  tzinfo (reference_instant utcnow now) = Some off ->
  items !! i = Some p ->
  try_entry fromisoformat bd p = Some c ->
  contains_instant (reference_instant utcnow now) c ->
  (forall j q c', (j < i)%nat -> items !! j = Some q -> try_entry fromisoformat bd q = Some c' ->
                  ~ contains_instant (reference_instant utcnow now) c') ->
  _current_period fromisoformat utcnow (PList items) bd now = Return (Some p).
Proof.
  intros Hn Hi Hp Hc Hbefore.
  unfold _current_period. fold (reference_instant utcnow now).
  rewrite (first_containing_first_hit bd _ off items i p c Hn Hi Hp Hc Hbefore).
  reflexivity.
Qed.

Lemma current_period_earliest (bd now : option datetime) (off : Z) (items : list pyval) :
  tzinfo (reference_instant utcnow now) = Some off ->
  build_filtered fromisoformat bd items <> [] ->
  List.Forall (fun c => ~ contains_instant (reference_instant utcnow now) c)
    (build_filtered fromisoformat bd items) ->
  exists l1 c l2,
    build_filtered fromisoformat bd items = (l1 ++ c :: l2)%list
    /\ List.Forall (fun c' => instant (cand_start c) < instant (cand_start c')) l1
    /\ List.Forall (fun c' => instant (cand_start c) <= instant (cand_start c')) l2
    /\ _current_period fromisoformat utcnow (PList items) bd now = Return (Some (cand_period c)).
Proof.
  intros Hn Hne Hnone.
  unfold _current_period. fold (reference_instant utcnow now).
  rewrite (first_containing_none _ off _ Hn (build_filtered_utc fromisoformat bd items) Hnone).
  simpl.
  destruct (sort_by_start (build_filtered fromisoformat bd items)) as [|c rest] eqn:E.
  - apply sort_by_start_nil in E. contradiction.
  - destruct (sort_by_start_head _ _ _ E) as (l1 & l2 & Hl & H1 & H2).
    exists l1, c, l2. auto.
Qed.

(** Whatever is returned while some candidate survives is a candidate. *)
Lemma current_period_candidate (bd now : option datetime) (items : list pyval) (p : pyval) :
  build_filtered fromisoformat bd items <> [] ->
  _current_period fromisoformat utcnow (PList items) bd now = Return (Some p) ->
  exists c, try_entry fromisoformat bd p = Some c.
Proof.
  intros Hne. unfold _current_period.
  destruct (first_containing _ _) as [[q|]|] eqn:F; simpl; try discriminate.
  - intros [= <-].
    apply first_containing_Some in F as (c & Hc & Hp).
    apply build_filtered_In in Hc as (p' & _ & Ht).
    pose proof (try_entry_Some fromisoformat bd p' c Ht) as (Hper & _).
    exists c. congruence.
  - destruct (sort_by_start (build_filtered fromisoformat bd items)) as [|c rest] eqn:E.
    + apply sort_by_start_nil in E. contradiction.
    + intros [= <-].
      destruct (sort_by_start_head _ _ _ E) as (l1 & l2 & Hl & _).
      assert (Hc : In c (build_filtered fromisoformat bd items)).
      { rewrite Hl. apply in_or_app. right. left. reflexivity. }
      apply build_filtered_In in Hc as (p' & _ & Ht).
      pose proof (try_entry_Some fromisoformat bd p' c Ht) as (Hper & _).
      exists c. congruence.
Qed.

End SelectorTheorems.

(** When every entry is skipped, the last line hands back the first
    element of the input, whatever the reference instant. *)
Lemma current_period_all_skipped (fromisoformat : string -> option datetime)
  (utcnow : Z) (items : list pyval) (bd now : option datetime) :
  List.Forall (unparseable fromisoformat) items ->
  _current_period fromisoformat utcnow (PList items) bd now = Return (head items).
Proof.
  intros H. unfold _current_period.
  rewrite build_filtered_all_skipped.
  - reflexivity.
  - eapply List.Forall_impl; [|exact H].
    intros p Hp. apply unparseable_skipped. exact Hp.
Qed.

(** C2 (as amended): a sequence whose only entry has an unparseable
    [start] or [end] does not raise; the entry is skipped by the
    normalisation loop and, no candidate being left, the first element of
    the input, that entry itself, is returned. *)
Theorem current_period_single_malformed
  (fromisoformat : string -> option datetime) (utcnow : Z)
  (p : pyval) (bd now : option datetime) :
  unparseable fromisoformat p ->
  build_filtered fromisoformat bd [p] = []
  /\ _current_period fromisoformat utcnow (PList [p]) bd now = Return (Some p).
Proof.
  intros H. split.
  - apply build_filtered_all_skipped. constructor; [|constructor].
    apply unparseable_skipped. exact H.
  - apply (current_period_all_skipped fromisoformat utcnow [p] bd now).
    constructor; [exact H | constructor].
Qed.

Lemma period_malformed_unparseable : unparseable Iso.fromisoformat period_malformed.
Proof. left. exists ValueError. reflexivity. Qed.

Lemma current_period_single_malformed_witness :
  build_filtered Iso.fromisoformat None [period_malformed] = []
  /\ _current_period Iso.fromisoformat 0 (PList [period_malformed]) None None
     = Return (Some period_malformed).
Proof.
  apply (current_period_single_malformed Iso.fromisoformat 0 period_malformed None None).
  exact period_malformed_unparseable.
Defined.

(** C2 (as stated) fails: the malformed entry comes back, not nothing. *)
Lemma current_period_malformed_is_returned :
  _current_period Iso.fromisoformat 0 (PList [period_malformed]) None None
    = Return (Some period_malformed)
  /\ _current_period Iso.fromisoformat 0 (PList [period_malformed]) None None
    <> Return None.
Proof. split; [reflexivity | discriminate]. Qed.

(** C5 (as amended): with a birth instant supplied and at least one entry
    surviving the birth filter, a period whose normalised end is strictly
    before the normalised birth instant is never the one returned, even
    when the reference instant lies inside it.  With periods A and B, birth
    2020-07-01 and the reference instant set inside A, B is returned. *)
Theorem current_period_excludes_pre_birth :
  (forall (fromisoformat : string -> option datetime) (utcnow : Z)
          (items : list pyval) (birth : datetime) (now : option datetime) (q : pyval),
      build_filtered fromisoformat (Some birth) items <> [] ->
      ended_before_birth fromisoformat birth q ->
      _current_period fromisoformat utcnow (PList items) (Some birth) now
        <> Return (Some q))
  /\ (forall utcnow,
        _current_period Iso.fromisoformat utcnow (PList [period_A; period_B])
          (Some (naive_midnight "2020-07-01")) (Some (utc_midnight "2020-03-01"))
        = Return (Some period_B)).
Proof.
  split.
  - intros fromisoformat utcnow items birth now q Hne Hq Hret.
    destruct (current_period_candidate fromisoformat utcnow (Some birth) now items q Hne Hret)
      as [c Hc].
    pose proof (try_entry_Some fromisoformat (Some birth) q c Hc)
      as (_ & _ & (e_raw & e0 & G1 & G2 & G3) & Hb).
    destruct (Hb birth eq_refl) as (b' & Hb1 & Hb2).
    destruct Hq as (e_raw' & e0' & e' & b'' & Q1 & Q2 & Q3 & Q4 & Q5).
    rewrite G1 in Q1. injection Q1 as <-.
    rewrite G2 in Q2. injection Q2 as <-.
    rewrite G3 in Q3. injection Q3 as <-.
    rewrite Hb1 in Q4. injection Q4 as <-.
    lia.
  - intros utcnow. vm_compute. reflexivity.
Qed.

Lemma period_A_ended_before_july :
  ended_before_birth Iso.fromisoformat (naive_midnight "2020-07-01") period_A.
Proof.
  exists (PStr "2020-06-01"), (naive_midnight "2020-06-01"),
    (utc_midnight "2020-06-01"), (utc_midnight "2020-07-01").
  repeat split; try reflexivity.
Qed.

Lemma current_period_excludes_pre_birth_witness :
  build_filtered Iso.fromisoformat (Some (naive_midnight "2020-07-01"))
    [period_A; period_B] <> []
  /\ ended_before_birth Iso.fromisoformat (naive_midnight "2020-07-01") period_A
  /\ _current_period Iso.fromisoformat 0 (PList [period_A; period_B])
       (Some (naive_midnight "2020-07-01")) (Some (utc_midnight "2020-03-01"))
     <> Return (Some period_A).
Proof.
  assert (H1 : build_filtered Iso.fromisoformat (Some (naive_midnight "2020-07-01"))
                 [period_A; period_B] <> []) by (vm_compute; discriminate).
  assert (H2 : ended_before_birth Iso.fromisoformat (naive_midnight "2020-07-01") period_A).
  { exists (PStr "2020-06-01"), (naive_midnight "2020-06-01"),
      (utc_midnight "2020-06-01"), (utc_midnight "2020-07-01").
    repeat split; try reflexivity. }
  split; [exact H1|]. split; [exact H2|].
  exact (proj1 current_period_excludes_pre_birth Iso.fromisoformat 0
           [period_A; period_B] (naive_midnight "2020-07-01")
           (Some (utc_midnight "2020-03-01")) period_A H1 H2).
Defined.

(** C5 (as stated) fails: when the birth filter leaves no candidate, the
    first input element is returned although it ended before birth. *)
Lemma current_period_returns_pre_birth_period :
  _current_period Iso.fromisoformat 0 (PList [period_A])
    (Some (naive_midnight "2020-07-01")) (Some (utc_midnight "2020-03-01"))
    = Return (Some period_A)
  /\ ended_before_birth Iso.fromisoformat (naive_midnight "2020-07-01") period_A
  /\ contains_instant (utc_midnight "2020-03-01")
       (utc_midnight "2020-01-01", utc_midnight "2020-06-01", period_A).
Proof.
  split; [reflexivity|]. split; [exact period_A_ended_before_july|].
  unfold contains_instant. vm_compute. split; discriminate.
Qed.

(** C6 (as amended): for a reference instant that carries an offset (or
    is left to the clock), the selector returns the first entry, in input
    order, that survives normalisation and the birth filter and whose
    interval [[start, end]], both ends included, holds the reference
    instant.  With A = [2020-01-01, 2020-06-01] and B = [2020-06-01,
    2021-01-01] the instant 2020-08-01T00:00:00+00:00 selects B; the
    shared boundary 2020-06-01 selects A, and the far end 2021-01-01
    selects B. *)
Theorem current_period_first_containing :
  (forall (fromisoformat : string -> option datetime) (utcnow : Z)
          (bd now : option datetime) (off : Z)
          (items : list pyval) (i : nat) (p : pyval) (c : candidate),
      tzinfo (reference_instant utcnow now) = Some off ->
      items !! i = Some p ->
      try_entry fromisoformat bd p = Some c ->
      contains_instant (reference_instant utcnow now) c ->
      (forall j q c', (j < i)%nat -> items !! j = Some q ->
                      try_entry fromisoformat bd q = Some c' ->
                      ~ contains_instant (reference_instant utcnow now) c') ->
      _current_period fromisoformat utcnow (PList items) bd now = Return (Some p))
  /\ (forall utcnow,
        _current_period Iso.fromisoformat utcnow (PList [period_A; period_B]) None
          (Some (utc_midnight "2020-08-01")) = Return (Some period_B)
        /\ _current_period Iso.fromisoformat utcnow (PList [period_A; period_B]) None
          (Some (utc_midnight "2020-06-01")) = Return (Some period_A)
        /\ _current_period Iso.fromisoformat utcnow (PList [period_A; period_B]) None
          (Some (utc_midnight "2021-01-01")) = Return (Some period_B)).
Proof.
  split.
  - intros. eapply current_period_first_hit; eauto.
  - intros utcnow. repeat split; vm_compute; reflexivity.
Qed.

Lemma current_period_first_containing_witness :
  _current_period Iso.fromisoformat 0 (PList [period_A; period_B]) None
    (Some (utc_midnight "2020-08-01")) = Return (Some period_B).
Proof.
  apply (proj1 current_period_first_containing Iso.fromisoformat 0 None
           (Some (utc_midnight "2020-08-01")) 0 [period_A; period_B] 1%nat period_B
           (utc_midnight "2020-06-01", utc_midnight "2021-01-01", period_B)).
  - reflexivity.
  - reflexivity.
  - reflexivity.
  - unfold contains_instant. vm_compute. split; discriminate.
  - intros j q c' Hj Hq Hc'.
    destruct j as [|j]; [|lia].
    injection Hq as <-. vm_compute in Hc'. injection Hc' as <-.
    unfold contains_instant. vm_compute. intros [_ H]. apply H. reflexivity.
Defined.

(** C6 (as stated) fails: with the reference instant 2020-08-01 given as
    a datetime without offset, the claim's own example selects nothing.
    Both entries survive the first loop as UTC candidates, and the first
    comparison of the second loop, between an aware and a naive datetime,
    raises [TypeError]. *)
Lemma naive_august_reference_raises :
  tzinfo (naive_midnight "2020-08-01") = None
  /\ build_filtered Iso.fromisoformat None [period_A; period_B]
     = [(utc_midnight "2020-01-01", utc_midnight "2020-06-01", period_A);
        (utc_midnight "2020-06-01", utc_midnight "2021-01-01", period_B)]
  /\ _current_period Iso.fromisoformat 0 (PList [period_A; period_B]) None
       (Some (naive_midnight "2020-08-01")) = Raise TypeError
  /\ _current_period Iso.fromisoformat 0 (PList [period_A; period_B]) None
       (Some (naive_midnight "2020-08-01")) <> Return (Some period_B).
Proof.
  split; [reflexivity|]. split; [vm_compute; reflexivity|].
  split; [vm_compute; reflexivity|].
  vm_compute. discriminate.
Qed.

(** C7 (as amended): for a reference instant that carries an offset (or
    is left to the clock), when some entry survives and no survivor's
    interval holds the reference instant, the selector returns the
    survivor of least start (the first such in input order, the sort
    being stable) instead of nothing.  With A = [2020-01-01, 2020-06-01],
    B = [2020-06-01, 2021-01-01] and the reference instant
    2025-01-01T00:00:00+00:00 it returns A, in whichever order the two are
    given. *)
Theorem current_period_falls_back_to_earliest :
  (forall (fromisoformat : string -> option datetime) (utcnow : Z)
          (bd now : option datetime) (off : Z) (items : list pyval),
      tzinfo (reference_instant utcnow now) = Some off ->
      build_filtered fromisoformat bd items <> [] ->
      List.Forall (fun c => ~ contains_instant (reference_instant utcnow now) c)
        (build_filtered fromisoformat bd items) ->
      exists l1 c l2,
        build_filtered fromisoformat bd items = (l1 ++ c :: l2)%list
        /\ List.Forall (fun c' => instant (cand_start c) < instant (cand_start c')) l1
        /\ List.Forall (fun c' => instant (cand_start c) <= instant (cand_start c')) l2
        /\ _current_period fromisoformat utcnow (PList items) bd now
           = Return (Some (cand_period c)))
  /\ (forall utcnow,
        _current_period Iso.fromisoformat utcnow (PList [period_A; period_B]) None
          (Some (utc_midnight "2025-01-01")) = Return (Some period_A)
        /\ _current_period Iso.fromisoformat utcnow (PList [period_B; period_A]) None
          (Some (utc_midnight "2025-01-01")) = Return (Some period_A)).
Proof.
  split.
  - intros. eapply current_period_earliest; eauto.
  - intros utcnow. split; vm_compute; reflexivity.
Qed.

Lemma current_period_falls_back_to_earliest_witness :
  exists l1 c l2,
    build_filtered Iso.fromisoformat None [period_B; period_A] = (l1 ++ c :: l2)%list
    /\ List.Forall (fun c' => instant (cand_start c) < instant (cand_start c')) l1
    /\ List.Forall (fun c' => instant (cand_start c) <= instant (cand_start c')) l2
    /\ _current_period Iso.fromisoformat 0 (PList [period_B; period_A]) None
         (Some (utc_midnight "2025-01-01")) = Return (Some (cand_period c)).
Proof.
  apply (proj1 current_period_falls_back_to_earliest Iso.fromisoformat 0 None
           (Some (utc_midnight "2025-01-01")) 0 [period_B; period_A]).
  - reflexivity.
  - vm_compute. discriminate.
  - set (l := build_filtered Iso.fromisoformat None [period_B; period_A]).
    vm_compute in l. subst l.
    repeat constructor; intros [_ H]; vm_compute in H; apply H; reflexivity.
Defined.

(** C7 (as stated) fails: with the reference instant 2025-01-01 given as
    a datetime without offset, the claim's own example does not fall back
    to A.  The second loop raises [TypeError] at its first comparison, so
    the sort of line 71 is never reached. *)
Lemma naive_late_reference_raises :
  tzinfo (naive_midnight "2025-01-01") = None
  /\ _current_period Iso.fromisoformat 0 (PList [period_A; period_B]) None
       (Some (naive_midnight "2025-01-01")) = Raise TypeError
  /\ _current_period Iso.fromisoformat 0 (PList [period_A; period_B]) None
       (Some (naive_midnight "2025-01-01")) <> Return (Some period_A).
Proof.
  split; [reflexivity|]. split; [vm_compute; reflexivity|].
  vm_compute. discriminate.
Qed.


(** ** The fallback chains *)

Lemma or_else_none {A : Type} (m1 m2 : io (option A)) (st st1 : state) :
  m1 st = (Return None, st1) -> or_else m1 m2 st = m2 st1.
Proof.
  intros H. unfold or_else, io_bind. rewrite H. reflexivity.
Qed.

Lemma or_else_some {A : Type} (m1 m2 : io (option A)) (st st1 : state) (a : A) :
  m1 st = (Return (Some a), st1) -> or_else m1 m2 st = (Return (Some a), st1).
Proof.
  intros H. unfold or_else, io_bind. rewrite H. reflexivity.
Qed.

(** A guarded step never lets an [HTTPError] out. *)
Lemma except_http_no_http_error {A : Type} (m : io (option A)) (st : state) :
  fst (except_http m st) <> Raise HTTPError.
Proof.
  unfold except_http.
  destruct (m st) as [[r|e] st']; simpl; [discriminate|].
  destruct e; simpl; discriminate.
Qed.

Lemma or_else_no_http_error {A : Type} (m1 m2 : io (option A)) :
  (forall st, fst (m1 st) <> Raise HTTPError) ->
  (forall st, fst (m2 st) <> Raise HTTPError) ->
  forall st, fst (or_else m1 m2 st) <> Raise HTTPError.
Proof.
  intros H1 H2 st. unfold or_else, io_bind, io_ret.
  specialize (H1 st).
  destruct (m1 st) as [[[a|]|e] st']; simpl in *.
  - discriminate.
  - apply H2.
  - exact H1.
Qed.

Section ChainFacts.

Variable float_of_str : string -> option float.
Variable int_of_str : string -> option Z.
Variable zone_offset_now : pyval -> option Z.
Variable locationiq_key : option string.
Variable net : network.

(** A GET that fails as HTTP raises [HTTPError] out of
    [get(...); raise_for_status(); json()]. *)
Lemma get_json_failure (rq : request) (st : state) :
  http_failure (net (length (calls st)) rq) ->
  get_json net rq st = (Raise HTTPError, log_call st rq).
Proof.
  unfold http_failure, get_json, io_bind, http_get, io_raise.
  destruct (net (length (calls st)) rq) as [|status body]; [reflexivity|].
  simpl. intros ->. reflexivity.
Qed.

(** Hence a guarded step that starts with such a GET falls out of its
    [try], with nothing but the call logged. *)
Lemma guarded_get_failure {A : Type} (rq : request) (k : pyval -> io (option A))
  (st : state) :
  http_failure (net (length (calls st)) rq) ->
  except_http (io_bind (get_json net rq) k) st = (Return None, log_call st rq).
Proof.
  intros H. unfold except_http, io_bind.
  rewrite (get_json_failure rq st H). reflexivity.
Qed.

Lemma geo_cache_lookup_no_http_error (location : string) (st : state) :
  fst (geo_cache_lookup location st) <> Raise HTTPError.
Proof.
  unfold geo_cache_lookup.
  destruct (GEO_CACHE st !! location) as [[[lat lon] name]|]; simpl; discriminate.
Qed.

Lemma geocode_unkeyed_no_http_error (location : string) (st : state) :
  fst (geocode_unkeyed float_of_str net location st) <> Raise HTTPError.
Proof.
  unfold geocode_unkeyed.
  apply or_else_no_http_error; [apply geo_cache_lookup_no_http_error|].
  apply or_else_no_http_error; intros st'; apply except_http_no_http_error.
Qed.

End ChainFacts.

(** C8: for a query the geocoding cache already holds, with no keyed
    provider configured (the key unset or empty), [geocode_location]
    returns the cached result and leaves the state, call log included, as
    it was: no GET is issued, whatever the network would have answered. *)
Theorem geocode_cache_hit_without_key
  (float_of_str : string -> option float) (locationiq_key : option string)
  (location : string) (lat lon : float) (name : pyval) (st : state) :
  configured_key locationiq_key = None ->
  GEO_CACHE st !! location = Some (lat, lon, name) ->
  forall net : network,
    geocode_location float_of_str locationiq_key net location st
    = (Return (Some (mk_geo lat lon name None)), st).
Proof.
  intros Hkey Hhit net.
  unfold geocode_location. rewrite Hkey.
  rewrite (or_else_none _ _ st st) by reflexivity.
  unfold geocode_unkeyed.
  apply or_else_some.
  unfold geo_cache_lookup. rewrite Hhit. reflexivity.
Qed.

Lemma geocode_cache_hit_without_key_witness :
  configured_key None = None
  /\ GEO_CACHE chennai_cached !! "Chennai, India"
     = Some (13.0827%float, 80.2707%float, PStr "Chennai, Tamil Nadu, India")
  /\ geocode_location PyNum.float_of_string None network_hit_without_lat
       "Chennai, India" chennai_cached
     = (Return (Some (mk_geo 13.0827%float 80.2707%float
                        (PStr "Chennai, Tamil Nadu, India") None)),
        chennai_cached).
Proof.
  assert (H : GEO_CACHE chennai_cached !! "Chennai, India"
              = Some (13.0827%float, 80.2707%float, PStr "Chennai, Tamil Nadu, India"))
    by apply lookup_singleton_eq.
  split; [reflexivity|]. split; [exact H|].
  exact (geocode_cache_hit_without_key PyNum.float_of_string None "Chennai, India"
           _ _ _ chennai_cached eq_refl H network_hit_without_lat).
Defined.

(** C3 (as amended): every transport or HTTP-status failure of the keyed
    provider makes [geocode_location] go on with the next step of the
    chain, the cache lookup, and no [httpx.HTTPError] ever leaves
    [geocode_location]. *)
Theorem geocode_primary_http_failure_falls_through :
  (forall (float_of_str : string -> option float) (locationiq_key : option string)
          (net : network) (location k : string) (st : state),
      configured_key locationiq_key = Some k ->
      http_failure (net (length (calls st)) (LocationIQSearch k location)) ->
      geocode_location float_of_str locationiq_key net location st
      = geocode_unkeyed float_of_str net location
          (log_call st (LocationIQSearch k location)))
  /\ (forall (float_of_str : string -> option float) (locationiq_key : option string)
             (net : network) (location : string) (st : state),
        fst (geocode_location float_of_str locationiq_key net location st)
        <> Raise HTTPError).
Proof.
  split.
  - intros float_of_str locationiq_key net location k st Hkey Hfail.
    unfold geocode_location. rewrite Hkey.
    apply or_else_none.
    unfold search_array.
    apply guarded_get_failure. exact Hfail.
  - intros float_of_str locationiq_key net location st.
    unfold geocode_location.
    apply or_else_no_http_error.
    + intros st'. destruct (configured_key locationiq_key).
      * apply except_http_no_http_error.
      * discriminate.
    + apply geocode_unkeyed_no_http_error.
Qed.

Lemma geocode_primary_http_failure_falls_through_witness :
  configured_key (Some "pk.test") = Some "pk.test"
  /\ http_failure (network_unavailable (length (calls chennai_cached))
                     (LocationIQSearch "pk.test" "Chennai, India"))
  /\ geocode_location PyNum.float_of_string (Some "pk.test") network_unavailable
       "Chennai, India" chennai_cached
     = geocode_unkeyed PyNum.float_of_string network_unavailable "Chennai, India"
         (log_call chennai_cached (LocationIQSearch "pk.test" "Chennai, India")).
Proof.
  split; [reflexivity|]. split; [reflexivity|].
  exact (proj1 geocode_primary_http_failure_falls_through PyNum.float_of_string
           (Some "pk.test") network_unavailable "Chennai, India" "pk.test"
           chennai_cached eq_refl eq_refl).
Defined.

(** C3 (as stated) fails: a hit without [lat] raises [KeyError], a hit
    whose [lat] is not a number raises [ValueError], and both leave
    [geocode_location]. *)
Lemma geocode_parsing_failure_escapes :
  geocode_location PyNum.float_of_string (Some "pk.test") network_hit_without_lat
    "New Delhi" fresh_state
  = (Raise KeyError, log_call fresh_state (LocationIQSearch "pk.test" "New Delhi"))
  /\ geocode_location PyNum.float_of_string (Some "pk.test") network_hit_with_text_lat
       "New Delhi" fresh_state
     = (Raise ValueError, log_call fresh_state (LocationIQSearch "pk.test" "New Delhi")).
Proof. split; reflexivity. Qed.

(** ** The timezone resolver with every provider down *)

Lemma falls_through_or_else {A : Type} (m1 m2 : io (option A)) (st : state) :
  falls_through m1 st ->
  exists st', or_else m1 m2 st = m2 st'
              /\ GEO_CACHE st' = GEO_CACHE st /\ TZ_CACHE st' = TZ_CACHE st.
Proof.
  intros (st' & H & Hg & Ht). exists st'.
  split; [apply or_else_none; exact H | split; assumption].
Qed.

Section TimezoneDown.

Variable int_of_str : string -> option Z.
Variable zone_offset_now : pyval -> option Z.
Variable locationiq_key : option string.
Variable net : network.
Hypothesis down : providers_down net.

Lemma guarded_get_falls_through {A : Type} (rq : request)
  (k : pyval -> io (option A)) (st : state) :
  falls_through (except_http (io_bind (get_json net rq) k)) st.
Proof.
  exists (log_call st rq). split; [|split; reflexivity].
  apply guarded_get_failure. apply down.
Qed.

Lemma tz_keyed_falls_through (key : string) (lat lon : float) (st : state) :
  falls_through
    (match configured_key locationiq_key with
     | Some k => except_http (tz_locationiq int_of_str net k key lat lon)
     | None => io_ret None
     end) st.
Proof.
  destruct (configured_key locationiq_key) as [k|].
  - unfold tz_locationiq. apply guarded_get_falls_through.
  - exists st. repeat split.
Qed.

Lemma tz_timeapi_falls_through (key : string) (lat lon : float) (st : state) :
  falls_through (except_http (tz_timeapi int_of_str net key lat lon)) st.
Proof. unfold tz_timeapi. apply guarded_get_falls_through. Qed.

Lemma tz_open_meteo_falls_through (key : string) (lat lon : float) (st : state) :
  falls_through (except_http (tz_open_meteo int_of_str net key lat lon)) st.
Proof. unfold tz_open_meteo. apply guarded_get_falls_through. Qed.

(** The reverse-geocoding step checks for status 200 itself. *)
Lemma tz_reverse_falls_through (key : string) (lat lon : float) (st : state) :
  falls_through (except_http (tz_reverse zone_offset_now net key lat lon)) st.
Proof.
  exists (log_call st (OpenMeteoReverse lat lon)). split; [|split; reflexivity].
  pose proof (down (length (calls st)) (OpenMeteoReverse lat lon)) as H.
  unfold except_http, tz_reverse, io_bind, http_get, http_failure in *.
  destruct (net (length (calls st)) (OpenMeteoReverse lat lon)) as [|status body];
    [reflexivity|].
  simpl.
  assert (Hs : (status =? 200) = false).
  { apply Z.eqb_neq. intros ->. discriminate H. }
  rewrite Hs. reflexivity.
Qed.

(** On a cache miss the chain reaches the bounding-box test with both
    caches untouched. *)
Lemma timezone_down_reaches_box (lat lon : float) (st : state) :
  TZ_CACHE st !! coord_key lat lon = None ->
  exists st',
    timezone_for_coords int_of_str zone_offset_now locationiq_key net lat lon st
    = tz_india_box (coord_key lat lon) lat lon st'
    /\ GEO_CACHE st' = GEO_CACHE st /\ TZ_CACHE st' = TZ_CACHE st.
Proof.
  intros Hmiss. unfold timezone_for_coords.
  rewrite (or_else_none _ _ st st)
    by (unfold tz_cache_lookup; rewrite Hmiss; reflexivity).
  destruct (falls_through_or_else _
              (or_else (except_http (tz_timeapi int_of_str net (coord_key lat lon) lat lon))
                 (or_else (except_http (tz_open_meteo int_of_str net (coord_key lat lon) lat lon))
                    (or_else (except_http (tz_reverse zone_offset_now net (coord_key lat lon) lat lon))
                       (tz_india_box (coord_key lat lon) lat lon))))
              st (tz_keyed_falls_through (coord_key lat lon) lat lon st))
    as (st1 & -> & G1 & T1).
  destruct (falls_through_or_else _
              (or_else (except_http (tz_open_meteo int_of_str net (coord_key lat lon) lat lon))
                 (or_else (except_http (tz_reverse zone_offset_now net (coord_key lat lon) lat lon))
                    (tz_india_box (coord_key lat lon) lat lon)))
              st1 (tz_timeapi_falls_through (coord_key lat lon) lat lon st1))
    as (st2 & -> & G2 & T2).
  destruct (falls_through_or_else _
              (or_else (except_http (tz_reverse zone_offset_now net (coord_key lat lon) lat lon))
                 (tz_india_box (coord_key lat lon) lat lon))
              st2 (tz_open_meteo_falls_through (coord_key lat lon) lat lon st2))
    as (st3 & -> & G3 & T3).
  destruct (falls_through_or_else _ (tz_india_box (coord_key lat lon) lat lon)
              st3 (tz_reverse_falls_through (coord_key lat lon) lat lon st3))
    as (st4 & -> & G4 & T4).
  exists st4. split; [reflexivity|]. split; congruence.
Qed.

End TimezoneDown.

(** C4 (as amended): for coordinates inside the footprint
    [6.0 <= lat <= 37.5], [68.0 <= lon <= 98.0] whose key is not in the
    timezone cache, with every network provider failing, the resolver
    returns [Asia/Kolkata] with [+05:30] and caches it; whatever the cache
    holds, it does not report NotFound for such coordinates.  New Delhi
    (28.6139, 77.2090) resolves to [+05:30] in a fresh process with the
    network down. *)
Theorem timezone_india_box_fallback :
  (forall (int_of_str : string -> option Z) (zone_offset_now : pyval -> option Z)
          (locationiq_key : option string) (net : network) (lat lon : float)
          (st : state),
      providers_down net ->
      PrimFloat.leb 6.0%float lat = true -> PrimFloat.leb lat 37.5%float = true ->
      PrimFloat.leb 68.0%float lon = true -> PrimFloat.leb lon 98.0%float = true ->
      (TZ_CACHE st !! coord_key lat lon = None ->
       exists st',
         timezone_for_coords int_of_str zone_offset_now locationiq_key net lat lon st
         = (Return (Some (mk_tz (PStr "Asia/Kolkata") (PStr "+05:30"))), st')
         /\ TZ_CACHE st'
            = <[coord_key lat lon := (PStr "Asia/Kolkata", PStr "+05:30")]> (TZ_CACHE st))
      /\ (exists r st',
            timezone_for_coords int_of_str zone_offset_now locationiq_key net lat lon st
            = (Return (Some r), st')))
  /\ (exists st',
        timezone_for_coords PyNum.int_of_string fixed_zone_offset None network_down
          28.6139%float 77.2090%float fresh_state
        = (Return (Some (mk_tz (PStr "Asia/Kolkata") (PStr "+05:30"))), st')).
Proof.
  assert (General :
    forall int_of_str zone_offset_now locationiq_key net lat lon st,
      providers_down net ->
      PrimFloat.leb 6.0%float lat = true -> PrimFloat.leb lat 37.5%float = true ->
      PrimFloat.leb 68.0%float lon = true -> PrimFloat.leb lon 98.0%float = true ->
      TZ_CACHE st !! coord_key lat lon = None ->
      exists st',
        timezone_for_coords int_of_str zone_offset_now locationiq_key net lat lon st
        = (Return (Some (mk_tz (PStr "Asia/Kolkata") (PStr "+05:30"))), st')
        /\ TZ_CACHE st'
           = <[coord_key lat lon := (PStr "Asia/Kolkata", PStr "+05:30")]> (TZ_CACHE st)).
  { intros int_of_str zone_offset_now locationiq_key net lat lon st
      Hdown H1 H2 H3 H4 Hmiss.
    destruct (timezone_down_reaches_box int_of_str zone_offset_now locationiq_key
                net Hdown lat lon st Hmiss) as (st1 & -> & G & T).
    unfold tz_india_box, in_india_box. rewrite H1, H2, H3, H4. simpl.
    unfold remember_tz, io_bind, put_tz, io_ret. simpl.
    eexists. split; [reflexivity|]. simpl. rewrite T. reflexivity. }
  split.
  - intros int_of_str zone_offset_now locationiq_key net lat lon st
      Hdown H1 H2 H3 H4.
    split.
    + apply General; assumption.
    + destruct (TZ_CACHE st !! coord_key lat lon) as [[tzid off]|] eqn:E.
      * exists (mk_tz tzid off), st.
        unfold timezone_for_coords. apply or_else_some.
        unfold tz_cache_lookup. rewrite E. reflexivity.
      * destruct (General int_of_str zone_offset_now locationiq_key net lat lon st
                    Hdown H1 H2 H3 H4 E) as (st' & Hr & _).
        eauto.
  - destruct (General PyNum.int_of_string fixed_zone_offset None network_down
                28.6139%float 77.2090%float fresh_state)
      as (st' & Hr & _); try reflexivity.
    + intros n rq. exact I.
    + eauto.
Qed.

Lemma timezone_india_box_fallback_witness :
  providers_down network_unavailable
  /\ PrimFloat.leb 6.0%float 28.6139%float = true
  /\ PrimFloat.leb 28.6139%float 37.5%float = true
  /\ PrimFloat.leb 68.0%float 77.2090%float = true
  /\ PrimFloat.leb 77.2090%float 98.0%float = true
  /\ ((TZ_CACHE fresh_state !! coord_key 28.6139%float 77.2090%float = None ->
       exists st',
         timezone_for_coords PyNum.int_of_string fixed_zone_offset (Some "pk.test")
           network_unavailable 28.6139%float 77.2090%float fresh_state
         = (Return (Some (mk_tz (PStr "Asia/Kolkata") (PStr "+05:30"))), st')
         /\ TZ_CACHE st'
            = <[coord_key 28.6139%float 77.2090%float
                  := (PStr "Asia/Kolkata", PStr "+05:30")]> (TZ_CACHE fresh_state))
      /\ (exists r st',
            timezone_for_coords PyNum.int_of_string fixed_zone_offset (Some "pk.test")
              network_unavailable 28.6139%float 77.2090%float fresh_state
            = (Return (Some r), st'))).
Proof.
  assert (Hdown : providers_down network_unavailable) by (intros n rq; reflexivity).
  split; [exact Hdown|].
  split; [reflexivity|]. split; [reflexivity|].
  split; [reflexivity|]. split; [reflexivity|].
  exact (proj1 timezone_india_box_fallback PyNum.int_of_string fixed_zone_offset
           (Some "pk.test") network_unavailable 28.6139%float 77.2090%float fresh_state
           Hdown eq_refl eq_refl eq_refl eq_refl).
Defined.

Example new_delhi_key : coord_key 28.6139%float 77.2090%float = "28.613900,77.209000".
Proof. reflexivity. Qed.

(** C4 (as stated) fails: the cache is read before anything else, so a
    point of the footprint that a provider once placed in another zone
    keeps that zone when every provider is down. *)
Lemma timezone_cached_entry_wins :
  providers_down network_down
  /\ in_india_box 30%float 70%float = true
  /\ timezone_for_coords PyNum.int_of_string fixed_zone_offset None network_down
       30%float 70%float punjab_cached
     = (Return (Some (mk_tz (PStr "Asia/Karachi") (PStr "+05:00"))), punjab_cached).
Proof.
  split; [intros n rq; exact I|]. split; [reflexivity|].
  unfold timezone_for_coords. apply or_else_some.
  unfold tz_cache_lookup.
  replace (coord_key 30%float 70%float) with "30.000000,70.000000" by reflexivity.
  unfold punjab_cached. simpl TZ_CACHE.
  rewrite lookup_singleton_eq. reflexivity.
Qed.

(** ** The [compute] endpoint *)

Section ComputeFacts.

Variable float_of_str : string -> option float.
Variable int_of_str : string -> option Z.
Variable zone_offset_now : pyval -> option Z.
Variable zoneinfo_available : bool.
Variable fromisoformat : string -> option datetime.
Variable zone_offset_at : pyval -> Z -> option Z.
Variable locationiq_key : option string.
Variable net : network.
Variable provider_init : outcome unit.
Variable provider : chart_call -> outcome pyval.

Let steps := resolution_steps float_of_str int_of_str zone_offset_now
               zoneinfo_available fromisoformat zone_offset_at locationiq_key net.
Let resolve := resolve_birth float_of_str int_of_str zone_offset_now
                 zoneinfo_available fromisoformat zone_offset_at locationiq_key net.

(** The [try] statement hands over a record only with an offset in it. *)
Lemma resolve_birth_offset (b b' : BirthInput) (st st' : state) :
  resolve b st = (Return b', st') -> truthy (b_timezone b') = true.
Proof.
  unfold resolve, resolve_birth, as_bad_request, io_bind.
  destruct (resolution_steps _ _ _ _ _ _ _ _ b st) as [[b1|e] st1].
  - unfold require_timezone, io_ret, io_raise.
    destruct (truthy (b_timezone b1)) eqn:E; simpl.
    + intros [= <- <-]. exact E.
    + discriminate.
  - destruct e; discriminate.
Qed.

(** An offset still missing after the two resolution steps is the
    explicit 400. *)
Lemma resolve_birth_unresolved (b b1 : BirthInput) (st st1 : state) :
  steps b st = (Return b1, st1) ->
  truthy (b_timezone b1) = false ->
  resolve b st = (Raise (HTTPException 400 TimezoneUnresolved), st1).
Proof.
  unfold steps, resolve, resolve_birth, as_bad_request, io_bind.
  intros -> H. unfold require_timezone, io_raise. rewrite H. reflexivity.
Qed.

Lemma call_with_args_offsets (mk : chart_args -> chart_call) (b : BirthInput)
  (log log' : list chart_call) (r : outcome pyval) :
  (forall a, call_offset (mk a) = Some (snd (snd a))) ->
  call_with_args provider mk b log = (r, log') ->
  offsets_resolved log -> offsets_resolved log'.
Proof.
  intros Hmk. unfold call_with_args, coordinates, iso_datetime.
  destruct (b_latitude b) as [lat|], (b_longitude b) as [lon|]; simpl;
    try (intros [= _ <-]; auto).
  destruct (truthy (b_timezone b)) eqn:E; simpl.
  - intros [= _ <-] Hlog.
    apply List.Forall_app. split; [exact Hlog|].
    constructor; [|constructor].
    intros off. rewrite Hmk. simpl. intros [= <-]. exact E.
  - intros [= _ <-]. auto.
Qed.

Lemma kundli_phase_offsets (b : BirthInput) (log log' : list chart_call)
  (r : outcome (pyval * bool)) :
  kundli_phase provider b log = (r, log') ->
  offsets_resolved log -> offsets_resolved log'.
Proof.
  unfold kundli_phase.
  destruct (call_with_args provider KundliAdvanced b log) as [[k|e] log1] eqn:E1.
  - intros [= _ <-]. eapply call_with_args_offsets; [|exact E1]. reflexivity.
  - destruct (call_with_args provider KundliBasic b log1) as [[k|e'] log2] eqn:E2;
      intros [= _ <-] Hlog;
      (eapply call_with_args_offsets; [|exact E2|]; [reflexivity|]);
      (eapply call_with_args_offsets; [|exact E1|]; [reflexivity|exact Hlog]).
Qed.

Lemma divisional_phase_offsets (b : BirthInput) (types : list string) :
  forall (divisional : list (string * outcome pyval)) (log log' : list chart_call)
         (rs : list (string * outcome pyval)),
    divisional_phase provider b types divisional log = (rs, log') ->
    offsets_resolved log -> offsets_resolved log'.
Proof.
  induction types as [|t types IH]; intros divisional log log' rs; simpl.
  - intros [= _ <-]. auto.
  - destruct (call_with_args provider (fun a => Divisional a t) b log)
      as [r log1] eqn:E1.
    intros E2 Hlog.
    eapply IH; [exact E2|].
    eapply call_with_args_offsets; [|exact E1|exact Hlog]. reflexivity.
Qed.

Lemma transit_phase_offsets (b : BirthInput) (wanted : bool) (dt_iso : option string)
  (log log' : list chart_call) (r : option (outcome pyval)) :
  transit_phase provider b wanted dt_iso log = (r, log') ->
  offsets_resolved log -> offsets_resolved log'.
Proof.
  unfold transit_phase.
  destruct wanted; [|intros [= _ <-]; auto].
  destruct (coordinates b) as [[lat lon]|e]; intros [= _ <-] Hlog; [|exact Hlog].
  apply List.Forall_app. split; [exact Hlog|].
  constructor; [|constructor]. intros off. discriminate.
Qed.

Let run_compute := compute float_of_str int_of_str zone_offset_now
                     zoneinfo_available fromisoformat zone_offset_at locationiq_key
                     net provider_init provider.

Lemma compute_log_offsets (payload : ComputeRequest) (st : state) :
  offsets_resolved (snd (run_compute payload st)).
Proof.
  unfold run_compute, compute.
  destruct provider_init as [u|e]; [|constructor].
  destruct (resolve_birth _ _ _ _ _ _ _ _ (birth payload) st) as [[b|e] st1];
    [|constructor].
  destruct (kundli_phase provider b []) as [[[kundli advanced]|e] log1] eqn:K.
  - destruct (divisional_phase provider b (include_divisional payload) [] log1)
      as [divs log2] eqn:D.
    destruct (transit_phase provider b (include_transits payload) _ log2)
      as [tr log3] eqn:T.
    simpl.
    eapply transit_phase_offsets; [exact T|].
    eapply divisional_phase_offsets; [exact D|].
    eapply kundli_phase_offsets; [exact K|]. constructor.
  - simpl. eapply kundli_phase_offsets; [exact K|]. constructor.
Qed.

Lemma compute_calls_after_resolution (payload : ComputeRequest) (st : state) :
  snd (run_compute payload st) <> [] ->
  exists b st1, resolve (birth payload) st = (Return b, st1)
                /\ truthy (b_timezone b) = true.
Proof.
  unfold run_compute, compute, resolve.
  destruct provider_init as [u|e]; [|intros H; contradiction H; reflexivity].
  destruct (resolve_birth _ _ _ _ _ _ _ _ (birth payload) st) as [[b|e] st1] eqn:R;
    [|intros H; contradiction H; reflexivity].
  intros _. exists b, st1. split; [reflexivity|].
  eapply resolve_birth_offset. exact R.
Qed.

Lemma compute_response_offset (payload : ComputeRequest) (st st' : state)
  (resp : ComputeResponse) :
  fst (run_compute payload st) = (Return resp, st') ->
  truthy (b_timezone (r_birth resp)) = true.
Proof.
  unfold run_compute, compute.
  destruct provider_init as [u|e]; [|discriminate].
  destruct (resolve_birth _ _ _ _ _ _ _ _ (birth payload) st) as [[b|e] st1] eqn:R;
    [|discriminate].
  destruct (kundli_phase provider b []) as [[[kundli advanced]|e] log1];
    [|discriminate].
  destruct (divisional_phase provider b (include_divisional payload) [] log1)
    as [divs log2].
  destruct (transit_phase provider b (include_transits payload) _ log2)
    as [tr log3].
  unfold build_response.
  destruct (valid_kundli kundli && valid_transits tr); [|discriminate].
  simpl. intros [= <- <-]. simpl.
  eapply resolve_birth_offset. exact R.
Qed.

Lemma compute_unresolved (payload : ComputeRequest) (b1 : BirthInput) (st st1 : state) :
  provider_init = Return tt ->
  steps (birth payload) st = (Return b1, st1) ->
  truthy (b_timezone b1) = false ->
  run_compute payload st = (Raise (HTTPException 400 TimezoneUnresolved), st1, []).
Proof.
  intros Hinit Hsteps Hmissing.
  unfold run_compute, compute. rewrite Hinit.
  pose proof (resolve_birth_unresolved (birth payload) b1 st st1 Hsteps Hmissing) as R.
  unfold resolve in R. rewrite R. reflexivity.
Qed.

End ComputeFacts.

(** C9: when, after geocoding and timezone resolution, the birth record
    still has no UTC offset, [compute] fails with the explicit 400
    [timezone_unresolved] and makes no call on the astrology provider.
    Conversely every provider call that carries an offset carries a
    resolved one, a response is built only from a record with an offset,
    and any provider call at all follows a successful resolution. *)
Theorem compute_requires_resolved_offset
  (float_of_str : string -> option float) (int_of_str : string -> option Z)
  (zone_offset_now : pyval -> option Z) (zoneinfo_available : bool)
  (fromisoformat : string -> option datetime) (zone_offset_at : pyval -> Z -> option Z)
  (locationiq_key : option string) (net : network)
  (provider_init : outcome unit) (provider : chart_call -> outcome pyval)
  (payload : ComputeRequest) (st : state) :
  let result :=
    compute float_of_str int_of_str zone_offset_now zoneinfo_available fromisoformat
      zone_offset_at locationiq_key net provider_init provider payload st in
  (forall b1 st1,
      provider_init = Return tt ->
      resolution_steps float_of_str int_of_str zone_offset_now zoneinfo_available
        fromisoformat zone_offset_at locationiq_key net (birth payload) st
      = (Return b1, st1) ->
      truthy (b_timezone b1) = false ->
      result = (Raise (HTTPException 400 TimezoneUnresolved), st1, []))
  /\ offsets_resolved (snd result)
  /\ (forall resp st', fst result = (Return resp, st') ->
                       truthy (b_timezone (r_birth resp)) = true)
  /\ (snd result <> [] ->
      exists b st1,
        resolve_birth float_of_str int_of_str zone_offset_now zoneinfo_available
          fromisoformat zone_offset_at locationiq_key net (birth payload) st
        = (Return b, st1)
        /\ truthy (b_timezone b) = true).
Proof.
  intros result. subst result.
  split; [|split; [|split]].
  - intros b1 st1. apply compute_unresolved.
  - apply compute_log_offsets.
  - intros resp st'. apply compute_response_offset.
  - apply compute_calls_after_resolution.
Qed.

Lemma compute_requires_resolved_offset_witness :
  compute PyNum.float_of_string PyNum.int_of_string fixed_zone_offset true
    Iso.fromisoformat (fun tz _ => fixed_zone_offset tz) None network_atlantis
    (Return tt) empty_provider atlantis_request fresh_state
  = (Raise (HTTPException 400 TimezoneUnresolved), atlantis_resolved, []).
Proof.
  apply (proj1 (compute_requires_resolved_offset PyNum.float_of_string
                  PyNum.int_of_string fixed_zone_offset true Iso.fromisoformat
                  (fun tz _ => fixed_zone_offset tz) None network_atlantis
                  (Return tt) empty_provider atlantis_request fresh_state)
           (set_coords atlantis_birth 0%float (-30)%float) atlantis_resolved).
  - reflexivity.
  - vm_compute. reflexivity.
  - reflexivity.
Defined.

(** * Further properties *)

(** ** The period selector, beyond the selected period *)

(** The second loop returns when the reference instant is aware. *)
Lemma first_containing_returns (fromisoformat : string -> option datetime)
  (bd : option datetime) (now : datetime) (off : Z) (items : list pyval) :
  tzinfo now = Some off ->
  exists hit, first_containing now (build_filtered fromisoformat bd items) = Return hit.
Proof.
  intros Hn.
  destruct (first_containing now (build_filtered fromisoformat bd items)) as [hit|e] eqn:F.
  - eauto.
  - apply first_containing_Raise in F as [_ F]; [|apply build_filtered_utc].
    congruence.
Qed.

(** A selected period sits at some index of the input list. *)
Lemma current_period_result_shape (fromisoformat : string -> option datetime)
  (utcnow : Z) (items : list pyval) (bd now : option datetime) :
  match _current_period fromisoformat utcnow (PList items) bd now with
  | Return (Some p) => exists i, items !! i = Some p
  | _ => True
  end.
Proof.
  unfold _current_period.
  destruct (first_containing _ _) as [[p|]|e] eqn:F; simpl; [| |exact I].
  - apply first_containing_Some in F as (c & Hc & Hp).
    apply build_filtered_In in Hc as (p' & Hin & Ht).
    pose proof (try_entry_Some fromisoformat bd p' c Ht) as (Hper & _).
    apply list_elem_of_In, list_elem_of_lookup_1 in Hin as [i Hi].
    exists i. congruence.
  - destruct (sort_by_start _) as [|c rest] eqn:E.
    + destruct items as [|x items]; simpl; [exact I|]. exists 0%nat. reflexivity.
    + destruct (sort_by_start_head _ _ _ E) as (l1 & l2 & Hl & _).
      assert (Hc : In c (build_filtered fromisoformat bd items)).
      { rewrite Hl. apply in_or_app. right. left. reflexivity. }
      apply build_filtered_In in Hc as (p' & Hin & Ht).
      pose proof (try_entry_Some fromisoformat bd p' c Ht) as (Hper & _).
      apply list_elem_of_In, list_elem_of_lookup_1 in Hin as [i Hi].
      exists i. congruence.
Qed.




(** A naive reference instant cannot be compared with the candidates,
    which are all made aware: as soon as one entry survives, the selector
    raises [TypeError]. *)
Theorem current_period_naive_reference_raises
  (fromisoformat : string -> option datetime) (utcnow : Z)
  (items : list pyval) (bd : option datetime) (now : datetime) :
  tzinfo now = None ->
  build_filtered fromisoformat bd items <> [] ->
  _current_period fromisoformat utcnow (PList items) bd (Some now) = Raise TypeError.
Proof.
  intros Hn Hne. unfold _current_period. simpl.
  pose proof (build_filtered_utc fromisoformat bd items) as Hu.
  destruct (build_filtered fromisoformat bd items) as [|[[s e] p] l]; [contradiction|].
  inversion Hu as [|? ? [Hs _] _]; subst.
  unfold cand_start in Hs. simpl in *.
  unfold dt_le. rewrite Hs, Hn. reflexivity.
Qed.

Lemma current_period_naive_reference_raises_witness :
  tzinfo (naive_midnight "2020-03-01") = None
  /\ build_filtered Iso.fromisoformat None [period_A; period_B] <> []
  /\ _current_period Iso.fromisoformat 0 (PList [period_A; period_B]) None
       (Some (naive_midnight "2020-03-01")) = Raise TypeError.
Proof.
  assert (H : build_filtered Iso.fromisoformat None [period_A; period_B] <> [])
    by (vm_compute; discriminate).
  split; [reflexivity|]. split; [exact H|].
  exact (current_period_naive_reference_raises Iso.fromisoformat 0
           [period_A; period_B] None (naive_midnight "2020-03-01") eq_refl H).
Defined.

(** An entry that survives with a birth instant survives without one. *)
Lemma try_entry_without_birth (fromisoformat : string -> option datetime)
  (b : datetime) (p : pyval) (c : candidate) :
  try_entry fromisoformat (Some b) p = Some c ->
  try_entry fromisoformat None p = Some c.
Proof.
  unfold try_entry, catch_all, normalize_entry.
  destruct (py_get p "start") as [s_raw|]; simpl; [|discriminate].
  destruct (py_fromisoformat fromisoformat s_raw) as [s0|]; simpl; [|discriminate].
  destruct (py_get p "end") as [e_raw|]; simpl; [|discriminate].
  destruct (py_fromisoformat fromisoformat e_raw) as [e0|]; simpl; [|discriminate].
  destruct (normalize_utc s0) as [s|]; simpl; [|discriminate].
  destruct (normalize_utc e0) as [e|]; simpl; [|discriminate].
  destruct (normalize_utc b) as [b'|]; simpl; [|discriminate].
  destruct (dt_le b' e) as [[|]|]; simpl; try discriminate.
  auto.
Qed.

(** The birth filter only removes: the candidates kept with a birth
    instant are, in the same order, among those kept without one. *)
Theorem birth_filter_only_removes
  (fromisoformat : string -> option datetime) (b : datetime) (items : list pyval) :
  sublist (build_filtered fromisoformat (Some b) items)
          (build_filtered fromisoformat None items).
Proof.
  induction items as [|p items IH]; simpl; [constructor|].
  destruct (try_entry fromisoformat (Some b) p) as [c|] eqn:E.
  - rewrite (try_entry_without_birth fromisoformat b p c E).
    apply sublist_skip. exact IH.
  - destruct (try_entry fromisoformat None p); [apply sublist_cons|]; exact IH.
Qed.

(** ** What the resolvers do to the caches *)

Lemma frame_refl (G T : string -> Prop) (st : state) : frame G T st st.
Proof.
  repeat split; auto. exists []. symmetry. apply app_nil_r.
Qed.

Lemma frame_trans (G T : string -> Prop) (st1 st2 st3 : state) :
  frame G T st1 st2 -> frame G T st2 st3 -> frame G T st1 st3.
Proof.
  intros (G1 & T1 & SG1 & ST1 & [l1 C1]) (G2 & T2 & SG2 & ST2 & [l2 C2]).
  repeat split.
  - intros k Hk. rewrite (G2 k Hk). apply G1. exact Hk.
  - intros k Hk. rewrite (T2 k Hk). apply T1. exact Hk.
  - intros k Hk. apply SG2, SG1, Hk.
  - intros k Hk. apply ST2, ST1, Hk.
  - exists (l1 ++ l2)%list. rewrite C2, C1. symmetry. apply app_assoc.
Qed.

Lemma frame_weaken (G T G' T' : string -> Prop) (st st' : state) :
  (forall k, G k -> G' k) -> (forall k, T k -> T' k) ->
  frame G T st st' -> frame G' T' st st'.
Proof.
  intros HG HT (G1 & T1 & SG1 & ST1 & C1).
  repeat split; auto.
Qed.

Lemma frame_log_call (G T : string -> Prop) (st : state) (rq : request) :
  frame G T st (log_call st rq).
Proof.
  repeat split; auto. exists [rq]. reflexivity.
Qed.

Lemma frame_put_geo (G T : string -> Prop) (st : state) (k : string)
  (v : float * float * pyval) :
  G k -> frame G T st (mk_state (<[k := v]> (GEO_CACHE st)) (TZ_CACHE st) (calls st)).
Proof.
  intros Hk. repeat split; simpl; auto.
  - intros k' Hk'. apply lookup_insert_ne. intros ->. contradiction.
  - intros k' Hs. destruct (decide (k = k')) as [->|Hne].
    + rewrite lookup_insert_eq. eauto.
    + rewrite lookup_insert_ne by exact Hne. exact Hs.
  - exists []. symmetry. apply app_nil_r.
Qed.

Lemma frame_put_tz (G T : string -> Prop) (st : state) (k : string) (v : pyval * pyval) :
  T k -> frame G T st (mk_state (GEO_CACHE st) (<[k := v]> (TZ_CACHE st)) (calls st)).
Proof.
  intros Hk. repeat split; simpl; auto.
  - intros k' Hk'. apply lookup_insert_ne. intros ->. contradiction.
  - intros k' Hs. destruct (decide (k = k')) as [->|Hne].
    + rewrite lookup_insert_eq. eauto.
    + rewrite lookup_insert_ne by exact Hne. exact Hs.
  - exists []. symmetry. apply app_nil_r.
Qed.

Section SpecRules.

Context {G T : string -> Prop} {E : exn -> Prop}.

Lemma spec_ret {A : Type} (a : A) : io_spec G T E (io_ret a).
Proof. intros st. split; [apply frame_refl | discriminate]. Qed.

Lemma spec_raise {A : Type} (e : exn) : E e -> io_spec G T E (@io_raise A e).
Proof.
  intros He st. split; [apply frame_refl|].
  simpl. intros e' [= <-]. exact He.
Qed.

Lemma spec_lift {A : Type} (m : outcome A) :
  raises_only E m -> io_spec G T E (io_lift m).
Proof. intros Hm st. split; [apply frame_refl | exact (Hm)]. Qed.

Lemma spec_bind {A B : Type} (m : io A) (k : A -> io B) :
  io_spec G T E m -> (forall a, io_spec G T E (k a)) -> io_spec G T E (io_bind m k).
Proof.
  intros Hm Hk st. unfold io_bind.
  destruct (Hm st) as [F1 E1].
  destruct (m st) as [[a|e] st1]; simpl in *.
  - destruct (Hk a st1) as [F2 E2].
    split; [eapply frame_trans; eauto | exact E2].
  - split; [exact F1|]. intros e' [= <-]. apply E1. reflexivity.
Qed.

Lemma spec_or_else {A : Type} (m1 m2 : io (option A)) :
  io_spec G T E m1 -> io_spec G T E m2 -> io_spec G T E (or_else m1 m2).
Proof.
  intros H1 H2. unfold or_else. apply spec_bind; [exact H1|].
  intros [a|]; [apply spec_ret | exact H2].
Qed.

Lemma spec_put_geo (k : string) (v : float * float * pyval) :
  G k -> io_spec G T E (put_geo k v).
Proof.
  intros Hk st. split; [apply frame_put_geo; exact Hk | discriminate].
Qed.

Lemma spec_put_tz (k : string) (v : pyval * pyval) :
  T k -> io_spec G T E (put_tz k v).
Proof.
  intros Hk st. split; [apply frame_put_tz; exact Hk | discriminate].
Qed.

End SpecRules.

Lemma spec_weaken {A : Type} (G T : string -> Prop) (E E' : exn -> Prop) (m : io A) :
  (forall e, E e -> E' e) -> io_spec G T E m -> io_spec G T E' m.
Proof.
  intros HE Hm st. destruct (Hm st) as [F1 E1]. split; auto.
Qed.

Lemma spec_widen {A : Type} (G T G' T' : string -> Prop) (E : exn -> Prop) (m : io A) :
  (forall k, G k -> G' k) -> (forall k, T k -> T' k) ->
  io_spec G T E m -> io_spec G' T' E m.
Proof.
  intros HG HT Hm st. destruct (Hm st) as [F1 E1].
  split; [eapply frame_weaken; eauto | exact E1].
Qed.

(** A guarded step lets no [HTTPError] out and adds no exception. *)
Lemma spec_except_http {A : Type} (G T : string -> Prop) (m : io (option A)) :
  io_spec G T not_http_exception m -> io_spec G T pure_error (except_http m).
Proof.
  intros Hm st. destruct (Hm st) as [F1 E1]. unfold except_http.
  destruct (m st) as [[r|e] st1]; simpl in *.
  - split; [exact F1 | discriminate].
  - specialize (E1 e eq_refl).
    destruct e; simpl in *; (split; [exact F1|]); intros e' [= <-]; simpl; auto.
Qed.

Lemma pure_error_not_http_exception (e : exn) : pure_error e -> not_http_exception e.
Proof. destruct e; simpl; auto. Qed.

(** *** Exceptions of the value operations *)

Lemma raises_bind {A B : Type} (E : exn -> Prop) (m : outcome A) (k : A -> outcome B) :
  raises_only E m -> (forall a, raises_only E (k a)) -> raises_only E (bind m k).
Proof.
  intros Hm Hk e. destruct m as [a|e']; simpl.
  - apply Hk.
  - intros [= <-]. apply Hm. reflexivity.
Qed.

Lemma raises_return {A : Type} (E : exn -> Prop) (a : A) : raises_only E (Return a).
Proof. intros e. discriminate. Qed.

Ltac raises_atom :=
  let e := fresh "e" in
  let H := fresh "H" in
  intros e H;
  repeat match type of H with
         | context [match ?x with _ => _ end] => destruct x
         end;
  try discriminate H;
  injection H as <-; exact I.

Lemma raises_py_get (v : pyval) (k : string) : raises_only pure_error (py_get v k).
Proof. unfold py_get. raises_atom. Qed.

Lemma raises_py_item (v : pyval) (k : string) : raises_only pure_error (py_item v k).
Proof. unfold py_item. raises_atom. Qed.

Lemma raises_py_first (v : pyval) : raises_only pure_error (py_first v).
Proof. unfold py_first. raises_atom. Qed.

Lemma raises_json_body (b : option pyval) : raises_only pure_error (json_body b).
Proof. unfold json_body. raises_atom. Qed.

Lemma raises_float_of_int (n : Z) : raises_only pure_error (float_of_int n).
Proof. unfold float_of_int. raises_atom. Qed.

Lemma raises_int_of_float (x : float) : raises_only pure_error (int_of_float x).
Proof. unfold int_of_float. raises_atom. Qed.

Lemma raises_py_float (float_of_str : string -> option float) (v : pyval) :
  raises_only pure_error (py_float float_of_str v).
Proof.
  destruct v; simpl; try (intros e [= <-]; exact I); try apply raises_return.
  - apply raises_float_of_int.
  - destruct (float_of_str s); [apply raises_return | intros e [= <-]; exact I].
Qed.

Lemma raises_py_int (int_of_str : string -> option Z) (v : pyval) :
  raises_only pure_error (py_int int_of_str v).
Proof.
  destruct v; simpl; try (intros e [= <-]; exact I); try apply raises_return.
  - apply raises_int_of_float.
  - destruct (int_of_str s); [apply raises_return | intros e [= <-]; exact I].
Qed.

Lemma raises_weaken {A : Type} (E E' : exn -> Prop) (m : outcome A) :
  (forall e, E e -> E' e) -> raises_only E m -> raises_only E' m.
Proof. intros HE Hm e He. apply HE, Hm, He. Qed.

Ltac raises_go :=
  repeat first
    [ apply raises_return
    | apply raises_bind; [|intros ?]
    | apply raises_py_get
    | apply raises_py_item
    | apply raises_py_first
    | apply raises_json_body
    | apply raises_py_float
    | apply raises_py_int
    | match goal with
      | |- raises_only _ (if ?b then _ else _) => destruct b
      | |- raises_only _ (match ?x with _ => _ end) => destruct x
      end ].

Lemma raises_geo_of_item (float_of_str : string -> option float) (item : pyval)
  (lat_k lon_k name_k : string) :
  raises_only pure_error (geo_of_item float_of_str item lat_k lon_k name_k).
Proof. unfold geo_of_item. raises_go. Qed.

Lemma raises_offset_of (int_of_str : string -> option Z) (v : pyval) :
  raises_only pure_error (offset_of int_of_str v).
Proof. unfold offset_of. raises_go. Qed.

Lemma raises_nested_seconds (data : pyval) (outer : string) :
  raises_only pure_error (nested_seconds data outer).
Proof.
  unfold nested_seconds. destruct data; try (intros e [= <-]; exact I).
  destruct (assoc outer fields); raises_go.
Qed.

Ltac lift_pure :=
  apply spec_lift;
  eapply raises_weaken; [apply pure_error_not_http_exception|];
  first [ apply raises_geo_of_item | apply raises_offset_of
        | apply raises_nested_seconds | raises_go ].

Ltac spec_go :=
  repeat first
    [ apply spec_ret
    | apply spec_bind; [|intros ?]
    | lift_pure
    | match goal with
      | |- io_spec _ _ _ (if ?b then _ else _) => destruct b
      | |- io_spec _ _ _ (match ?x with _ => _ end) => destruct x
      end ].

Section ResolverSpecs.

Variable float_of_str : string -> option float.
Variable int_of_str : string -> option Z.
Variable zone_offset_now : pyval -> option Z.
Variable locationiq_key : option string.
Variable net : network.
Variables G T : string -> Prop.

Lemma spec_http_get (rq : request) : io_spec G T not_http_exception (http_get net rq).
Proof.
  intros st. unfold http_get.
  destruct (net (length (calls st)) rq); simpl;
    (split; [apply frame_log_call|]); [intros e [= <-]; exact I | discriminate].
Qed.

Lemma spec_get_json (rq : request) : io_spec G T not_http_exception (get_json net rq).
Proof.
  unfold get_json. apply spec_bind; [apply spec_http_get|].
  intros [status body]. simpl.
  destruct (status_ok status); [lift_pure | apply spec_raise; exact I].
Qed.

Lemma spec_remember_geo (location : string) (out : geo_result) :
  G location -> io_spec G T not_http_exception (remember_geo location out).
Proof. intros H. unfold remember_geo. apply spec_put_geo. exact H. Qed.

Lemma spec_search_array (rq : request) (location : string) :
  G location ->
  io_spec G T not_http_exception (search_array float_of_str net rq location).
Proof.
  intros H. unfold search_array.
  apply spec_bind; [apply spec_get_json|]. intros arr.
  destruct (truthy arr); [|apply spec_ret].
  apply spec_bind; [lift_pure|]. intros item.
  apply spec_bind; [lift_pure|]. intros out.
  apply spec_bind; [apply spec_remember_geo; exact H|]. intros _.
  apply spec_ret.
Qed.

Lemma spec_search_open_meteo (location : string) :
  G location ->
  io_spec G T not_http_exception (search_open_meteo float_of_str net location).
Proof.
  intros H. unfold search_open_meteo.
  apply spec_bind; [apply spec_get_json|]. intros data.
  destruct (truthy data); [|apply spec_ret].
  apply spec_bind; [lift_pure|]. intros results.
  destruct (truthy results); [|apply spec_ret].
  apply spec_bind; [lift_pure|]. intros item.
  apply spec_bind; [lift_pure|]. intros out.
  apply spec_bind; [lift_pure|]. intros tz.
  apply spec_bind; [apply spec_remember_geo; exact H|]. intros _.
  apply spec_ret.
Qed.

Lemma spec_geo_cache_lookup (location : string) :
  io_spec G T pure_error (geo_cache_lookup location).
Proof.
  intros st. unfold geo_cache_lookup.
  destruct (GEO_CACHE st !! location) as [[[lat lon] name]|]; simpl;
    (split; [apply frame_refl | discriminate]).
Qed.

Lemma spec_geocode_location (location : string) :
  G location ->
  io_spec G T pure_error (geocode_location float_of_str locationiq_key net location).
Proof.
  intros H. unfold geocode_location, geocode_unkeyed.
  apply spec_or_else.
  - destruct (configured_key locationiq_key).
    + apply spec_except_http, spec_search_array, H.
    + apply spec_ret.
  - apply spec_or_else; [apply spec_geo_cache_lookup|].
    apply spec_or_else.
    + apply spec_except_http, spec_search_array, H.
    + apply spec_except_http, spec_search_open_meteo, H.
Qed.

Lemma spec_remember_tz (key : string) (tz off : pyval) :
  T key -> io_spec G T not_http_exception (remember_tz key tz off).
Proof.
  intros H. unfold remember_tz.
  apply spec_bind; [apply spec_put_tz; exact H|]. intros _. apply spec_ret.
Qed.

Lemma spec_tz_cache_lookup (key : string) : io_spec G T pure_error (tz_cache_lookup key).
Proof.
  intros st. unfold tz_cache_lookup.
  destruct (TZ_CACHE st !! key) as [[tzid off]|]; simpl;
    (split; [apply frame_refl | discriminate]).
Qed.

Lemma spec_tz_locationiq (k key : string) (lat lon : float) :
  T key -> io_spec G T not_http_exception (tz_locationiq int_of_str net k key lat lon).
Proof.
  intros H. unfold tz_locationiq.
  apply spec_bind; [apply spec_get_json|]. intros data.
  apply spec_bind; [lift_pure|]. intros a.
  apply spec_bind; [lift_pure|]. intros b.
  apply spec_bind; [lift_pure|]. intros c.
  apply spec_bind; [lift_pure|]. intros tz.
  apply spec_bind; [lift_pure|]. intros u.
  apply spec_bind; [lift_pure|]. intros o.
  apply spec_bind.
  - apply spec_lift. eapply raises_weaken; [apply pure_error_not_http_exception|].
    destruct (is_none (py_or u o)); [|apply raises_return].
    apply raises_bind; [apply raises_py_get|]. intros g.
    apply raises_bind; [apply raises_py_get|]. intros r.
    destruct (is_number (py_or g r)); [apply raises_offset_of | apply raises_return].
  - intros off.
    destruct (truthy tz && truthy off); [apply spec_remember_tz, H | apply spec_ret].
Qed.

Lemma spec_tz_timeapi (key : string) (lat lon : float) :
  T key -> io_spec G T not_http_exception (tz_timeapi int_of_str net key lat lon).
Proof.
  intros H. unfold tz_timeapi.
  apply spec_bind; [apply spec_get_json|]. intros data.
  apply spec_bind; [lift_pure|]. intros tz.
  apply spec_bind; [lift_pure|]. intros std.
  destruct (truthy tz && negb (is_none std)).
  - apply spec_bind; [lift_pure|]. intros off. apply spec_remember_tz, H.
  - apply spec_bind; [lift_pure|]. intros cur.
    destruct (truthy tz && negb (is_none cur)); [|apply spec_ret].
    apply spec_bind; [lift_pure|]. intros off. apply spec_remember_tz, H.
Qed.

Lemma spec_tz_open_meteo (key : string) (lat lon : float) :
  T key -> io_spec G T not_http_exception (tz_open_meteo int_of_str net key lat lon).
Proof.
  intros H. unfold tz_open_meteo.
  apply spec_bind; [apply spec_get_json|]. intros data.
  apply spec_bind; [lift_pure|]. intros tz.
  apply spec_bind; [lift_pure|]. intros sec.
  destruct (truthy tz && negb (is_none sec)); [|apply spec_ret].
  apply spec_bind; [lift_pure|]. intros off. apply spec_remember_tz, H.
Qed.

Lemma spec_tz_reverse (key : string) (lat lon : float) :
  T key -> io_spec G T not_http_exception (tz_reverse zone_offset_now net key lat lon).
Proof.
  intros H. unfold tz_reverse.
  apply spec_bind; [apply spec_http_get|]. intros [status body]. simpl.
  destruct (status =? 200); [|apply spec_ret].
  apply spec_bind; [lift_pure|]. intros data.
  destruct (truthy data); [|apply spec_ret].
  apply spec_bind; [lift_pure|]. intros results.
  destruct (truthy results); [|apply spec_ret].
  apply spec_bind; [lift_pure|]. intros item.
  apply spec_bind; [lift_pure|]. intros tz.
  destruct (truthy tz); [apply spec_remember_tz, H | apply spec_ret].
Qed.

Lemma spec_tz_india_box (key : string) (lat lon : float) :
  T key -> io_spec G T pure_error (tz_india_box key lat lon).
Proof.
  intros H. unfold tz_india_box.
  destruct (in_india_box lat lon); [|apply spec_ret].
  unfold remember_tz.
  apply spec_bind; [apply spec_put_tz; exact H|]. intros _. apply spec_ret.
Qed.

Lemma spec_timezone_for_coords (lat lon : float) :
  T (coord_key lat lon) ->
  io_spec G T pure_error
    (timezone_for_coords int_of_str zone_offset_now locationiq_key net lat lon).
Proof.
  intros H. unfold timezone_for_coords.
  apply spec_or_else; [apply spec_tz_cache_lookup|].
  apply spec_or_else.
  { destruct (configured_key locationiq_key).
    - apply spec_except_http, spec_tz_locationiq, H.
    - apply spec_ret. }
  apply spec_or_else; [apply spec_except_http, spec_tz_timeapi, H|].
  apply spec_or_else; [apply spec_except_http, spec_tz_open_meteo, H|].
  apply spec_or_else; [apply spec_except_http, spec_tz_reverse, H|].
  apply spec_tz_india_box, H.
Qed.

End ResolverSpecs.

(** *** Write-through *)

Lemma returns_bind {A B : Type} (Q : B -> state -> Prop) (m : io A) (k : A -> io B) :
  (forall a, returns Q (k a)) -> returns Q (io_bind m k).
Proof.
  intros Hk st b st'. unfold io_bind.
  destruct (m st) as [[a|e] st1]; [apply Hk | discriminate].
Qed.

Lemma returns_ret_none {A : Type} (Q : option A -> state -> Prop) :
  (forall st, Q None st) -> returns Q (io_ret None).
Proof. intros H st a st' [= <- <-]. apply H. Qed.

Lemma returns_except_http {A : Type} (Q : option A -> state -> Prop) (m : io (option A)) :
  (forall st, Q None st) -> returns Q m -> returns Q (except_http m).
Proof.
  intros HN Hm st a st'. unfold except_http.
  destruct (m st) as [[r|e] st1] eqn:E.
  - intros [= <- <-]. eapply Hm. exact E.
  - destruct e; try discriminate. intros [= <- <-]. apply HN.
Qed.

Lemma returns_or_else {A : Type} (Q : option A -> state -> Prop) (m1 m2 : io (option A)) :
  returns Q m1 -> returns Q m2 -> returns Q (or_else m1 m2).
Proof.
  intros H1 H2 st a st'. unfold or_else, io_bind, io_ret.
  destruct (m1 st) as [[[x|]|e] st1] eqn:E; [| |discriminate].
  - intros [= <- <-]. eapply H1. exact E.
  - apply H2.
Qed.

Section WriteThrough.

Variable float_of_str : string -> option float.
Variable int_of_str : string -> option Z.
Variable zone_offset_now : pyval -> option Z.
Variable locationiq_key : option string.
Variable net : network.

Lemma returns_remember_geo (location : string) (out : geo_result) :
  returns (geo_cached location)
    (io_bind (remember_geo location out) (fun _ => io_ret (Some out))).
Proof.
  intros st a st'. unfold io_bind, remember_geo, put_geo, io_ret.
  intros [= <- <-]. simpl.
  exists (py_or (display_name out) (PStr location)).
  split; [apply lookup_insert_eq | right; reflexivity].
Qed.

Lemma returns_search_array (rq : request) (location : string) :
  returns (geo_cached location) (search_array float_of_str net rq location).
Proof.
  unfold search_array. apply returns_bind. intros arr.
  destruct (truthy arr); [|apply returns_ret_none; intros; exact I].
  apply returns_bind. intros item. apply returns_bind. intros out.
  apply returns_remember_geo.
Qed.

Lemma returns_search_open_meteo (location : string) :
  returns (geo_cached location) (search_open_meteo float_of_str net location).
Proof.
  unfold search_open_meteo. apply returns_bind. intros data.
  destruct (truthy data); [|apply returns_ret_none; intros; exact I].
  apply returns_bind. intros results.
  destruct (truthy results); [|apply returns_ret_none; intros; exact I].
  apply returns_bind. intros item. apply returns_bind. intros out.
  apply returns_bind. intros tz.
  destruct (truthy tz); apply returns_remember_geo.
Qed.

Lemma returns_geo_cache_lookup (location : string) :
  returns (geo_cached location) (geo_cache_lookup location).
Proof.
  intros st a st'. unfold geo_cache_lookup.
  destruct (GEO_CACHE st !! location) as [[[lat lon] name]|] eqn:E;
    intros [= <- <-]; [|exact I].
  exists name. split; [exact E | left; reflexivity].
Qed.

Lemma returns_geocode_location (location : string) :
  returns (geo_cached location)
    (geocode_location float_of_str locationiq_key net location).
Proof.
  unfold geocode_location, geocode_unkeyed.
  apply returns_or_else.
  - destruct (configured_key locationiq_key).
    + apply returns_except_http; [intros; exact I | apply returns_search_array].
    + apply returns_ret_none. intros; exact I.
  - apply returns_or_else; [apply returns_geo_cache_lookup|].
    apply returns_or_else;
      (apply returns_except_http; [intros; exact I|]);
      [apply returns_search_array | apply returns_search_open_meteo].
Qed.

Lemma returns_remember_tz (key : string) (tz off : pyval) :
  returns (tz_cached key) (remember_tz key tz off).
Proof.
  intros st a st'. unfold remember_tz, io_bind, put_tz, io_ret.
  intros [= <- <-]. simpl. apply lookup_insert_eq.
Qed.

Lemma returns_tz_cache_lookup (key : string) :
  returns (tz_cached key) (tz_cache_lookup key).
Proof.
  intros st a st'. unfold tz_cache_lookup.
  destruct (TZ_CACHE st !! key) as [[tzid off]|] eqn:E;
    intros [= <- <-]; [exact E | exact I].
Qed.

Lemma returns_true_none (key : string) : forall st : state, tz_cached key None st.
Proof. intros st. exact I. Qed.

Lemma returns_timezone_for_coords (lat lon : float) :
  returns (tz_cached (coord_key lat lon))
    (timezone_for_coords int_of_str zone_offset_now locationiq_key net lat lon).
Proof.
  pose proof (returns_true_none (coord_key lat lon)) as HN.
  unfold timezone_for_coords.
  apply returns_or_else; [apply returns_tz_cache_lookup|].
  apply returns_or_else.
  { destruct (configured_key locationiq_key); [|apply returns_ret_none, HN].
    apply returns_except_http; [exact HN|].
    unfold tz_locationiq. do 8 (apply returns_bind; intros ?).
    destruct (_ && _); [apply returns_remember_tz | apply returns_ret_none, HN]. }
  apply returns_or_else.
  { apply returns_except_http; [exact HN|].
    unfold tz_timeapi. do 3 (apply returns_bind; intros ?).
    destruct (_ && _).
    - apply returns_bind; intros ?. apply returns_remember_tz.
    - apply returns_bind; intros ?.
      destruct (_ && _); [|apply returns_ret_none, HN].
      apply returns_bind; intros ?. apply returns_remember_tz. }
  apply returns_or_else.
  { apply returns_except_http; [exact HN|].
    unfold tz_open_meteo. do 3 (apply returns_bind; intros ?).
    destruct (_ && _); [|apply returns_ret_none, HN].
    apply returns_bind; intros ?. apply returns_remember_tz. }
  apply returns_or_else.
  { apply returns_except_http; [exact HN|].
    unfold tz_reverse. apply returns_bind; intros ?.
    destruct (_ =? _); [|apply returns_ret_none, HN].
    apply returns_bind; intros ?.
    destruct (truthy _); [|apply returns_ret_none, HN].
    apply returns_bind; intros ?.
    destruct (truthy _); [|apply returns_ret_none, HN].
    do 2 (apply returns_bind; intros ?).
    destruct (truthy _); [apply returns_remember_tz | apply returns_ret_none, HN]. }
  unfold tz_india_box.
  destruct (in_india_box lat lon); [apply returns_remember_tz | apply returns_ret_none, HN].
Qed.

End WriteThrough.

(** [geocode_location] writes the geocoding cache at its own query only,
    never the timezone cache; no cache entry disappears; the call log is
    extended at its end; and whatever it raises is a runtime error of
    Python, neither an [httpx.HTTPError] nor an [HTTPException]. *)
Theorem geocode_location_frame
  (float_of_str : string -> option float) (locationiq_key : option string)
  (net : network) (location : string) (st : state) :
  let r := geocode_location float_of_str locationiq_key net location st in
  TZ_CACHE (snd r) = TZ_CACHE st
  /\ (forall k, k <> location -> GEO_CACHE (snd r) !! k = GEO_CACHE st !! k)
  /\ (forall k, is_Some (GEO_CACHE st !! k) -> is_Some (GEO_CACHE (snd r) !! k))
  /\ (exists l, calls (snd r) = (calls st ++ l)%list)
  /\ (forall e, fst r = Raise e -> pure_error e).
Proof.
  intros r.
  destruct (spec_geocode_location float_of_str locationiq_key net
              (fun k => k = location) no_key location eq_refl st)
    as [(HG & HT & SG & _ & HC) HE].
  fold r in HG, HT, SG, HC, HE.
  repeat split; auto.
  apply map_eq. intros k. apply HT. intros [].
Qed.

(** [timezone_for_coords] writes the timezone cache at the key of its
    coordinates only, never the geocoding cache; no cache entry
    disappears; the call log is extended at its end; and whatever it
    raises is a runtime error of Python, neither an [httpx.HTTPError] nor
    an [HTTPException]. *)
Theorem timezone_for_coords_frame
  (int_of_str : string -> option Z) (zone_offset_now : pyval -> option Z)
  (locationiq_key : option string) (net : network) (lat lon : float) (st : state) :
  let r := timezone_for_coords int_of_str zone_offset_now locationiq_key net lat lon st in
  GEO_CACHE (snd r) = GEO_CACHE st
  /\ (forall k, k <> coord_key lat lon -> TZ_CACHE (snd r) !! k = TZ_CACHE st !! k)
  /\ (forall k, is_Some (TZ_CACHE st !! k) -> is_Some (TZ_CACHE (snd r) !! k))
  /\ (exists l, calls (snd r) = (calls st ++ l)%list)
  /\ (forall e, fst r = Raise e -> pure_error e).
Proof.
  intros r.
  destruct (spec_timezone_for_coords int_of_str zone_offset_now locationiq_key net
              no_key (fun k => k = coord_key lat lon) lat lon eq_refl st)
    as [(HG & HT & _ & ST & HC) HE].
  fold r in HG, HT, ST, HC, HE.
  repeat split; auto.
  apply map_eq. intros k. apply HG. intros [].
Qed.

(** A cached query answered without the keyed provider. *)
Lemma geocode_served_from_cache (float_of_str : string -> option float)
  (locationiq_key : option string) (net : network) (location : string)
  (lat lon : float) (name : pyval) (st : state) :
  configured_key locationiq_key = None ->
  GEO_CACHE st !! location = Some (lat, lon, name) ->
  geocode_location float_of_str locationiq_key net location st
  = (Return (Some (mk_geo lat lon name None)), st).
Proof.
  intros Hkey Hhit. unfold geocode_location. rewrite Hkey.
  rewrite (or_else_none _ _ st st) by reflexivity.
  apply or_else_some. unfold geo_cache_lookup. rewrite Hhit. reflexivity.
Qed.

(** Every result [geocode_location] returns is in the cache when it
    returns, under the query, with the query standing in for a missing
    display name.  Hence a repeat of the query in a process without keyed
    provider is served from the cache, with no further call, whatever the
    network does: same coordinates, the cached name, and no timezone
    hint. *)
Theorem geocode_repeat_served_from_cache
  (float_of_str : string -> option float) (locationiq_key : option string)
  (net : network) (location : string) (st st' : state) (out : geo_result) :
  geocode_location float_of_str locationiq_key net location st
    = (Return (Some out), st') ->
  exists n,
    (n = display_name out \/ n = py_or (display_name out) (PStr location))
    /\ GEO_CACHE st' !! location = Some (latitude out, longitude out, n)
    /\ forall (float_of_str' : string -> option float) (key' : option string)
              (net' : network),
         configured_key key' = None ->
         geocode_location float_of_str' key' net' location st'
         = (Return (Some (mk_geo (latitude out) (longitude out) n None)), st').
Proof.
  intros H.
  destruct (returns_geocode_location float_of_str locationiq_key net location
              st (Some out) st' H) as (n & Hn & Hor).
  exists n. split; [exact Hor|]. split; [exact Hn|].
  intros float_of_str' key' net' Hkey.
  apply geocode_served_from_cache; assumption.
Qed.

Lemma geocode_repeat_served_from_cache_witness :
  geocode_location PyNum.float_of_string None network_atlantis "Atlantis" fresh_state
    = (Return (Some (mk_geo 0%float (-30)%float (PStr "Atlantis") None)),
       atlantis_geocoded)
  /\ exists n,
       (n = PStr "Atlantis" \/ n = py_or (PStr "Atlantis") (PStr "Atlantis"))
       /\ GEO_CACHE atlantis_geocoded !! "Atlantis" = Some (0%float, (-30)%float, n)
       /\ forall (float_of_str' : string -> option float) (key' : option string)
                 (net' : network),
            configured_key key' = None ->
            geocode_location float_of_str' key' net' "Atlantis" atlantis_geocoded
            = (Return (Some (mk_geo 0%float (-30)%float n None)), atlantis_geocoded).
Proof.
  assert (H : geocode_location PyNum.float_of_string None network_atlantis
                "Atlantis" fresh_state
              = (Return (Some (mk_geo 0%float (-30)%float (PStr "Atlantis") None)),
                 atlantis_geocoded)) by reflexivity.
  split; [exact H|].
  exact (geocode_repeat_served_from_cache PyNum.float_of_string None network_atlantis
           "Atlantis" fresh_state atlantis_geocoded
           (mk_geo 0%float (-30)%float (PStr "Atlantis") None) H).
Defined.

(** Every result [timezone_for_coords] returns is in the cache when it
    returns.  Hence a repeat for the same coordinates returns the same
    result and leaves the state as it is, with no call, whatever the key
    configuration and the network. *)
Theorem timezone_repeat_is_stable
  (int_of_str : string -> option Z) (zone_offset_now : pyval -> option Z)
  (locationiq_key : option string) (net : network) (lat lon : float)
  (st st' : state) (r : tz_result) :
  timezone_for_coords int_of_str zone_offset_now locationiq_key net lat lon st
    = (Return (Some r), st') ->
  TZ_CACHE st' !! coord_key lat lon = Some (timeZone r, offset r)
  /\ forall (int_of_str' : string -> option Z) (zone_offset_now' : pyval -> option Z)
            (key' : option string) (net' : network),
       timezone_for_coords int_of_str' zone_offset_now' key' net' lat lon st'
       = (Return (Some r), st').
Proof.
  intros H.
  pose proof (returns_timezone_for_coords int_of_str zone_offset_now locationiq_key
                net lat lon st (Some r) st' H) as Hc.
  simpl in Hc. split; [exact Hc|].
  intros int_of_str' zone_offset_now' key' net'.
  unfold timezone_for_coords. apply or_else_some.
  unfold tz_cache_lookup. rewrite Hc. destruct r. reflexivity.
Qed.

Lemma timezone_repeat_is_stable_witness :
  timezone_for_coords PyNum.int_of_string fixed_zone_offset None network_down
    28.6139%float 77.2090%float fresh_state
    = (Return (Some (mk_tz (PStr "Asia/Kolkata") (PStr "+05:30"))), delhi_resolved)
  /\ TZ_CACHE delhi_resolved !! coord_key 28.6139%float 77.2090%float
     = Some (PStr "Asia/Kolkata", PStr "+05:30")
  /\ forall (int_of_str' : string -> option Z) (zone_offset_now' : pyval -> option Z)
            (key' : option string) (net' : network),
       timezone_for_coords int_of_str' zone_offset_now' key' net'
         28.6139%float 77.2090%float delhi_resolved
       = (Return (Some (mk_tz (PStr "Asia/Kolkata") (PStr "+05:30"))), delhi_resolved).
Proof.
  assert (H : timezone_for_coords PyNum.int_of_string fixed_zone_offset None
                network_down 28.6139%float 77.2090%float fresh_state
              = (Return (Some (mk_tz (PStr "Asia/Kolkata") (PStr "+05:30"))),
                 delhi_resolved)) by reflexivity.
  split; [exact H|].
  exact (timezone_repeat_is_stable PyNum.int_of_string fixed_zone_offset None
           network_down 28.6139%float 77.2090%float fresh_state delhi_resolved
           (mk_tz (PStr "Asia/Kolkata") (PStr "+05:30")) H).
Defined.

(** *** Exhaustion of the chains *)

(** With every provider failing and the query not cached,
    [geocode_location] reports absence without raising: it has tried the
    keyed provider (when a key is configured), then Nominatim, then
    Open-Meteo, once each and in this order, and has cached nothing. *)
Theorem geocode_not_found_when_down
  (float_of_str : string -> option float) (locationiq_key : option string)
  (net : network) (location : string) (st : state) :
  providers_down net ->
  GEO_CACHE st !! location = None ->
  geocode_location float_of_str locationiq_key net location st
  = (Return None,
     mk_state (GEO_CACHE st) (TZ_CACHE st)
       (calls st
        ++ match configured_key locationiq_key with
           | Some k => [LocationIQSearch k location]
           | None => []
           end
        ++ [NominatimSearch location; OpenMeteoSearch location])%list).
Proof.
  intros Hdown Hmiss.
  unfold geocode_location.
  set (st0 := match configured_key locationiq_key with
              | Some k => log_call st (LocationIQSearch k location)
              | None => st
              end).
  assert (H0 : or_else
                 (match configured_key locationiq_key with
                  | Some k => except_http
                                (search_array float_of_str net
                                   (LocationIQSearch k location) location)
                  | None => io_ret None
                  end)
                 (geocode_unkeyed float_of_str net location) st
               = geocode_unkeyed float_of_str net location st0).
  { apply or_else_none. subst st0.
    destruct (configured_key locationiq_key) as [k|]; [|reflexivity].
    unfold search_array. apply guarded_get_failure. apply Hdown. }
  rewrite H0. unfold geocode_unkeyed.
  assert (Hmiss0 : GEO_CACHE st0 !! location = None).
  { subst st0. destruct (configured_key locationiq_key); exact Hmiss. }
  rewrite (or_else_none _ _ st0 st0)
    by (unfold geo_cache_lookup; rewrite Hmiss0; reflexivity).
  rewrite (or_else_none _ _ st0 (log_call st0 (NominatimSearch location)))
    by (unfold search_array; apply guarded_get_failure; apply Hdown).
  unfold search_open_meteo. rewrite guarded_get_failure by apply Hdown.
  f_equal. subst st0.
  destruct (configured_key locationiq_key) as [k|]; unfold log_call; simpl;
    rewrite <- ?app_assoc; reflexivity.
Qed.

Lemma geocode_not_found_when_down_witness :
  providers_down network_unavailable
  /\ GEO_CACHE chennai_cached !! "Madurai" = None
  /\ geocode_location PyNum.float_of_string (Some "pk.test") network_unavailable
       "Madurai" chennai_cached
     = (Return None,
        mk_state (GEO_CACHE chennai_cached) (TZ_CACHE chennai_cached)
          (calls chennai_cached
           ++ match configured_key (Some "pk.test") with
              | Some k => [LocationIQSearch k "Madurai"]
              | None => []
              end
           ++ [NominatimSearch "Madurai"; OpenMeteoSearch "Madurai"])%list).
Proof.
  assert (Hdown : providers_down network_unavailable) by (intros n rq; reflexivity).
  assert (Hmiss : GEO_CACHE chennai_cached !! "Madurai" = None) by reflexivity.
  split; [exact Hdown|]. split; [exact Hmiss|].
  exact (geocode_not_found_when_down PyNum.float_of_string (Some "pk.test")
           network_unavailable "Madurai" chennai_cached Hdown Hmiss).
Defined.

(** Outside the India footprint, with every provider failing and the
    coordinates not cached, [timezone_for_coords] reports absence without
    raising and caches nothing. *)
Theorem timezone_not_found_outside_box
  (int_of_str : string -> option Z) (zone_offset_now : pyval -> option Z)
  (locationiq_key : option string) (net : network) (lat lon : float) (st : state) :
  providers_down net ->
  in_india_box lat lon = false ->
  TZ_CACHE st !! coord_key lat lon = None ->
  exists st',
    timezone_for_coords int_of_str zone_offset_now locationiq_key net lat lon st
    = (Return None, st')
    /\ GEO_CACHE st' = GEO_CACHE st /\ TZ_CACHE st' = TZ_CACHE st.
Proof.
  intros Hdown Hout Hmiss.
  destruct (timezone_down_reaches_box int_of_str zone_offset_now locationiq_key
              net Hdown lat lon st Hmiss) as (st1 & -> & G & T).
  exists st1. unfold tz_india_box. rewrite Hout. auto.
Qed.

Lemma timezone_not_found_outside_box_witness :
  providers_down network_down
  /\ in_india_box 0%float (-30)%float = false
  /\ TZ_CACHE punjab_cached !! coord_key 0%float (-30)%float = None
  /\ exists st',
       timezone_for_coords PyNum.int_of_string fixed_zone_offset None network_down
         0%float (-30)%float punjab_cached
       = (Return None, st')
       /\ GEO_CACHE st' = GEO_CACHE punjab_cached
       /\ TZ_CACHE st' = TZ_CACHE punjab_cached.
Proof.
  assert (Hdown : providers_down network_down) by (intros n rq; exact I).
  assert (Hmiss : TZ_CACHE punjab_cached !! coord_key 0%float (-30)%float = None)
    by reflexivity.
  split; [exact Hdown|]. split; [reflexivity|]. split; [exact Hmiss|].
  exact (timezone_not_found_outside_box PyNum.int_of_string fixed_zone_offset None
           network_down 0%float (-30)%float punjab_cached Hdown eq_refl Hmiss).
Defined.

(** ** The offset formatter, beyond its shape *)

(** The hour and minute fields are those of the whole minutes. *)
Lemma format_offset_by_minutes (s : Z) :
  format_offset s
  = (if 0 <=? s then "+" else "-")
      ++ zero_pad 2 ((Z.abs s / 60) / 60) ++ ":" ++ zero_pad 2 ((Z.abs s / 60) mod 60).
Proof.
  unfold format_offset.
  assert (H1 : Z.abs s / 3600 = Z.abs s / 60 / 60)
    by (Z.div_mod_to_equations; lia).
  assert (H2 : Z.abs s mod 3600 / 60 = (Z.abs s / 60) mod 60)
    by (Z.div_mod_to_equations; lia).
  rewrite H1, H2. reflexivity.
Qed.

(** Seconds beyond the whole minute are dropped, toward zero, and the
    sign is that of the input: a negative offset of less than a minute
    renders as [-00:00]. *)
Theorem format_offset_drops_seconds (s : Z) :
  (0 <= s -> format_offset s = format_offset (60 * (s / 60)))
  /\ (s <= -60 -> format_offset s = format_offset (- (60 * (- s / 60))))
  /\ (-60 < s < 0 -> format_offset s = "-00:00").
Proof.
  rewrite (format_offset_by_minutes s).
  split; [|split]; intros H.
  - rewrite (format_offset_by_minutes (60 * (s / 60))).
    assert (Hq : 0 <= s / 60) by (Z.div_mod_to_equations; lia).
    destruct (Z.leb_spec 0 s); [|lia].
    destruct (Z.leb_spec 0 (60 * (s / 60))); [|lia].
    replace (Z.abs (60 * (s / 60)) / 60) with (Z.abs s / 60); [reflexivity|].
    rewrite !Z.abs_eq by lia. Z.div_mod_to_equations; lia.
  - rewrite (format_offset_by_minutes (- (60 * (- s / 60)))).
    assert (Hq : 1 <= - s / 60) by (Z.div_mod_to_equations; lia).
    destruct (Z.leb_spec 0 s); [lia|].
    destruct (Z.leb_spec 0 (- (60 * (- s / 60)))); [lia|].
    replace (Z.abs (- (60 * (- s / 60))) / 60) with (Z.abs s / 60); [reflexivity|].
    rewrite Z.abs_opp, (Z.abs_eq (60 * (- s / 60))) by lia.
    rewrite (Z.abs_neq s) by lia. Z.div_mod_to_equations; lia.
  - destruct (Z.leb_spec 0 s); [lia|].
    replace (Z.abs s / 60) with 0; [reflexivity|].
    rewrite Z.abs_neq by lia. Z.div_mod_to_equations; lia.
Qed.

(** Every offset below one day reads back through the offset grammar of
    [fromisoformat] as the whole minutes it shows; every offset with 24 to
    99 hours is refused. *)
Lemma offset_read_back_table :
  forallb (fun h => forallb (fun m =>
      let q := Z.of_nat h * 60 + Z.of_nat m in
      let body := zero_pad 2 (q / 60) ++ ":" ++ zero_pad 2 (q mod 60) in
      match Iso.parse_offset ("+" ++ body), Iso.parse_offset ("-" ++ body) with
      | Some (Some a), Some (Some b) =>
          if (h <? 24)%nat then (a =? q * 60000000) && (b =? - (q * 60000000)) else false
      | None, None => negb (h <? 24)%nat
      | _, _ => false
      end) (seq 0 60)) (seq 0 100) = true.
Proof. vm_compute. reflexivity. Qed.

Lemma offset_read_back_entry (q : Z) :
  0 <= q < 6000 ->
  let body := zero_pad 2 (q / 60) ++ ":" ++ zero_pad 2 (q mod 60) in
  if q <? 1440
  then Iso.parse_offset ("+" ++ body) = Some (Some (q * 60000000))
       /\ Iso.parse_offset ("-" ++ body) = Some (Some (- (q * 60000000)))
  else Iso.parse_offset ("+" ++ body) = None /\ Iso.parse_offset ("-" ++ body) = None.
Proof.
  intros Hq body.
  pose proof offset_read_back_table as T.
  rewrite forallb_forall in T.
  assert (Hh : In (Z.to_nat (q / 60)) (seq 0 100))
    by (apply in_seq; Z.div_mod_to_equations; lia).
  specialize (T _ Hh). rewrite forallb_forall in T.
  assert (Hm : In (Z.to_nat (q mod 60)) (seq 0 60))
    by (apply in_seq; Z.div_mod_to_equations; lia).
  specialize (T _ Hm). cbv zeta in T.
  rewrite !Z2Nat.id in T by (Z.div_mod_to_equations; lia).
  replace (q / 60 * 60 + q mod 60) with q in T by (Z.div_mod_to_equations; lia).
  fold body in T.
  destruct (Nat.ltb_spec (Z.to_nat (q / 60)) 24) as [L|L].
  - assert (Hlt : (q <? 1440) = true)
      by (apply Z.ltb_lt; Z.div_mod_to_equations; lia).
    rewrite Hlt.
    destruct (Iso.parse_offset ("+" ++ body)) as [[a|]|];
      destruct (Iso.parse_offset ("-" ++ body)) as [[b|]|]; try discriminate.
    apply andb_prop in T as [Ta Tb].
    apply Z.eqb_eq in Ta, Tb. subst. auto.
  - assert (Hge : (q <? 1440) = false)
      by (apply Z.ltb_ge; Z.div_mod_to_equations; lia).
    rewrite Hge.
    destruct (Iso.parse_offset ("+" ++ body)) as [[a|]|];
      destruct (Iso.parse_offset ("-" ++ body)) as [[b|]|]; try discriminate.
    auto.
Qed.

(** The string [format_offset] renders is read back by the offset grammar
    of [datetime.fromisoformat] as the whole minutes of the input, its
    sign kept, when the input is below one day; from one day up to one
    hundred hours it is refused. *)
Theorem format_offset_read_back (s : Z) :
  (Z.abs s < 86400 ->
   Iso.parse_offset (format_offset s)
   = Some (Some ((if 0 <=? s then 1 else -1) * (Z.abs s / 60 * 60000000))))
  /\ (86400 <= Z.abs s < 360000 -> Iso.parse_offset (format_offset s) = None).
Proof.
  rewrite (format_offset_by_minutes s).
  assert (Hq : Z.abs s < 360000 -> 0 <= Z.abs s / 60 < 6000)
    by (intros; Z.div_mod_to_equations; lia).
  split; intros H.
  - pose proof (offset_read_back_entry (Z.abs s / 60) (Hq ltac:(lia))) as T.
    cbv zeta in T.
    assert (Hlt : (Z.abs s / 60 <? 1440) = true)
      by (apply Z.ltb_lt; Z.div_mod_to_equations; lia).
    rewrite Hlt in T. destruct T as [Tp Tm].
    destruct (0 <=? s).
    + rewrite Tp. do 2 f_equal; lia.
    + rewrite Tm. do 2 f_equal; lia.
  - pose proof (offset_read_back_entry (Z.abs s / 60) (Hq ltac:(lia))) as T.
    cbv zeta in T.
    assert (Hge : (Z.abs s / 60 <? 1440) = false)
      by (apply Z.ltb_ge; Z.div_mod_to_equations; lia).
    rewrite Hge in T. destruct T as [Tp Tm].
    destruct (0 <=? s); assumption.
Qed.

Lemma format_offset_drops_seconds_witness :
  -60 < -59 < 0 /\ format_offset (-59) = "-00:00".
Proof.
  split; [lia|].
  apply (proj2 (proj2 (format_offset_drops_seconds (-59)))). lia.
Defined.

Lemma format_offset_read_back_witness :
  Z.abs (-18000) < 86400
  /\ Iso.parse_offset (format_offset (-18000))
     = Some (Some ((if 0 <=? -18000 then 1 else -1) * (Z.abs (-18000) / 60 * 60000000))).
Proof.
  split; [lia|].
  apply (proj1 (format_offset_read_back (-18000))). lia.
Defined.

(** ** Resolution of a birth record in [compute] *)

Section ResolutionSpecs.

Variable float_of_str : string -> option float.
Variable int_of_str : string -> option Z.
Variable zone_offset_now : pyval -> option Z.
Variable zoneinfo_available : bool.
Variable fromisoformat : string -> option datetime.
Variable zone_offset_at : pyval -> Z -> option Z.
Variable locationiq_key : option string.
Variable net : network.

Let inner_error (e : exn) : Prop := pure_error e \/ bad_request e.

Lemma spec_autocomplete_coords (b : BirthInput) :
  io_spec any_key any_key inner_error
    (autocomplete_coords float_of_str zoneinfo_available fromisoformat zone_offset_at
       locationiq_key net b).
Proof.
  unfold autocomplete_coords.
  destruct (needs_geocoding b) as [location|]; [|apply spec_ret].
  apply spec_bind.
  - apply (spec_weaken _ _ pure_error); [intros e He; left; exact He|].
    apply spec_geocode_location. exact I.
  - intros [geo|].
    + destruct (_ && _); [|apply spec_ret].
      destruct (offset_from_tzid _ _ _ _ _ _); apply spec_ret.
    + apply spec_raise. right. eexists. reflexivity.
Qed.

Lemma spec_derive_timezone (b : BirthInput) :
  io_spec any_key any_key inner_error
    (derive_timezone int_of_str zone_offset_now locationiq_key net b).
Proof.
  unfold derive_timezone.
  destruct (b_latitude b) as [lat|], (b_longitude b) as [lon|]; try apply spec_ret.
  destruct (negb _); [|apply spec_ret].
  apply spec_bind.
  - apply (spec_weaken _ _ pure_error); [intros e He; left; exact He|].
    apply spec_timezone_for_coords. exact I.
  - intros [tz|]; apply spec_ret.
Qed.

Lemma spec_resolve_birth (b : BirthInput) :
  io_spec any_key any_key bad_request
    (resolve_birth float_of_str int_of_str zone_offset_now zoneinfo_available
       fromisoformat zone_offset_at locationiq_key net b).
Proof.
  unfold resolve_birth.
  assert (Inner : io_spec any_key any_key inner_error
            (io_bind
               (resolution_steps float_of_str int_of_str zone_offset_now
                  zoneinfo_available fromisoformat zone_offset_at locationiq_key net b)
               require_timezone)).
  { apply spec_bind.
    - unfold resolution_steps. apply spec_bind; [apply spec_autocomplete_coords|].
      intros b1. apply spec_derive_timezone.
    - intros b1. unfold require_timezone.
      destruct (truthy (b_timezone b1)); [apply spec_ret|].
      apply spec_raise. right. eexists. reflexivity. }
  intros st. destruct (Inner st) as [F HE]. unfold as_bad_request.
  destruct (io_bind _ _ st) as [[b1|e] st1]; simpl in *.
  - split; [exact F | discriminate].
  - specialize (HE e eq_refl).
    destruct e; (split; [exact F|]); intros e' [= <-];
      try (eexists; reflexivity).
    destruct HE as [[] | [d' Hd]]. exists d'. exact Hd.
Qed.

End ResolutionSpecs.

(** Whatever goes wrong while a birth record is resolved leaves the
    [try] statement of [compute] as an [HTTPException] with status 400;
    resolution removes no cache entry and only extends the call log. *)
Theorem resolve_birth_fails_with_400
  (float_of_str : string -> option float) (int_of_str : string -> option Z)
  (zone_offset_now : pyval -> option Z) (zoneinfo_available : bool)
  (fromisoformat : string -> option datetime) (zone_offset_at : pyval -> Z -> option Z)
  (locationiq_key : option string) (net : network) (b : BirthInput) (st : state) :
  let r := resolve_birth float_of_str int_of_str zone_offset_now zoneinfo_available
             fromisoformat zone_offset_at locationiq_key net b st in
  (forall e, fst r = Raise e -> exists d, e = HTTPException 400 d)
  /\ (forall k, is_Some (GEO_CACHE st !! k) -> is_Some (GEO_CACHE (snd r) !! k))
  /\ (forall k, is_Some (TZ_CACHE st !! k) -> is_Some (TZ_CACHE (snd r) !! k))
  /\ (exists l, calls (snd r) = (calls st ++ l)%list).
Proof.
  intros r.
  destruct (spec_resolve_birth float_of_str int_of_str zone_offset_now
              zoneinfo_available fromisoformat zone_offset_at locationiq_key net b st)
    as [(_ & _ & SG & ST & HC) HE].
  fold r in SG, ST, HC, HE. auto.
Qed.

(** A birth record that already has coordinates and an offset is
    resolved as it stands: no provider is called, nothing is cached, and
    [compute] leaves the process state as it found it. *)
Theorem compute_complete_birth_needs_no_lookup
  (float_of_str : string -> option float) (int_of_str : string -> option Z)
  (zone_offset_now : pyval -> option Z) (zoneinfo_available : bool)
  (fromisoformat : string -> option datetime) (zone_offset_at : pyval -> Z -> option Z)
  (locationiq_key : option string) (net : network)
  (provider_init : outcome unit) (provider : chart_call -> outcome pyval)
  (payload : ComputeRequest) (st : state) (lat lon : float) :
  b_latitude (birth payload) = Some lat ->
  b_longitude (birth payload) = Some lon ->
  truthy (b_timezone (birth payload)) = true ->
  resolve_birth float_of_str int_of_str zone_offset_now zoneinfo_available
    fromisoformat zone_offset_at locationiq_key net (birth payload) st
  = (Return (birth payload), st)
  /\ snd (fst (compute float_of_str int_of_str zone_offset_now zoneinfo_available
                 fromisoformat zone_offset_at locationiq_key net provider_init provider
                 payload st)) = st.
Proof.
  intros Hlat Hlon Htz.
  assert (R : resolve_birth float_of_str int_of_str zone_offset_now zoneinfo_available
                fromisoformat zone_offset_at locationiq_key net (birth payload) st
              = (Return (birth payload), st)).
  { unfold resolve_birth, as_bad_request, io_bind, resolution_steps, io_bind,
      autocomplete_coords, needs_geocoding, derive_timezone, require_timezone.
    rewrite Hlat, Hlon. unfold io_ret. rewrite Hlat, Hlon, Htz. simpl.
    rewrite Htz. reflexivity. }
  split; [exact R|].
  unfold compute. destruct provider_init as [u|e]; [|reflexivity].
  rewrite R.
  destruct (kundli_phase provider (birth payload) []) as [[[kundli advanced]|e] log1];
    [|reflexivity].
  destruct (divisional_phase provider (birth payload) (include_divisional payload)
              [] log1) as [divs log2].
  destruct (transit_phase provider (birth payload) (include_transits payload) _ log2)
    as [tr log3].
  reflexivity.
Qed.

Lemma compute_complete_birth_needs_no_lookup_witness :
  b_latitude delhi_birth = Some 28.6139%float
  /\ b_longitude delhi_birth = Some 77.2090%float
  /\ truthy (b_timezone delhi_birth) = true
  /\ resolve_birth PyNum.float_of_string PyNum.int_of_string fixed_zone_offset true
       Iso.fromisoformat (fun tz _ => fixed_zone_offset tz) (Some "pk.test")
       network_atlantis delhi_birth chennai_cached
     = (Return delhi_birth, chennai_cached)
  /\ snd (fst (compute PyNum.float_of_string PyNum.int_of_string fixed_zone_offset true
                 Iso.fromisoformat (fun tz _ => fixed_zone_offset tz) (Some "pk.test")
                 network_atlantis (Return tt) empty_provider
                 (mk_request delhi_birth ["lagna"] true None) chennai_cached))
     = chennai_cached.
Proof.
  split; [reflexivity|]. split; [reflexivity|]. split; [reflexivity|].
  exact (compute_complete_birth_needs_no_lookup PyNum.float_of_string
           PyNum.int_of_string fixed_zone_offset true Iso.fromisoformat
           (fun tz _ => fixed_zone_offset tz) (Some "pk.test") network_atlantis
           (Return tt) empty_provider (mk_request delhi_birth ["lagna"] true None)
           chennai_cached 28.6139%float 77.2090%float eq_refl eq_refl eq_refl).
Defined.

(** A birth record with an offset but without coordinates and without a
    place to geocode passes the resolution untouched; the chart phase then
    fails on [b.coordinates()] with a plain [ValueError], not an
    [HTTPException], before any call on the astrology provider. *)
Theorem compute_without_coordinates_raises_value_error
  (float_of_str : string -> option float) (int_of_str : string -> option Z)
  (zone_offset_now : pyval -> option Z) (zoneinfo_available : bool)
  (fromisoformat : string -> option datetime) (zone_offset_at : pyval -> Z -> option Z)
  (locationiq_key : option string) (net : network)
  (provider : chart_call -> outcome pyval) (payload : ComputeRequest) (st : state) :
  coordinates (birth payload) = Raise ValueError ->
  b_location (birth payload) = None \/ b_location (birth payload) = Some "" ->
  truthy (b_timezone (birth payload)) = true ->
  compute float_of_str int_of_str zone_offset_now zoneinfo_available fromisoformat
    zone_offset_at locationiq_key net (Return tt) provider payload st
  = (Raise ValueError, st, []).
Proof.
  intros Hco Hloc Htz.
  assert (Hng : needs_geocoding (birth payload) = None).
  { unfold needs_geocoding.
    destruct (b_latitude (birth payload)), (b_longitude (birth payload));
      try reflexivity; destruct Hloc as [H | H]; rewrite H; reflexivity. }
  assert (R : resolve_birth float_of_str int_of_str zone_offset_now zoneinfo_available
                fromisoformat zone_offset_at locationiq_key net (birth payload) st
              = (Return (birth payload), st)).
  { unfold resolve_birth, as_bad_request, io_bind, resolution_steps, io_bind,
      autocomplete_coords, derive_timezone, require_timezone.
    rewrite Hng. unfold io_ret. unfold coordinates in Hco.
    destruct (b_latitude (birth payload)), (b_longitude (birth payload));
      try discriminate Hco; rewrite Htz; reflexivity. }
  unfold compute. rewrite R.
  unfold kundli_phase, call_with_args. rewrite Hco. reflexivity.
Qed.

Lemma compute_without_coordinates_raises_value_error_witness :
  coordinates placeless_birth = Raise ValueError
  /\ (b_location placeless_birth = None \/ b_location placeless_birth = Some "")
  /\ truthy (b_timezone placeless_birth) = true
  /\ compute PyNum.float_of_string PyNum.int_of_string fixed_zone_offset true
       Iso.fromisoformat (fun tz _ => fixed_zone_offset tz) None network_down
       (Return tt) empty_provider (mk_request placeless_birth ["lagna"] true None)
       fresh_state
     = (Raise ValueError, fresh_state, []).
Proof.
  split; [reflexivity|]. split; [left; reflexivity|]. split; [reflexivity|].
  exact (compute_without_coordinates_raises_value_error PyNum.float_of_string
           PyNum.int_of_string fixed_zone_offset true Iso.fromisoformat
           (fun tz _ => fixed_zone_offset tz) None network_down empty_provider
           (mk_request placeless_birth ["lagna"] true None) fresh_state
           eq_refl (or_introl eq_refl) eq_refl).
Defined.

(** ** The [/geo/resolve] route *)

Lemma py_or_idempotent (a b : pyval) : py_or (py_or a b) b = py_or a b.
Proof.
  unfold py_or. destruct (truthy a) eqn:Ha.
  - rewrite Ha. reflexivity.
  - destruct (truthy b); reflexivity.
Qed.

(** Whenever the route responds, the offset it reports is truthy and
    both caches hold what it reports: the timezone cache under the key of
    the reported coordinates, the geocoding cache under the query, with a
    name from which the reported display name derives. *)
Theorem resolve_location_reports_what_is_cached
  (float_of_str : string -> option float) (int_of_str : string -> option Z)
  (zone_offset_now : pyval -> option Z) (locationiq_key : option string)
  (net : network) (q : string) (st st' : state) (r : resolved_location) :
  resolve_location float_of_str int_of_str zone_offset_now locationiq_key net q st
    = (Responds r, st') ->
  truthy (rl_offset r) = true
  /\ TZ_CACHE st' !! coord_key (rl_latitude r) (rl_longitude r)
     = Some (rl_timeZone r, rl_offset r)
  /\ exists n,
       GEO_CACHE st' !! q = Some (rl_latitude r, rl_longitude r, n)
       /\ rl_display_name r = py_or n (PStr q).
Proof.
  unfold resolve_location.
  destruct (geocode_location float_of_str locationiq_key net q st)
    as [[[geo|]|e] st1] eqn:Hg; try discriminate.
  destruct (timezone_for_coords int_of_str zone_offset_now locationiq_key net
              (latitude geo) (longitude geo) st1) as [[[tz|]|e] st2] eqn:Ht;
    try discriminate.
  destruct (truthy (offset tz)) eqn:Hoff; [|discriminate].
  intros [= <- <-]. simpl.
  pose proof (returns_geocode_location float_of_str locationiq_key net q
                st (Some geo) st1 Hg) as (n & Hn & Hor).
  pose proof (returns_timezone_for_coords int_of_str zone_offset_now locationiq_key
                net (latitude geo) (longitude geo) st1 (Some tz) st2 Ht) as Hc.
  destruct (spec_timezone_for_coords int_of_str zone_offset_now locationiq_key net
              no_key any_key (latitude geo) (longitude geo) I st1) as [(HG & _) _].
  rewrite Ht in HG. simpl in HG, Hc.
  split; [exact Hoff|]. split; [exact Hc|].
  exists n. split.
  - rewrite HG by (intros []). exact Hn.
  - destruct Hor as [-> | ->]; [reflexivity|].
    symmetry. apply py_or_idempotent.
Qed.

Lemma resolve_location_reports_what_is_cached_witness :
  resolve_location PyNum.float_of_string PyNum.int_of_string fixed_zone_offset None
    network_down "Chennai, India" chennai_cached
  = (Responds (mk_resolved (PStr "Chennai, Tamil Nadu, India") 13.0827%float
                 80.2707%float (PStr "+05:30") (PStr "Asia/Kolkata")),
     mk_state (GEO_CACHE chennai_cached)
       {[ "13.082700,80.270700" := (PStr "Asia/Kolkata", PStr "+05:30") ]}
       [TimeApiCoordinate 13.0827%float 80.2707%float;
        OpenMeteoTimezone 13.0827%float 80.2707%float;
        OpenMeteoReverse 13.0827%float 80.2707%float])
  /\ truthy (PStr "+05:30") = true
  /\ ({[ "13.082700,80.270700" := (PStr "Asia/Kolkata", PStr "+05:30") ]}
        : gmap string (pyval * pyval)) !! coord_key 13.0827%float 80.2707%float
     = Some (PStr "Asia/Kolkata", PStr "+05:30")
  /\ exists n,
       GEO_CACHE chennai_cached !! "Chennai, India"
       = Some (13.0827%float, 80.2707%float, n)
       /\ PStr "Chennai, Tamil Nadu, India" = py_or n (PStr "Chennai, India").
Proof.
  assert (H : resolve_location PyNum.float_of_string PyNum.int_of_string
                fixed_zone_offset None network_down "Chennai, India" chennai_cached
              = (Responds (mk_resolved (PStr "Chennai, Tamil Nadu, India") 13.0827%float
                             80.2707%float (PStr "+05:30") (PStr "Asia/Kolkata")),
                 mk_state (GEO_CACHE chennai_cached)
                   {[ "13.082700,80.270700" := (PStr "Asia/Kolkata", PStr "+05:30") ]}
                   [TimeApiCoordinate 13.0827%float 80.2707%float;
                    OpenMeteoTimezone 13.0827%float 80.2707%float;
                    OpenMeteoReverse 13.0827%float 80.2707%float])) by reflexivity.
  split; [exact H|].
  exact (resolve_location_reports_what_is_cached PyNum.float_of_string
           PyNum.int_of_string fixed_zone_offset None network_down "Chennai, India"
           chennai_cached _ _ H).
Defined.

(** A place geocoded earlier that lies inside the India footprint is
    resolved with the network down, when no keyed provider is configured:
    the route answers with the cached coordinates, [Asia/Kolkata] and
    [+05:30]. *)
Theorem resolve_location_cached_indian_place
  (float_of_str : string -> option float) (int_of_str : string -> option Z)
  (zone_offset_now : pyval -> option Z) (locationiq_key : option string)
  (net : network) (q : string) (lat lon : float) (name : pyval) (st : state) :
  configured_key locationiq_key = None ->
  providers_down net ->
  GEO_CACHE st !! q = Some (lat, lon, name) ->
  in_india_box lat lon = true ->
  TZ_CACHE st !! coord_key lat lon = None ->
  exists st',
    resolve_location float_of_str int_of_str zone_offset_now locationiq_key net q st
    = (Responds (mk_resolved (py_or name (PStr q)) lat lon
                   (PStr "+05:30") (PStr "Asia/Kolkata")), st').
Proof.
  intros Hkey Hdown Hgeo Hbox Hmiss.
  unfold resolve_location.
  rewrite (geocode_served_from_cache float_of_str locationiq_key net q lat lon name st
             Hkey Hgeo).
  simpl.
  destruct (timezone_down_reaches_box int_of_str zone_offset_now locationiq_key
              net Hdown lat lon st Hmiss) as (st1 & -> & _ & _).
  unfold tz_india_box. rewrite Hbox.
  unfold remember_tz, io_bind, put_tz, io_ret. simpl.
  eexists. reflexivity.
Qed.

Lemma resolve_location_cached_indian_place_witness :
  configured_key None = None
  /\ providers_down network_unavailable
  /\ GEO_CACHE chennai_cached !! "Chennai, India"
     = Some (13.0827%float, 80.2707%float, PStr "Chennai, Tamil Nadu, India")
  /\ in_india_box 13.0827%float 80.2707%float = true
  /\ TZ_CACHE chennai_cached !! coord_key 13.0827%float 80.2707%float = None
  /\ exists st',
       resolve_location PyNum.float_of_string PyNum.int_of_string fixed_zone_offset
         None network_unavailable "Chennai, India" chennai_cached
       = (Responds (mk_resolved
                      (py_or (PStr "Chennai, Tamil Nadu, India") (PStr "Chennai, India"))
                      13.0827%float 80.2707%float (PStr "+05:30") (PStr "Asia/Kolkata")),
          st').
Proof.
  assert (Hdown : providers_down network_unavailable) by (intros n rq; reflexivity).
  assert (Hgeo : GEO_CACHE chennai_cached !! "Chennai, India"
                 = Some (13.0827%float, 80.2707%float, PStr "Chennai, Tamil Nadu, India"))
    by reflexivity.
  assert (Hmiss : TZ_CACHE chennai_cached !! coord_key 13.0827%float 80.2707%float = None)
    by reflexivity.
  split; [reflexivity|]. split; [exact Hdown|]. split; [exact Hgeo|].
  split; [reflexivity|]. split; [exact Hmiss|].
  exact (resolve_location_cached_indian_place PyNum.float_of_string PyNum.int_of_string
           fixed_zone_offset None network_unavailable "Chennai, India"
           13.0827%float 80.2707%float (PStr "Chennai, Tamil Nadu, India")
           chennai_cached eq_refl Hdown Hgeo eq_refl Hmiss).
Defined.

(** ** Defensive lookups and the period facts *)

(** With a default that is not itself a dict, a chained lookup can be
    cut anywhere: looking up a path equals looking up its first part and
    then the rest from what was found. *)
Theorem safe_get_splits (d default : pyval) (ks1 ks2 : list string) :
  is_dict default = false ->
  _safe_get d (ks1 ++ ks2) default = _safe_get (_safe_get d ks1 default) ks2 default.
Proof.
  intros Hd. revert d.
  assert (Hdef : _safe_get default ks2 default = default).
  { destruct ks2 as [|k ks2]; [reflexivity|].
    destruct default; try reflexivity. discriminate Hd. }
  induction ks1 as [|k ks1 IH]; intros d; simpl; [reflexivity|].
  destruct d; simpl; auto.
  destruct (assoc k fields); auto.
Qed.

Lemma safe_get_splits_witness :
  is_dict (PStr "") = false
  /\ _safe_get sample_comp (["meta"; "birth"] ++ ["date"]) (PStr "")
     = _safe_get (_safe_get sample_comp ["meta"; "birth"] (PStr "")) ["date"] (PStr "").
Proof.
  split; [reflexivity|].
  apply (safe_get_splits sample_comp (PStr "") ["meta"; "birth"] ["date"]).
  reflexivity.
Defined.

(** With the clock as reference instant the selector always returns, and
    what it selects is an element of the list it was given. *)
Lemma current_period_clock (fromisoformat : string -> option datetime) (utcnow : Z)
  (periods : pyval) (bd : option datetime) :
  exists r,
    _current_period fromisoformat utcnow periods bd None = Return r
    /\ forall p, r = Some p ->
                 exists items i, periods = PList items /\ items !! i = Some p.
Proof.
  destruct periods as [| | | | |items|];
    try (exists None; split; [reflexivity | discriminate]).
  pose proof (current_period_result_shape fromisoformat utcnow items bd None) as S.
  unfold _current_period in *.
  destruct (first_containing_returns fromisoformat bd
              (default (mk_datetime utcnow (Some 0)) None) 0 items eq_refl) as [hit F].
  rewrite F in *. simpl in *.
  destruct hit as [p|].
  - exists (Some p). split; [reflexivity|].
    intros p' [= <-]. destruct S as [i Hi]. eauto.
  - destruct (sort_by_start _) as [|c rest].
    + exists (head items). split; [reflexivity|].
      intros p Hp. exists items, 0%nat. split; [reflexivity|].
      rewrite <- head_lookup. exact Hp.
    + exists (Some (cand_period c)). split; [reflexivity|].
      intros p' [= <-]. destruct S as [i Hi]. eauto.
Qed.

Lemma period_of_result (fromisoformat : string -> option datetime) (utcnow : Z)
  (v : pyval) (key : string) (bd : option datetime) :
  exists r,
    period_of fromisoformat utcnow v key bd = Return r
    /\ forall p, r = Some p ->
                 exists items i,
                   py_get v key = Return (PList items) /\ items !! i = Some p.
Proof.
  destruct v as [| | | | | |fields];
    try (exists None; split; [reflexivity | discriminate]).
  simpl.
  destruct (current_period_clock fromisoformat utcnow
              (default PNone (assoc key fields)) bd) as (r & Hr & Hin).
  exists r. split; [exact Hr|].
  intros p Hp. destruct (Hin p Hp) as (items & i & Heq & Hi).
  exists items, i. split; [congruence | exact Hi].
Qed.

(** For a kundli that is a dict, the period facts are found without an
    exception, and they nest: the major period is an element of
    [dasha_periods] (of [vimshottari_dasha] when that is present and
    truthy, of the kundli itself otherwise), and the sub-period is an
    element of the [antardasha] list of that very major period. *)
Theorem select_dasha_nests
  (fromisoformat : string -> option datetime) (utcnow : Z)
  (kundli : pyval) (bd : option datetime) :
  is_dict kundli = true ->
  exists maha antar,
    select_dasha fromisoformat utcnow kundli bd = Return (maha, antar)
    /\ (forall m, maha = Some m ->
          exists v items i,
            py_get kundli "vimshottari_dasha" = Return v
            /\ py_get (py_or v kundli) "dasha_periods" = Return (PList items)
            /\ items !! i = Some m)
    /\ (forall a, antar = Some a ->
          exists m items i,
            maha = Some m
            /\ py_get m "antardasha" = Return (PList items)
            /\ items !! i = Some a).
Proof.
  intros Hd. destruct kundli as [| | | | | |fields]; try discriminate.
  unfold select_dasha.
  set (k := PDict fields).
  assert (Hv : py_get k "vimshottari_dasha"
               = Return (default PNone (assoc "vimshottari_dasha" fields)))
    by reflexivity.
  rewrite Hv. simpl bind.
  set (v := default PNone (assoc "vimshottari_dasha" fields)) in *.
  destruct (period_of_result fromisoformat utcnow (py_or v k) "dasha_periods" bd)
    as (maha & Hm & Hmin).
  rewrite Hm. simpl bind.
  assert (Ha : exists antar,
            match maha with
            | Some m => period_of fromisoformat utcnow m "antardasha" bd
            | None => Return None
            end = Return antar
            /\ forall a, antar = Some a ->
                 exists m items i,
                   maha = Some m
                   /\ py_get m "antardasha" = Return (PList items)
                   /\ items !! i = Some a).
  { destruct maha as [m|].
    - destruct (period_of_result fromisoformat utcnow m "antardasha" bd)
        as (antar & Hr & Hin).
      exists antar. split; [exact Hr|].
      intros a Hp. destruct (Hin a Hp) as (items & i & H1 & H2).
      exists m, items, i. auto.
    - exists None. split; [reflexivity | discriminate]. }
  destruct Ha as (antar & Hr & Hain).
  rewrite Hr. simpl bind.
  exists maha, antar. split; [reflexivity|]. split; [|exact Hain].
  intros m Hmm. destruct (Hmin m Hmm) as (items & i & H1 & H2).
  exists v, items, i. auto.
Qed.

Lemma select_dasha_nests_witness :
  is_dict sample_kundli = true
  /\ exists maha antar,
       select_dasha Iso.fromisoformat 63713433600000000 sample_kundli None
       = Return (maha, antar)
       /\ (forall m, maha = Some m ->
             exists v items i,
               py_get sample_kundli "vimshottari_dasha" = Return v
               /\ py_get (py_or v sample_kundli) "dasha_periods" = Return (PList items)
               /\ items !! i = Some m)
       /\ (forall a, antar = Some a ->
             exists m items i,
               maha = Some m
               /\ py_get m "antardasha" = Return (PList items)
               /\ items !! i = Some a).
Proof.
  split; [reflexivity|].
  apply (select_dasha_nests Iso.fromisoformat 63713433600000000 sample_kundli None).
  reflexivity.
Defined.

(** ** Outbound calls *)

Lemma within_ret {A : Type} (a : A) : calls_within [] (io_ret a).
Proof. intros st. exists []. split; [symmetry; apply app_nil_r | constructor]. Qed.

Lemma within_raise {A : Type} (e : exn) : calls_within [] (@io_raise A e).
Proof. intros st. exists []. split; [symmetry; apply app_nil_r | constructor]. Qed.

Lemma within_lift {A : Type} (m : outcome A) : calls_within [] (io_lift m).
Proof. intros st. exists []. split; [symmetry; apply app_nil_r | constructor]. Qed.

Lemma within_put_geo (k : string) (v : float * float * pyval) :
  calls_within [] (put_geo k v).
Proof. intros st. exists []. split; [symmetry; apply app_nil_r | constructor]. Qed.

Lemma within_put_tz (k : string) (v : pyval * pyval) : calls_within [] (put_tz k v).
Proof. intros st. exists []. split; [symmetry; apply app_nil_r | constructor]. Qed.

Lemma within_weaken {A : Type} (a a' : list request) (m : io A) :
  sublist a a' -> calls_within a m -> calls_within a' m.
Proof.
  intros Ha Hm st. destruct (Hm st) as (l & Hl & Hs).
  exists l. split; [exact Hl | etransitivity; eassumption].
Qed.

Lemma within_bind {A B : Type} (a1 a2 : list request) (m : io A) (k : A -> io B) :
  calls_within a1 m -> (forall x, calls_within a2 (k x)) ->
  calls_within (a1 ++ a2) (io_bind m k).
Proof.
  intros Hm Hk st. unfold io_bind.
  destruct (Hm st) as (l1 & Hl1 & Hs1).
  destruct (m st) as [[x|e] st1]; simpl in *.
  - destruct (Hk x st1) as (l2 & Hl2 & Hs2).
    exists (l1 ++ l2)%list. split.
    + rewrite Hl2, Hl1. symmetry. apply app_assoc.
    + apply sublist_app; assumption.
  - exists l1. split; [exact Hl1|].
    apply sublist_inserts_r. exact Hs1.
Qed.

(** A computation that makes no call, followed by one that does. *)
Lemma within_bind_silent {A B : Type} (a : list request) (m : io A) (k : A -> io B) :
  calls_within [] m -> (forall x, calls_within a (k x)) ->
  calls_within a (io_bind m k).
Proof. intros Hm Hk. apply (within_bind [] a m k Hm Hk). Qed.

Lemma within_except_http {A : Type} (a : list request) (m : io (option A)) :
  calls_within a m -> calls_within a (except_http m).
Proof.
  intros Hm st. destruct (Hm st) as (l & Hl & Hs). unfold except_http.
  destruct (m st) as [[r|e] st1]; simpl in *; [eauto|].
  destruct e; simpl; eauto.
Qed.

Lemma within_or_else {A : Type} (a1 a2 : list request) (m1 m2 : io (option A)) :
  calls_within a1 m1 -> calls_within a2 m2 -> calls_within (a1 ++ a2) (or_else m1 m2).
Proof.
  intros H1 H2. unfold or_else. apply within_bind; [exact H1|].
  intros [x|]; [|exact H2].
  apply (within_weaken [] a2); [apply sublist_nil_l | apply within_ret].
Qed.

Ltac within_silent :=
  repeat first
    [ apply within_ret
    | apply within_lift
    | apply within_raise
    | apply within_put_geo
    | apply within_put_tz
    | apply within_bind_silent; [|intros ?]
    | match goal with
      | |- calls_within _ (if ?b then _ else _) => destruct b
      | |- calls_within _ (match ?x with _ => _ end) => destruct x
      end ].

Section CallsWithin.

Variable float_of_str : string -> option float.
Variable int_of_str : string -> option Z.
Variable zone_offset_now : pyval -> option Z.
Variable locationiq_key : option string.
Variable net : network.

Lemma within_http_get (rq : request) : calls_within [rq] (http_get net rq).
Proof.
  intros st. exists [rq]. unfold http_get.
  destruct (net (length (calls st)) rq); simpl; (split; [reflexivity|]);
    apply sublist_skip; constructor.
Qed.

Lemma within_get_json (rq : request) : calls_within [rq] (get_json net rq).
Proof.
  unfold get_json.
  apply (within_bind [rq] [] _ _ (within_http_get rq)).
  intros r. within_silent.
Qed.

(** One GET, then only local work. *)
Lemma within_after_get {A : Type} (rq : request) (k : pyval -> io A) :
  (forall v, calls_within [] (k v)) -> calls_within [rq] (io_bind (get_json net rq) k).
Proof.
  intros Hk. apply (within_bind [rq] [] _ _ (within_get_json rq) Hk).
Qed.

Lemma within_remember_geo (location : string) (out : geo_result) :
  calls_within [] (remember_geo location out).
Proof. unfold remember_geo. apply within_put_geo. Qed.

Lemma within_remember_tz (key : string) (tz off : pyval) :
  calls_within [] (remember_tz key tz off).
Proof. unfold remember_tz. within_silent. Qed.

Lemma within_search_array (rq : request) (location : string) :
  calls_within [rq] (search_array float_of_str net rq location).
Proof.
  unfold search_array. apply within_after_get. intros arr.
  destruct (truthy arr); [|apply within_ret].
  do 2 (apply within_bind_silent; [apply within_lift | intros ?]).
  apply within_bind_silent; [apply within_remember_geo | intros ?].
  apply within_ret.
Qed.

Lemma within_search_open_meteo (location : string) :
  calls_within [OpenMeteoSearch location] (search_open_meteo float_of_str net location).
Proof.
  unfold search_open_meteo. apply within_after_get. intros data.
  destruct (truthy data); [|apply within_ret].
  apply within_bind_silent; [apply within_lift | intros ?].
  destruct (truthy _); [|apply within_ret].
  do 3 (apply within_bind_silent; [apply within_lift | intros ?]).
  apply within_bind_silent; [apply within_remember_geo | intros ?].
  apply within_ret.
Qed.

Lemma within_geo_cache_lookup (location : string) :
  calls_within [] (geo_cache_lookup location).
Proof.
  intros st. exists []. unfold geo_cache_lookup.
  destruct (GEO_CACHE st !! location) as [[[lat lon] name]|]; simpl;
    (split; [symmetry; apply app_nil_r | constructor]).
Qed.

Lemma within_geocode_location (location : string) :
  calls_within (geocode_requests locationiq_key location)
    (geocode_location float_of_str locationiq_key net location).
Proof.
  unfold geocode_location, geocode_unkeyed, geocode_requests.
  apply within_or_else.
  - destruct (configured_key locationiq_key).
    + apply within_except_http, within_search_array.
    + apply within_ret.
  - apply (within_or_else [] _); [apply within_geo_cache_lookup|].
    apply (within_or_else [NominatimSearch location] [OpenMeteoSearch location]).
    + apply within_except_http, within_search_array.
    + apply within_except_http, within_search_open_meteo.
Qed.

Lemma within_tz_cache_lookup (key : string) : calls_within [] (tz_cache_lookup key).
Proof.
  intros st. exists []. unfold tz_cache_lookup.
  destruct (TZ_CACHE st !! key) as [[tzid off]|]; simpl;
    (split; [symmetry; apply app_nil_r | constructor]).
Qed.

Lemma within_tz_locationiq (k key : string) (lat lon : float) :
  calls_within [LocationIQTimezone k lat lon]
    (tz_locationiq int_of_str net k key lat lon).
Proof.
  unfold tz_locationiq. apply within_after_get. intros data.
  do 7 (apply within_bind_silent; [apply within_lift | intros ?]).
  destruct (_ && _); [apply within_remember_tz | apply within_ret].
Qed.

Lemma within_tz_timeapi (key : string) (lat lon : float) :
  calls_within [TimeApiCoordinate lat lon] (tz_timeapi int_of_str net key lat lon).
Proof.
  unfold tz_timeapi. apply within_after_get. intros data.
  do 2 (apply within_bind_silent; [apply within_lift | intros ?]).
  destruct (_ && _).
  - apply within_bind_silent; [apply within_lift | intros ?].
    apply within_remember_tz.
  - apply within_bind_silent; [apply within_lift | intros ?].
    destruct (_ && _); [|apply within_ret].
    apply within_bind_silent; [apply within_lift | intros ?].
    apply within_remember_tz.
Qed.

Lemma within_tz_open_meteo (key : string) (lat lon : float) :
  calls_within [OpenMeteoTimezone lat lon] (tz_open_meteo int_of_str net key lat lon).
Proof.
  unfold tz_open_meteo. apply within_after_get. intros data.
  do 2 (apply within_bind_silent; [apply within_lift | intros ?]).
  destruct (_ && _); [|apply within_ret].
  apply within_bind_silent; [apply within_lift | intros ?].
  apply within_remember_tz.
Qed.

Lemma within_tz_reverse (key : string) (lat lon : float) :
  calls_within [OpenMeteoReverse lat lon] (tz_reverse zone_offset_now net key lat lon).
Proof.
  unfold tz_reverse.
  apply (within_bind [OpenMeteoReverse lat lon] [] _ _ (within_http_get _)).
  intros r.
  destruct (_ =? _); [|apply within_ret].
  apply within_bind_silent; [apply within_lift | intros ?].
  destruct (truthy _); [|apply within_ret].
  apply within_bind_silent; [apply within_lift | intros ?].
  destruct (truthy _); [|apply within_ret].
  do 2 (apply within_bind_silent; [apply within_lift | intros ?]).
  destruct (truthy _); [apply within_remember_tz | apply within_ret].
Qed.

Lemma within_timezone_for_coords (lat lon : float) :
  calls_within (timezone_requests locationiq_key lat lon)
    (timezone_for_coords int_of_str zone_offset_now locationiq_key net lat lon).
Proof.
  unfold timezone_for_coords, timezone_requests.
  apply (within_or_else [] _); [apply within_tz_cache_lookup|].
  apply within_or_else.
  { destruct (configured_key locationiq_key).
    - apply within_except_http, within_tz_locationiq.
    - apply within_ret. }
  apply (within_or_else [TimeApiCoordinate lat lon] _);
    [apply within_except_http, within_tz_timeapi|].
  apply (within_or_else [OpenMeteoTimezone lat lon] _);
    [apply within_except_http, within_tz_open_meteo|].
  apply (within_or_else [OpenMeteoReverse lat lon] []);
    [apply within_except_http, within_tz_reverse|].
  unfold tz_india_box.
  destruct (in_india_box lat lon); [apply within_remember_tz | apply within_ret].
Qed.

End CallsWithin.

(** One run of [geocode_location] calls each provider at most once, in
    priority order: the keyed provider (only when a key is configured),
    Nominatim, Open-Meteo; at most three GETs, and no retry. *)
Theorem geocode_calls_each_provider_once
  (float_of_str : string -> option float) (locationiq_key : option string)
  (net : network) (location : string) (st : state) :
  exists l,
    calls (snd (geocode_location float_of_str locationiq_key net location st))
    = (calls st ++ l)%list
    /\ sublist l (geocode_requests locationiq_key location)
    /\ (length l <= 3)%nat.
Proof.
  destruct (within_geocode_location float_of_str locationiq_key net location st)
    as (l & Hl & Hs).
  exists l. split; [exact Hl|]. split; [exact Hs|].
  apply sublist_length in Hs. etransitivity; [exact Hs|].
  unfold geocode_requests. destruct (configured_key locationiq_key); simpl; lia.
Qed.

(** One run of [timezone_for_coords] calls each provider at most once, in
    priority order: the keyed provider (only when a key is configured),
    timeapi.io, Open-Meteo's timezone endpoint, Open-Meteo's search; at
    most four GETs, and no retry. *)
Theorem timezone_calls_each_provider_once
  (int_of_str : string -> option Z) (zone_offset_now : pyval -> option Z)
  (locationiq_key : option string) (net : network) (lat lon : float) (st : state) :
  exists l,
    calls (snd (timezone_for_coords int_of_str zone_offset_now locationiq_key net
                  lat lon st))
    = (calls st ++ l)%list
    /\ sublist l (timezone_requests locationiq_key lat lon)
    /\ (length l <= 4)%nat.
Proof.
  destruct (within_timezone_for_coords int_of_str zone_offset_now locationiq_key net
              lat lon st) as (l & Hl & Hs).
  exists l. split; [exact Hl|]. split; [exact Hs|].
  apply sublist_length in Hs. etransitivity; [exact Hs|].
  unfold timezone_requests. destruct (configured_key locationiq_key); simpl; lia.
Qed.

(** ** The chart phase of [compute] *)






Section ChartPhase.

Variable provider : chart_call -> outcome pyval.
Variable b : BirthInput.
Variables lat lon : float.
Hypothesis Hlat : b_latitude b = Some lat.
Hypothesis Hlon : b_longitude b = Some lon.
Hypothesis Htz : truthy (b_timezone b) = true.




End ChartPhase.



(** ** The Shadbala routes *)

(** Every entry [_parse_shadbala_text] returns names one of the seven
    planets, capitalised, and there is at most one entry per line of the
    text. *)
Theorem parse_shadbala_entries (float_of_str : string -> option float) (txt : string) :
  List.Forall (fun entry => In (fst entry) Shadbala.planets)
    (Shadbala._parse_shadbala_text float_of_str txt)
  /\ (length (Shadbala._parse_shadbala_text float_of_str txt)
      <= length (Shadbala.splitlines txt))%nat.
Proof.
  unfold Shadbala._parse_shadbala_text.
  assert (Line : forall line,
            List.Forall (fun entry => In (fst entry) Shadbala.planets)
              (Shadbala.parse_line float_of_str line)
            /\ (length (Shadbala.parse_line float_of_str line) <= 1)%nat).
  { intros line. unfold Shadbala.parse_line.
    destruct (Shadbala.split line) as [|first rest]; [split; [constructor | simpl; lia]|].
    destruct (Shadbala.is_planet (Shadbala.capitalize first)) eqn:P;
      [|split; [constructor | simpl; lia]].
    destruct (Shadbala.first_score float_of_str rest);
      [|split; [constructor | simpl; lia]].
    split; [|simpl; lia].
    constructor; [|constructor]. simpl.
    unfold Shadbala.is_planet in P. apply existsb_exists in P as (x & Hin & Heq).
    apply String.eqb_eq in Heq. subst. exact Hin. }
  induction (Shadbala.splitlines txt) as [|line lines IH]; simpl.
  - split; [constructor | lia].
  - destruct (Line line) as [L1 L2]. destruct IH as [I1 I2]. split.
    + apply List.Forall_app. split; assumption.
    + rewrite length_app. lia.
Qed.

(** Reading a text that runs into a line feed and then into [b]: the
    lines of the first part, possibly one empty line, the lines of [b]. *)
Lemma lines_from_line_feed (b : string) :
  forall (a : string) (after_cr : bool) (cur : string),
    (after_cr = true -> cur = EmptyString) ->
    exists gap,
      (gap = [] \/ gap = [EmptyString])
      /\ Shadbala.lines_from after_cr cur (a ++ String "010" b)
         = (Shadbala.lines_from after_cr cur a ++ gap ++ Shadbala.splitlines b)%list.
Proof.
  induction a as [|c a IH]; intros after_cr cur Inv.
  - simpl. destruct after_cr; simpl.
    + rewrite (Inv eq_refl). exists []. split; [left; reflexivity|]. reflexivity.
    + destruct cur as [|c0 cur]; simpl.
      * exists [EmptyString]. split; [right; reflexivity|]. reflexivity.
      * exists []. split; [left; reflexivity|]. reflexivity.
  - simpl.
    destruct (after_cr && Shadbala.is_lf c).
    + apply IH. discriminate.
    + destruct (Shadbala.is_linebreak c).
      * destruct (IH (Shadbala.is_cr c) EmptyString (fun _ => eq_refl))
          as (gap & Hgap & ->).
        exists gap. split; [exact Hgap | reflexivity].
      * apply IH. discriminate.
Qed.

(** The parser is local to lines: the entries of two texts joined by a
    line feed are the entries of the first followed by those of the
    second. *)
Theorem parse_shadbala_line_local (float_of_str : string -> option float)
  (a b : string) :
  Shadbala._parse_shadbala_text float_of_str (a ++ String "010" b)
  = (Shadbala._parse_shadbala_text float_of_str a
     ++ Shadbala._parse_shadbala_text float_of_str b)%list.
Proof.
  unfold Shadbala._parse_shadbala_text, Shadbala.splitlines at 1.
  destruct (lines_from_line_feed b a false EmptyString ltac:(discriminate))
    as (gap & Hgap & ->).
  rewrite !flat_map_app.
  destruct Hgap as [-> | ->]; reflexivity.
Qed.

(** The outcomes of [/shadbala/pdf].  A request with neither a location
    nor both coordinates is refused with 400 before the provider is
    constructed.  Past that guard, a missing offset is a 502 without any
    call on the provider; otherwise the provider is called exactly once,
    with the coordinates as they stand in the request (no geocoding, a
    missing coordinate stays missing), and an exception of the call is a
    502.  Only a failure of the provider's constructor leaves the route
    as it is. *)
Theorem shadbala_pdf_outcomes
  (provider_init : outcome unit) (shadbala_provider : shadbala_call -> outcome string)
  (exn_text : exn -> string) (payload : ShadbalaRequest) :
  let b := sh_birth payload in
  let r := shadbala_pdf provider_init shadbala_provider exn_text payload in
  (lacks_place b = true -> r = (Refuses 400 "location or coordinates required", []))
  /\ (lacks_place b = false -> provider_init = Return tt ->
      truthy (b_timezone b) = false ->
      r = (Refuses 502 (exn_text ValueError), []))
  /\ (lacks_place b = false -> provider_init = Return tt ->
      truthy (b_timezone b) = true ->
      exists c,
        sc_coordinates c = (b_latitude b, b_longitude b)
        /\ sc_dt_iso c = (b_date b, with_seconds (b_time b), b_timezone b)
        /\ snd r = [c]
        /\ fst r = match shadbala_provider c with
                   | Return pdf => Responds pdf
                   | Raise e => Refuses 502 (exn_text e)
                   end)
  /\ (forall e, fst r = Fails e -> provider_init = Raise e).
Proof.
  intros b r. subst r. unfold shadbala_pdf. fold b.
  split; [|split; [|split]].
  - intros ->. reflexivity.
  - intros -> -> Htz. unfold request_pdf, iso_datetime. fold b. rewrite Htz. reflexivity.
  - intros -> -> Htz. unfold request_pdf, iso_datetime. fold b. rewrite Htz.
    set (c := mk_shadbala_call (sh_name payload) (sh_gender payload)
                (b_latitude b, b_longitude b)
                (b_date b, with_seconds (b_time b), b_timezone b)
                (str_or (sh_place payload) (str_or (b_location b) ""))
                (b_la b)).
    exists c. split; [reflexivity|]. split; [reflexivity|].
    destruct (shadbala_provider c); split; reflexivity.
  - intros e. destruct (lacks_place b); [discriminate|].
    destruct provider_init as [u|e']; [|intros [= <-]; reflexivity].
    destruct (request_pdf shadbala_provider payload) as [[pdf|e'] log]; discriminate.
Qed.

Lemma shadbala_pdf_outcomes_witness :
  lacks_place (sh_birth chennai_shadbala) = false
  /\ truthy (b_timezone (sh_birth chennai_shadbala)) = true
  /\ exists c,
       sc_coordinates c = (None, None)
       /\ sc_dt_iso c = ("1990-05-17", "06:45:00", PStr "+05:30")
       /\ snd (shadbala_pdf (Return tt) (fun _ => Raise HTTPError)
                 (fun _ => "upstream") chennai_shadbala) = [c]
       /\ fst (shadbala_pdf (Return tt) (fun _ => Raise HTTPError)
                 (fun _ => "upstream") chennai_shadbala)
          = match (fun _ : shadbala_call => @Raise string HTTPError) c with
            | Return pdf => Responds pdf
            | Raise e => Refuses 502 ((fun _ : exn => "upstream") e)
            end.
Proof.
  split; [reflexivity|]. split; [reflexivity|].
  exact (proj1 (proj2 (proj2
           (shadbala_pdf_outcomes (Return tt) (fun _ => Raise HTTPError)
              (fun _ => "upstream") chennai_shadbala)))
           eq_refl eq_refl eq_refl).
Defined.

(** ** Resolution of a birth record, end to end *)

(** With every provider failing and the query not cached, geocoding
    reports absence and leaves both caches as they were. *)
Lemma geocode_down_returns_none (float_of_str : string -> option float)
  (locationiq_key : option string) (net : network) (location : string) (st : state) :
  providers_down net ->
  GEO_CACHE st !! location = None ->
  exists st',
    geocode_location float_of_str locationiq_key net location st = (Return None, st')
    /\ GEO_CACHE st' = GEO_CACHE st /\ TZ_CACHE st' = TZ_CACHE st.
Proof.
  intros Hdown Hmiss. unfold geocode_location.
  assert (K : falls_through
                (match configured_key locationiq_key with
                 | Some k => except_http
                               (search_array float_of_str net
                                  (LocationIQSearch k location) location)
                 | None => io_ret None
                 end) st).
  { destruct (configured_key locationiq_key) as [k|].
    - unfold search_array. apply guarded_get_falls_through. exact Hdown.
    - exists st. repeat split. }
  destruct (falls_through_or_else _ (geocode_unkeyed float_of_str net location) st K)
    as (st1 & -> & G1 & T1).
  unfold geocode_unkeyed.
  rewrite (or_else_none _ _ st1 st1)
    by (unfold geo_cache_lookup; rewrite G1, Hmiss; reflexivity).
  destruct (falls_through_or_else
              (except_http (search_array float_of_str net (NominatimSearch location)
                              location))
              (except_http (search_open_meteo float_of_str net location)) st1)
    as (st2 & -> & G2 & T2).
  { unfold search_array. apply guarded_get_falls_through. exact Hdown. }
  destruct (guarded_get_falls_through net Hdown (OpenMeteoSearch location)
              (fun data =>
                 if truthy data
                 then io_bind (io_lift (py_get data "results")) (fun results =>
                        if truthy results
                        then io_bind (io_lift (py_first results)) (fun item =>
                               io_bind (io_lift (geo_of_item float_of_str item
                                                   "latitude" "longitude" "name"))
                                 (fun out =>
                                    io_bind (io_lift (py_get item "timezone")) (fun tz =>
                                      let out := if truthy tz
                                                 then mk_geo (latitude out) (longitude out)
                                                        (display_name out) (Some tz)
                                                 else out in
                                      io_bind (remember_geo location out)
                                        (fun _ => io_ret (Some out)))))
                        else io_ret None)
                 else io_ret None) st2) as (st3 & H3 & G3 & T3).
  exists st3. split; [exact H3|]. split; congruence.
Qed.

(** When the place of a birth record cannot be geocoded because every
    provider fails and the place is not cached, [compute] answers 400
    "Could not geocode location" and calls the astrology provider not at
    all. *)
Theorem compute_refuses_ungeocodable_place
  (float_of_str : string -> option float) (int_of_str : string -> option Z)
  (zone_offset_now : pyval -> option Z) (zoneinfo_available : bool)
  (fromisoformat : string -> option datetime) (zone_offset_at : pyval -> Z -> option Z)
  (locationiq_key : option string) (net : network)
  (provider : chart_call -> outcome pyval) (payload : ComputeRequest) (st : state)
  (location : string) :
  needs_geocoding (birth payload) = Some location ->
  providers_down net ->
  GEO_CACHE st !! location = None ->
  exists st',
    compute float_of_str int_of_str zone_offset_now zoneinfo_available fromisoformat
      zone_offset_at locationiq_key net (Return tt) provider payload st
    = (Raise (HTTPException 400 CouldNotGeocode), st', [])
    /\ GEO_CACHE st' = GEO_CACHE st /\ TZ_CACHE st' = TZ_CACHE st.
Proof.
  intros Hneed Hdown Hmiss.
  destruct (geocode_down_returns_none float_of_str locationiq_key net location st
              Hdown Hmiss) as (st1 & Hg & G & T).
  exists st1. split; [|split; assumption].
  unfold compute, resolve_birth, as_bad_request, io_bind, resolution_steps, io_bind,
    autocomplete_coords.
  rewrite Hneed. unfold io_bind. rewrite Hg. reflexivity.
Qed.

Lemma compute_refuses_ungeocodable_place_witness :
  needs_geocoding chennai_birth = Some "Chennai, India"
  /\ providers_down network_unavailable
  /\ GEO_CACHE fresh_state !! "Chennai, India" = None
  /\ exists st',
       compute PyNum.float_of_string PyNum.int_of_string fixed_zone_offset true
         Iso.fromisoformat (fun tz _ => fixed_zone_offset tz) None network_unavailable
         (Return tt) empty_provider (mk_request chennai_birth ["lagna"] true None)
         fresh_state
       = (Raise (HTTPException 400 CouldNotGeocode), st', [])
       /\ GEO_CACHE st' = GEO_CACHE fresh_state /\ TZ_CACHE st' = TZ_CACHE fresh_state.
Proof.
  assert (Hdown : providers_down network_unavailable) by (intros n rq; reflexivity).
  assert (Hmiss : GEO_CACHE fresh_state !! "Chennai, India" = None) by reflexivity.
  split; [reflexivity|]. split; [exact Hdown|]. split; [exact Hmiss|].
  exact (compute_refuses_ungeocodable_place PyNum.float_of_string PyNum.int_of_string
           fixed_zone_offset true Iso.fromisoformat (fun tz _ => fixed_zone_offset tz)
           None network_unavailable empty_provider
           (mk_request chennai_birth ["lagna"] true None) fresh_state
           "Chennai, India" eq_refl Hdown Hmiss).
Defined.

(** A birth record that names only a place geocoded earlier inside the
    India footprint is completed with the network down, when no keyed
    provider is configured: the resolution adopts the cached coordinates
    and the offset [+05:30]. *)
Theorem resolve_birth_cached_indian_place
  (float_of_str : string -> option float) (int_of_str : string -> option Z)
  (zone_offset_now : pyval -> option Z) (zoneinfo_available : bool)
  (fromisoformat : string -> option datetime) (zone_offset_at : pyval -> Z -> option Z)
  (locationiq_key : option string) (net : network) (b : BirthInput) (st : state)
  (location : string) (lat lon : float) (name : pyval) :
  needs_geocoding b = Some location ->
  truthy (b_timezone b) = false ->
  configured_key locationiq_key = None ->
  providers_down net ->
  GEO_CACHE st !! location = Some (lat, lon, name) ->
  in_india_box lat lon = true ->
  TZ_CACHE st !! coord_key lat lon = None ->
  exists st',
    resolve_birth float_of_str int_of_str zone_offset_now zoneinfo_available
      fromisoformat zone_offset_at locationiq_key net b st
    = (Return (set_timezone (set_coords b lat lon) (PStr "+05:30")), st').
Proof.
  intros Hneed Hno Hkey Hdown Hgeo Hbox Hmiss.
  unfold resolve_birth, as_bad_request, io_bind, resolution_steps, io_bind,
    autocomplete_coords.
  rewrite Hneed. unfold io_bind.
  rewrite (geocode_served_from_cache float_of_str locationiq_key net location
             lat lon name st Hkey Hgeo).
  simpl. rewrite Hno. simpl. unfold io_ret, derive_timezone. simpl.
  rewrite Hno. simpl. unfold io_bind.
  destruct (timezone_down_reaches_box int_of_str zone_offset_now locationiq_key
              net Hdown lat lon st Hmiss) as (st1 & -> & _ & _).
  unfold tz_india_box. rewrite Hbox.
  unfold remember_tz, io_bind, put_tz, io_ret, require_timezone. simpl.
  eexists. reflexivity.
Qed.

Lemma resolve_birth_cached_indian_place_witness :
  needs_geocoding chennai_birth = Some "Chennai, India"
  /\ truthy (b_timezone chennai_birth) = false
  /\ configured_key None = None
  /\ providers_down network_down
  /\ GEO_CACHE chennai_cached !! "Chennai, India"
     = Some (13.0827%float, 80.2707%float, PStr "Chennai, Tamil Nadu, India")
  /\ in_india_box 13.0827%float 80.2707%float = true
  /\ TZ_CACHE chennai_cached !! coord_key 13.0827%float 80.2707%float = None
  /\ exists st',
       resolve_birth PyNum.float_of_string PyNum.int_of_string fixed_zone_offset true
         Iso.fromisoformat (fun tz _ => fixed_zone_offset tz) None network_down
         chennai_birth chennai_cached
       = (Return (set_timezone (set_coords chennai_birth 13.0827%float 80.2707%float)
                    (PStr "+05:30")), st').
Proof.
  assert (Hdown : providers_down network_down) by (intros n rq; exact I).
  assert (Hgeo : GEO_CACHE chennai_cached !! "Chennai, India"
                 = Some (13.0827%float, 80.2707%float, PStr "Chennai, Tamil Nadu, India"))
    by reflexivity.
  assert (Hmiss : TZ_CACHE chennai_cached !! coord_key 13.0827%float 80.2707%float = None)
    by reflexivity.
  split; [reflexivity|]. split; [reflexivity|]. split; [reflexivity|].
  split; [exact Hdown|]. split; [exact Hgeo|]. split; [reflexivity|].
  split; [exact Hmiss|].
  exact (resolve_birth_cached_indian_place PyNum.float_of_string PyNum.int_of_string
           fixed_zone_offset true Iso.fromisoformat (fun tz _ => fixed_zone_offset tz)
           None network_down chennai_birth chennai_cached "Chennai, India"
           13.0827%float 80.2707%float (PStr "Chennai, Tamil Nadu, India")
           eq_refl eq_refl eq_refl Hdown Hgeo eq_refl Hmiss).
Defined.
